(** * Preference Data Collector: the storage core of [app.py]

    A shallow embedding of the non-UI functions of [src/app.py]
    (account store, question catalog loader, response ledger, exports and
    statistics) over an explicit model of the flat files they read and
    write, with the properties of the specification stated against it.

    Conventions of the embedding.
    - Python [int] is [Z]; [list] is [list]; [list[i]] is [py_index], with
      Python's negative indices; a [dict] whose iteration order matters is an
      insertion-ordered association list ([odict]).
    - A function that reads or writes files is a computation
      [M A := fs -> result A * fs]: it returns a value or raises, and the
      files it has already written stay written when it raises.
    - Reading a file either yields its decoded content or raises:
      [FileNotFoundError] when it is absent, [PermissionError] when it cannot
      be opened, [ValueError] when its bytes do not decode
      ([json.JSONDecodeError] and [UnicodeDecodeError] are both subclasses).
      Opening a file for writing and removing an existing file succeed.
    - The [csv] module's text encoding is the library's: a CSV file is held
      as its table of rows of cells.
    - Python [float] is the primitive binary64 [float]; [a / b] of two [int]s
      converts both and divides, which is Python's correctly rounded quotient
      as long as both are below 2^53 in size, as the counts of records,
      rows and accounts are. *)

From Stdlib Require Import PrimFloat.
From stdpp Require Import base option list strings gmap sorting.

Open Scope string_scope.
Open Scope Z_scope.
Open Scope list_scope.

(** ** Exceptions and results *)

Inductive exn : Type :=
  | FileNotFoundError
  | PermissionError
  | ValueError
  | KeyError (key : string)
  | IndexError
  | TypeError.

Inductive result (A : Type) : Type :=
  | Ok (a : A)
  | Raise (e : exn).
Arguments Ok {A} a.
Arguments Raise {A} e.

(** [except FileNotFoundError] catches exactly this one. *)
Definition is_FileNotFoundError (e : exn) : bool :=
  match e with FileNotFoundError => true | _ => false end.

(** What a function puts in the second component of its [(bool, str)]
    answer: a literal, [str(e)] of the exception caught, or the f-string
    [f"Failed to delete user: {e}"]. *)
Inductive message : Type :=
  | Text (s : string)
  | StrOfExn (e : exn)
  | FailedToDelete (e : exn).

(** ** Python lists and ordered dicts *)

(** [l[i]]: counted from the end when [i] is negative, [IndexError]
    ([None]) when [i >= len(l)] or [i < -len(l)]. *)
Definition py_index {A : Type} (l : list A) (i : Z) : option A :=
  if 0 <=? i then l !! Z.to_nat i
  else if - Z.of_nat (length l) <=? i then l !! Z.to_nat (Z.of_nat (length l) + i)
  else None.

(** An [int] as a [float]: exact for integers of size below 2^53. *)
Fixpoint float_of_pos (p : positive) : float :=
  match p with
  | xH => 1%float
  | xO p => (2 * float_of_pos p)%float
  | xI p => (2 * float_of_pos p + 1)%float
  end.

Definition float_of_Z (z : Z) : float :=
  match z with
  | Z0 => 0%float
  | Zpos p => float_of_pos p
  | Zneg p => (- float_of_pos p)%float
  end.

(** [a / b] for two [int]s: true division, a [float]. *)
Definition py_truediv (a b : Z) : float := (float_of_Z a / float_of_Z b)%float.

(** A number that is an [int] on one path and a [float] on another. *)
Inductive number : Type :=
  | Int (z : Z)
  | Float (f : float).

(** [x == y] for two numbers: an [int] is compared as the [float] it
    converts to. *)
Definition number_eqb (x y : number) : bool :=
  match x, y with
  | Int a, Int b => a =? b
  | Int a, Float g => PrimFloat.eqb (float_of_Z a) g
  | Float f, Int b => PrimFloat.eqb f (float_of_Z b)
  | Float f, Float g => PrimFloat.eqb f g
  end.

Definition odict (V : Type) : Type := list (string * V).

Fixpoint od_get {V : Type} (k : string) (d : odict V) : option V :=
  match d with
  | [] => None
  | (k', v) :: d' => if decide (k' = k) then Some v else od_get k d'
  end.

(** [k in d] *)
Definition od_mem {V : Type} (k : string) (d : odict V) : bool :=
  match od_get k d with Some _ => true | None => false end.

(** [d[k] = v]: an existing key keeps its position, a new one goes last. *)
Fixpoint od_set {V : Type} (k : string) (v : V) (d : odict V) : odict V :=
  match d with
  | [] => [(k, v)]
  | (k', v') :: d' =>
      if decide (k' = k) then (k, v) :: d' else (k', v') :: od_set k v d'
  end.

(** [del d[k]] *)
Fixpoint od_del {V : Type} (k : string) (d : odict V) : odict V :=
  match d with
  | [] => []
  | (k', v') :: d' => if decide (k' = k) then d' else (k', v') :: od_del k d'
  end.

Definition od_keys {V : Type} (d : odict V) : list string := d.*1.

(** ** Data *)

(** An entry of [users.json]; [created_at] is read with
    [.get("created_at", "Unknown")], so it may be missing. *)
Record Account : Type := mkAccount {
  password : string;
  created_at : option string;
}.

(** A cell of a [csv.DictReader] row or a question field: [str] or [None]. *)
Definition cell : Type := option string.

Record Question : Type := mkQuestion {
  sentence : cell;
  option1 : cell;
  option2 : cell;
}.

(** A record of a user's ledger, as [question_page] builds it. *)
Record Response : Type := mkResponse {
  question_id : Z;
  user : string;
  r_sentence : cell;
  selected_option : Z;
  selected_text : cell;
  confidence : Z;
  timestamp : string;
}.

(** A value handed to [csv.DictWriter.writerow]. *)
Inductive pyval : Type :=
  | PInt (z : Z)
  | PStr (s : string)
  | PNone.

Definition of_cell (c : cell) : pyval :=
  match c with Some s => PStr s | None => PNone end.

(** ** Files *)

(** A file that exists: it cannot be opened, its bytes do not decode, or it
    holds a value. An absent file is [None]. *)
Inductive stored (A : Type) : Type :=
  | Unreadable
  | Malformed
  | Holding (a : A).
Arguments Unreadable {A}.
Arguments Malformed {A}.
Arguments Holding {A} a.

Definition table (C : Type) : Type := list (list C).

Record fs : Type := Fs {
  users_file : option (stored (odict Account));        (* users.json *)
  questions_file : option (stored (table string));    (* questions.csv *)
  data_files : gmap string (stored (list Response));  (* user_data/<u>_data.json *)
  results_files : gmap string (table pyval);          (* user_data/<u>_results.csv *)
  all_data_file : option (table pyval);               (* all_preference_data.csv *)
  stdout : list (string * exn);                       (* "Error processing <u>: <e>" *)
}.

Definition set_users_file (v : option (stored (odict Account))) (s : fs) : fs :=
  Fs v (questions_file s) (data_files s) (results_files s) (all_data_file s) (stdout s).
Definition set_questions_file (v : option (stored (table string))) (s : fs) : fs :=
  Fs (users_file s) v (data_files s) (results_files s) (all_data_file s) (stdout s).
Definition set_data_files (v : gmap string (stored (list Response))) (s : fs) : fs :=
  Fs (users_file s) (questions_file s) v (results_files s) (all_data_file s) (stdout s).
Definition set_results_files (v : gmap string (table pyval)) (s : fs) : fs :=
  Fs (users_file s) (questions_file s) (data_files s) v (all_data_file s) (stdout s).
Definition set_all_data_file (v : option (table pyval)) (s : fs) : fs :=
  Fs (users_file s) (questions_file s) (data_files s) (results_files s) v (stdout s).
Definition set_stdout (v : list (string * exn)) (s : fs) : fs :=
  Fs (users_file s) (questions_file s) (data_files s) (results_files s) (all_data_file s) v.

(** ** Computations over the files *)

Definition M (A : Type) : Type := fs -> result A * fs.

Definition ret {A : Type} (a : A) : M A := fun s => (Ok a, s).

Definition raise {A : Type} (e : exn) : M A := fun s => (Raise e, s).

Definition bind {A B : Type} (m : M A) (k : A -> M B) : M B :=
  fun s => match m s with
           | (Ok a, s') => k a s'
           | (Raise e, s') => (Raise e, s')
           end.

(** [try: m  except <caught> as e: h e] *)
Definition try_except {A : Type} (m : M A) (caught : exn -> bool) (h : exn -> M A) : M A :=
  fun s => match m s with
           | (Ok a, s') => (Ok a, s')
           | (Raise e, s') => if caught e then h e s' else (Raise e, s')
           end.

Definition any_Exception (e : exn) : bool := true.

Definition get {A : Type} (f : fs -> A) : M A := fun s => (Ok (f s), s).
Definition modify (f : fs -> fs) : M unit := fun s => (Ok tt, f s).

Declare Scope py_scope.
Delimit Scope py_scope with py.
Notation "x <- m ;; k" := (bind m (fun x => k))
  (at level 100, m at next level, right associativity) : py_scope.
Notation "m ;;; k" := (bind m (fun _ => k))
  (at level 100, right associativity) : py_scope.
Open Scope py_scope.

(** [open(path, "r")] followed by decoding the whole content. *)
Definition read_file {A : Type} (f : option (stored A)) : M A :=
  match f with
  | None => raise FileNotFoundError
  | Some Unreadable => raise PermissionError
  | Some Malformed => raise ValueError
  | Some (Holding a) => ret a
  end.

(** ** Authentication functions *)

Definition load_users : M (odict Account) :=
  try_except (users <- get users_file ;; read_file users)
    is_FileNotFoundError (fun _ => ret []).

Definition save_users (users : odict Account) : M unit :=
  modify (set_users_file (Some (Holding users))).

Section Accounts.

(** [hashlib.sha256(password.encode()).hexdigest()] *)
Variable sha256_hexdigest : string -> string.

Definition hash_password (password : string) : string :=
  sha256_hexdigest password.

(** [now] is [datetime.now().strftime("%Y-%m-%d %H:%M:%S")]. *)
Definition register_user (now : string) (username password : string)
  : M (bool * message) :=
  users <- load_users ;;
  if od_mem username users then ret (false, Text "Username already exists")
  else
    let hashed_password := hash_password password in
    let users := od_set username (mkAccount hashed_password (Some now)) users in
    save_users users ;;;
    ret (true, Text "Registration successful").

Definition authenticate (username password : string) : M (bool * message) :=
  users <- load_users ;;
  match od_get username users with
  | None => ret (false, Text "User not found")
  | Some (mkAccount stored_password _) =>
      let hashed_password := hash_password password in
      if decide (stored_password = hashed_password)
      then ret (true, Text "Authentication successful")
      else ret (false, Text "Incorrect password")
  end.

End Accounts.

(** ** Question handling functions *)

Definition lift {A : Type} (r : result A) : M A := fun s => (r, s).

(** One row of [csv.DictReader]: [dict(zip(fieldnames, row))], then [None]
    under every field name the row is too short for. Cells beyond the field
    names go under the key [None], which no lookup by name reaches. *)
Definition dict_row (fieldnames row : list string) : gmap string cell :=
  let d := foldl (fun d kv => <[kv.1 := Some kv.2]> d) ∅ (zip fieldnames row) in
  foldl (fun d k => <[k := None]> d) d (drop (length row) fieldnames).

(** [csv.DictReader(f)]: the first row gives the field names, blank rows
    after it are skipped. *)
Definition DictReader (t : table string) : list (gmap string cell) :=
  match t with
  | [] => []
  | fieldnames :: rows =>
      dict_row fieldnames <$> filter (fun row => row ≠ []) rows
  end.

(** [row[key]] *)
Definition row_get (row : gmap string cell) (key : string) : result cell :=
  match row !! key with
  | Some c => Ok c
  | None => Raise (KeyError key)
  end.

Definition question_of_row (row : gmap string cell) : result Question :=
  match row_get row "translated" with
  | Raise e => Raise e
  | Ok s =>
      match row_get row "text" with
      | Raise e => Raise e
      | Ok o1 =>
          match row_get row "multi" with
          | Raise e => Raise e
          | Ok o2 => Ok (mkQuestion s o1 o2)
          end
      end
  end.

(** [for row in csv_reader: ... questions.append(question)] *)
Fixpoint questions_of_rows (rows : list (gmap string cell)) : result (list Question) :=
  match rows with
  | [] => Ok []
  | row :: rows' =>
      match question_of_row row with
      | Raise e => Raise e
      | Ok q =>
          match questions_of_rows rows' with
          | Raise e => Raise e
          | Ok qs => Ok (q :: qs)
          end
      end
  end.

Definition sample_questions : list Question :=
  [ mkQuestion (Some "The movie was really enjoyable and entertaining.")
             (Some "I found the film to be quite delightful.")
             (Some "The cinematic experience gave me great pleasure.");
    mkQuestion (Some "The company announced record profits this quarter.")
             (Some "The firm reported unprecedented earnings for this period.")
             (Some "The business revealed they had their most successful quarter yet.");
    mkQuestion (Some "The researchers discovered a new species of frog.")
             (Some "Scientists identified a previously unknown amphibian of the frog family.")
             (Some "The research team found a type of frog that was not known before.") ].

(** The text [csv.writer] puts in a cell: [None] is written empty. *)
Definition cell_text (c : cell) : string := default "" c.

(** [writer.writeheader()] and one [writer.writerow] per question, with
    [fieldnames = ["text", "multi", "translated"]]. *)
Definition questions_table (questions : list Question) : table string :=
  ["text"; "multi"; "translated"]
  :: ((fun q => [cell_text (option1 q); cell_text (option2 q); cell_text (sentence q)])
      <$> questions).

(** The body of the [try] block of [load_questions]. *)
Definition read_questions : M (list Question) :=
  f <- get questions_file ;;
  t <- read_file f ;;
  questions <- lift (questions_of_rows (DictReader t)) ;;
  match questions with
  | [] => raise FileNotFoundError
  | _ => ret questions
  end.

Definition load_questions : M (list Question) :=
  try_except read_questions is_FileNotFoundError
    (fun _ =>
       let questions := sample_questions in
       modify (set_questions_file (Some (Holding (questions_table questions)))) ;;;
       ret questions).

(** ** The desktop front-end's loader *)

(** [PreferenceCollector.load_questions] of [preference.py]: the same
    loader over [./data/questions.csv], appending to [self.questions] (which
    [__init__] has set to [[]]) and returning nothing; here it returns the
    final [self.questions]. Its [open(..., "w")] needs the directory
    [./data], which nothing creates. *)
Module Desktop.

Definition read_questions (self_questions : list Question) : M (list Question) :=
  f <- get questions_file ;;
  t <- read_file f ;;
  questions <- lift (questions_of_rows (DictReader t)) ;;
  let self_questions := (self_questions ++ questions)%list in
  match self_questions with
  | [] => raise FileNotFoundError
  | _ => ret self_questions
  end.

Definition load_questions (data_dir_exists : bool) (self_questions : list Question)
  : M (list Question) :=
  try_except (read_questions self_questions) is_FileNotFoundError
    (fun _ =>
       let self_questions := sample_questions in
       (if data_dir_exists
        then modify (set_questions_file (Some (Holding (questions_table self_questions))))
        else raise FileNotFoundError) ;;;
       ret self_questions).

End Desktop.

(** ** The response ledger *)

Definition load_responses (username : string) : M (list Response) :=
  try_except (f <- get (fun s => data_files s !! username) ;; read_file f)
    is_FileNotFoundError (fun _ => ret []).

(** [json.dump(responses, f)] into [user_data/<username>_data.json] *)
Definition write_responses (username : string) (responses : list Response) : M unit :=
  modify (fun s => set_data_files (<[username := Holding responses]> (data_files s)) s).

(** The index the [for i, r in enumerate(responses)] scan stops at. *)
Definition existing_index (responses : list Response) (response : Response) : option nat :=
  fst <$> list_find (fun r => question_id r = question_id response) responses.

(** [list.sort(key=lambda x: x["question_id"])]: a stable sort, here by
    insertion; [sort_by_question_id_Sorted], [sort_by_question_id_Permutation]
    and [sort_by_question_id_stable] below fix its result uniquely. *)
Fixpoint insert_by_question_id (x : Response) (l : list Response) : list Response :=
  match l with
  | [] => [x]
  | y :: l' =>
      if question_id x <=? question_id y then x :: y :: l'
      else y :: insert_by_question_id x l'
  end.

Definition sort_by_question_id (l : list Response) : list Response :=
  foldr insert_by_question_id [] l.

(** What [save_response] does to the list it has loaded: replace at the
    index found, or append and sort. *)
Definition update_responses (responses : list Response) (response : Response)
  : list Response :=
  match existing_index responses response with
  | Some i => <[i := response]> responses
  | None => sort_by_question_id (responses ++ [response])
  end.

Definition save_response (username : string) (response : Response) : M (list Response) :=
  responses <- load_responses username ;;
  let responses := update_responses responses response in
  write_responses username responses ;;;
  ret responses.

(** The scan of [question_page] for the record of a question:
    [for response in responses: if response["question_id"] == current_index]. *)
Definition previous_response (responses : list Response) (current_index : Z)
  : option Response :=
  snd <$> list_find (fun r => question_id r = current_index) responses.

(** ** Exports *)

(** A row dict as built by the two exports: its keys in insertion order. *)
Definition joined_row (username : string) (question : Question) (response : Response)
  : odict pyval :=
  [ ("question_id", PInt (question_id response));
    ("user", PStr username);
    ("sentence", of_cell (sentence question));
    ("option1", of_cell (option1 question));
    ("option2", of_cell (option2 question));
    ("selected_option", PInt (selected_option response));
    ("selected_text", of_cell (selected_text response));
    ("confidence", PInt (confidence response));
    ("timestamp", PStr (timestamp response)) ].

Definition results_fieldnames : list string :=
  [ "question_id"; "user"; "sentence"; "option1"; "option2";
    "selected_option"; "selected_text"; "confidence"; "timestamp" ].

(** [csv.DictWriter]: the header row, and a row dict laid out along the
    field names. *)
Definition header_row (fieldnames : list string) : list pyval := PStr <$> fieldnames.

Definition dict_to_list (fieldnames : list string) (rowdict : odict pyval) : list pyval :=
  (fun k => default (PStr "") (od_get k rowdict)) <$> fieldnames.

(** The [for response in responses] loop of [export_results]: the rows
    written, and the exception that ended the loop early, if any. *)
Fixpoint export_rows (username : string) (questions : list Question)
    (responses : list Response) : table pyval * option exn :=
  match responses with
  | [] => ([], None)
  | response :: responses' =>
      match py_index questions (question_id response) with
      | None => ([], Some IndexError)
      | Some question =>
          let row := joined_row username question response in
          let '(rows, e) := export_rows username questions responses' in
          (dict_to_list results_fieldnames row :: rows, e)
      end
  end.

Definition results_path (username : string) : string :=
  "user_data/" +:+ username +:+ "_results.csv".

Definition export_results (username : string) (questions : list Question)
    (responses : list Response) : M (bool * message) :=
  let export_file := results_path username in
  try_except
    (let '(rows, e) := export_rows username questions responses in
     modify (fun s => set_results_files
                        (<[username := header_row results_fieldnames :: rows]>
                           (results_files s)) s) ;;;
     match e with
     | Some e => raise e
     | None => ret (true, Text export_file)
     end)
    any_Exception (fun e => ret (false, StrOfExn e)).

(** The [for response in responses] loop of [export_all_data], appending to
    [all_data]; what it has appended stays when it raises. *)
Fixpoint join_responses (username : string) (questions : list Question)
    (responses : list Response) (all_data : list (odict pyval))
  : list (odict pyval) * option exn :=
  match responses with
  | [] => (all_data, None)
  | response :: responses' =>
      let question_id := question_id response in
      if question_id <? Z.of_nat (length questions) then
        match py_index questions question_id with
        | None => (all_data, Some IndexError)
        | Some question =>
            let entry := joined_row username question response in
            join_responses username questions responses' (all_data ++ [entry])
        end
      else join_responses username questions responses' all_data
  end.

(** [print(f"Error processing {username}: {e}")] *)
Definition print_error (username : string) (e : exn) (s : fs) : fs :=
  set_stdout (stdout s ++ [(username, e)]) s.

(** One turn of [for username in users], with its [try] and
    [except Exception]. *)
Definition collect_user (questions : list Question) (all_data : list (odict pyval))
    (username : string) : M (list (odict pyval)) :=
  fun s =>
    match load_responses username s with
    | (Ok responses, s') =>
        match join_responses username questions responses all_data with
        | (all_data', None) => (Ok all_data', s')
        | (all_data', Some e) => (Ok all_data', print_error username e s')
        end
    | (Raise e, s') => (Ok all_data, print_error username e s')
    end.

Fixpoint foldM {A B : Type} (f : B -> A -> M B) (b : B) (l : list A) : M B :=
  match l with
  | [] => ret b
  | a :: l' => b' <- f b a ;; foldM f b' l'
  end.

Definition all_data_table (all_data : list (odict pyval)) : table pyval :=
  match all_data with
  | first :: _ =>
      let fieldnames := od_keys first in
      header_row fieldnames :: (dict_to_list fieldnames <$> all_data)
  | [] => [[PStr "No data available"]]
  end.

Definition export_all_data : M (bool * message) :=
  let export_file := "all_preference_data.csv" in
  try_except
    (users <- load_users ;;
     questions <- load_questions ;;
     all_data <- foldM (collect_user questions) [] (od_keys users) ;;
     modify (set_all_data_file (Some (all_data_table all_data))) ;;;
     ret (true, Text export_file))
    any_Exception (fun e => ret (false, StrOfExn e)).

(** ** Deleting a user *)

Definition delete_user (username : string) : M (bool * message) :=
  users <- load_users ;;
  try_except
    (exists_ <- get (fun s => bool_decide (is_Some (data_files s !! username))) ;;
     (if exists_ : bool
      then modify (fun s => set_data_files (delete username (data_files s)) s)
      else ret tt) ;;;
     (if od_mem username users
      then save_users (od_del username users)
      else ret tt) ;;;
     ret (true, Text ("User '" +:+ username +:+ "' deleted successfully")))
    any_Exception (fun e => ret (false, FailedToDelete e)).

(** ** Statistics *)

Record Progress : Type := mkProgress {
  p_responses : Z;
  p_progress : number;
  p_created_at : string;
}.

(** The counters of [get_statistics] that its loop updates. *)
Record Tally : Type := mkTally {
  total_responses : Z;
  completed_users : Z;
  user_progress : odict Progress;
}.

Record Statistics : Type := mkStatistics {
  st_total_users : Z;
  st_total_responses : Z;
  st_question_count : Z;
  st_completion_rate : number;
  st_user_progress : odict Progress;
}.

(** [sum(1 for _ in csv_reader) - 1], or 0 without the file. *)
Definition count_questions : M Z :=
  try_except
    (f <- get questions_file ;;
     t <- read_file f ;;
     ret (Z.of_nat (length t) - 1))
    is_FileNotFoundError (fun _ => ret 0).

(** [users[username].get("created_at", "Unknown")] *)
Definition created_at_of (users : odict Account) (username : string) : string :=
  match od_get username users with
  | Some acct => default "Unknown" (created_at acct)
  | None => "Unknown"
  end.

(** One turn of [for username in users] in [get_statistics]. *)
Definition tally_user (users : odict Account) (question_count : Z)
    (t : Tally) (username : string) : M Tally :=
  try_except
    (responses <- load_responses username ;;
     let n := Z.of_nat (length responses) in
     let progress_percentage :=
       if 0 <? question_count
       then Float (py_truediv n question_count * 100)%float
       else Int 0 in
     ret (mkTally
            (total_responses t + n)
            (if question_count <=? n then completed_users t + 1 else completed_users t)
            (od_set username
               (mkProgress n progress_percentage (created_at_of users username))
               (user_progress t))))
    any_Exception
    (fun _ =>
       ret (mkTally
              (total_responses t)
              (completed_users t)
              (od_set username
                 (mkProgress 0 (Int 0) (created_at_of users username))
                 (user_progress t)))).

(** The loop of [get_statistics] over all users. *)
Definition tally_users (users : odict Account) (question_count : Z) : M Tally :=
  foldM (tally_user users question_count) (mkTally 0 0 []) (od_keys users).

Definition completion_rate_of (total_users question_count completed_users : Z) : number :=
  if (0 <? total_users) && (0 <? question_count)
  then Float (py_truediv completed_users total_users * 100)%float
  else Int 0.

Definition get_statistics : M Statistics :=
  users <- load_users ;;
  let total_users := Z.of_nat (length users) in
  question_count <- count_questions ;;
  t <- tally_users users question_count ;;
  let completion_rate := completion_rate_of total_users question_count (completed_users t) in
  ret (mkStatistics total_users (total_responses t) question_count
         completion_rate (user_progress t)).

(** ** Notions the properties are stated with *)

(** The ordinals of a ledger, in its order. *)
Abbreviation ordinals responses := (question_id <$> responses).

(** The invariant of a persisted ledger. *)
Definition ledger_ok (responses : list Response) : Prop :=
  NoDup (ordinals responses) /\ Sorted Z.le (ordinals responses).

Definition all_cells_str (q : Question) : Prop :=
  is_Some (sentence q) /\ is_Some (option1 q) /\ is_Some (option2 q).

(** [l[i]] raises [IndexError]. *)
Definition index_error {A : Type} (l : list A) (i : Z) : Prop :=
  i < - Z.of_nat (length l) \/ Z.of_nat (length l) <= i.

(** Row [row] is record [response] joined with its question. *)
Definition joins (username : string) (questions : list Question)
    (response : Response) (row : list pyval) : Prop :=
  exists question,
    py_index questions (question_id response) = Some question
    /\ row = dict_to_list results_fieldnames (joined_row username question response).

(** The rows the aggregate export is to hold for one user: one per record
    whose ordinal is a position of the catalog, the others skipped. *)
Definition rows_in_range (username : string) (questions : list Question)
    (responses : list Response) : list (odict pyval) :=
  omap (fun r =>
          if 0 <=? question_id r
          then (fun q => joined_row username q r) <$> questions !! Z.to_nat (question_id r)
          else None)
       responses.

(** ... and for a user whose ledger does not load, none. *)
Definition rows_of_user (questions : list Question) (s : fs) (username : string)
  : list (odict pyval) :=
  match fst (load_responses username s) with
  | Ok responses => rows_in_range username questions responses
  | Raise _ => []
  end.

Definition error_of_user (s : fs) (username : string) : list (string * exn) :=
  match fst (load_responses username s) with
  | Ok _ => []
  | Raise e => [(username, e)]
  end.

(** Loading a ledger looks at the ledger files only. *)
Definition same_ledgers (s s1 : fs) : Prop :=
  data_files s1 = data_files s.

(** A user counts as completed: the ledger loads, with at least
    [question_count] records. *)
Definition counts_as_completed (s : fs) (question_count : Z) (username : string) : bool :=
  match fst (load_responses username s) with
  | Ok responses => question_count <=? Z.of_nat (length responses)
  | Raise _ => false
  end.

Definition completed_count (s : fs) (question_count : Z) (usernames : list string) : Z :=
  Z.of_nat (length (filter (fun u => counts_as_completed s question_count u = true) usernames)).

(** The completion rate as the specification words it:
    [100 * completedIdentityCount / totalAccountCount], 0 if either is 0. *)
Definition completionRatePercent (completedIdentityCount totalAccountCount : Z) : number :=
  if (completedIdentityCount =? 0) || (totalAccountCount =? 0)
  then Int 0
  else Float (100 * float_of_Z completedIdentityCount / float_of_Z totalAccountCount)%float.

(** ** Concrete working directories *)

(** An empty working directory. *)
Definition fs_empty : fs := Fs None None ∅ ∅ None [].

(** A record of "u1" for the first sample question. *)
Definition answer (question_id : Z) (selected_option confidence : Z) (timestamp : string)
  : Response :=
  mkResponse question_id "u1" (Some "The movie was really enjoyable and entertaining.")
    selected_option
    (Some (if selected_option =? 1
           then "I found the film to be quite delightful."
           else "The cinematic experience gave me great pleasure."))
    confidence timestamp.

(** "u1" has answered question 1 with option 1 and confidence 4. *)
Definition fs_u1 : fs :=
  set_data_files {[ "u1" := Holding [answer 1 1 4 "2024-03-01 09:00:00"] ]} fs_empty.

(** "u1" has answered questions 0 and 2. *)
Definition fs_u1_02 : fs :=
  set_data_files
    {[ "u1" := Holding [answer 0 2 5 "2024-03-01 09:00:00";
                        answer 2 1 3 "2024-03-01 09:02:00"] ]} fs_empty.

(** Three accounts: "u1" with ordinals 0 and 5, "u2" with a ledger that
    does not decode, "u3" without a ledger; no catalog yet. *)
Definition fs_three_users : fs :=
  set_users_file
    (Some (Holding [ ("u1", mkAccount "h1" (Some "2024-02-01 08:00:00"));
                     ("u2", mkAccount "h2" (Some "2024-02-02 08:00:00"));
                     ("u3", mkAccount "h3" None) ]))
    (set_data_files
       {[ "u1" := Holding [answer 0 2 5 "2024-03-01 09:00:00";
                           answer 5 1 3 "2024-03-01 09:02:00"];
          "u2" := Malformed ]}
       fs_empty).

(** Two accounts over the seeded catalog of 3: "u1" has answered all 3
    questions, "u2" one. *)
Definition fs_two_users : fs :=
  set_users_file
    (Some (Holding [ ("u1", mkAccount "h1" (Some "2024-02-01 08:00:00"));
                     ("u2", mkAccount "h2" (Some "2024-02-02 08:00:00")) ]))
    (set_questions_file (Some (Holding (questions_table sample_questions)))
       (set_data_files
          {[ "u1" := Holding [answer 0 2 5 "2024-03-01 09:00:00";
                              answer 1 1 4 "2024-03-01 09:01:00";
                              answer 2 1 3 "2024-03-01 09:02:00"];
             "u2" := Holding [answer 0 1 2 "2024-03-02 10:00:00"] ]}
          fs_empty)).

(** ** The pages of the web front-end *)

(** [st.session_state]: the keys the pages use. [is_admin] and
    [show_summary] are read with [.get(key, False)]. *)
Record Session : Type := mkSession {
  logged_in : bool;
  session_username : option string;
  is_admin : bool;
  question_index : option Z;
  show_summary : bool;
}.

(** The session [main] starts with, and the one [Logout] leaves once
    [main] has run again: no key but [logged_in = False]. *)
Definition fresh_session : Session := mkSession false None false None false.

Definition set_question_index (i : Z) (ss : Session) : Session :=
  mkSession (logged_in ss) (session_username ss) (is_admin ss) (Some i) (show_summary ss).
Definition set_show_summary (b : bool) (ss : Session) : Session :=
  mkSession (logged_in ss) (session_username ss) (is_admin ss) (question_index ss) b.

(** What a page shows for the action taken: [st.error] or [st.success]. *)
Inductive feedback : Type :=
  | st_error (m : message)
  | st_success (m : message).

(** [not s] for a [str] *)
Definition is_empty (s : string) : bool := bool_decide (s = "").

Section Pages.

Variable sha256_hexdigest : string -> string.

(** The "Login" button of [login_page]. *)
Definition login_button (username password : string) (ss : Session)
  : M (Session * feedback) :=
  if is_empty username || is_empty password
  then ret (ss, st_error (Text "Please enter both username and password"))
  else
    r <- authenticate sha256_hexdigest username password ;;
    let '(success, message) := r in
    if success : bool
    then ret (mkSession true (Some username) (bool_decide (username = "admin"))
                (question_index ss) (show_summary ss),
              st_success message)
    else ret (ss, st_error message).

(** The "Register" button of [login_page]. *)
Definition register_button (now username password confirm_password : string)
  : M feedback :=
  if is_empty username || is_empty password
  then ret (st_error (Text "Please enter both username and password"))
  else if negb (bool_decide (password = confirm_password))
  then ret (st_error (Text "Passwords do not match"))
  else
    r <- register_user sha256_hexdigest now username password ;;
    let '(success, message) := r in
    if success : bool then ret (st_success message) else ret (st_error message).

End Pages.

(** What the user did in the run of the page: a button, the form, or
    nothing. [Go] carries the value of the [number_input], [Goto] the index
    of the button pressed on the summary page. *)
Inductive page_event : Type :=
  | NoEvent
  | First
  | Previous
  | Next
  | Last
  | Go (jump_to : Z)
  | ViewSummary
  | Logout
  | SaveAnswer (selected_option : cell) (confidence : Z)
  | Goto (q_idx : nat)
  | ExportMyResults
  | BackToQuestions.

(** The index [question_page] starts a session at. *)
Definition initial_question_index (responses : list Response) (questions : list Question)
  : Z :=
  if Z.of_nat (length responses) <? Z.of_nat (length questions)
  then Z.of_nat (length responses)
  else 0.

(** [st.session_state.question_index], once [question_page] has set it. *)
Definition current_question_index (ss : Session) : Z := default 0 (question_index ss).

(** The sidebar of [question_page]: [Some ss'] when a button has changed
    the session and called [st.rerun()], [None] when the run goes on. *)
Definition sidebar (questions : list Question) (ev : page_event) (ss : Session)
  : option Session :=
  let question_index := current_question_index ss in
  match ev with
  | First => Some (set_question_index 0 ss)
  | Previous =>
      if 0 <? question_index then Some (set_question_index (question_index - 1) ss)
      else None
  | Next =>
      if question_index <? Z.of_nat (length questions) - 1
      then Some (set_question_index (question_index + 1) ss)
      else None
  | Last => Some (set_question_index (Z.of_nat (length questions) - 1) ss)
  | Go jump_to => Some (set_question_index (jump_to - 1) ss)
  | ViewSummary => Some (set_show_summary true ss)
  | Logout => Some fresh_session
  | _ => None
  end.

(** The record the form of [question_page] builds on "Save Answer". *)
Definition form_response (username : string) (question : Question) (current_index : Z)
    (selected_option : cell) (confidence : Z) (now : string) : Response :=
  let option_value := if decide (selected_option = option1 question) then 1 else 2 in
  mkResponse current_index username (sentence question) option_value selected_option
    confidence now.

(** The buttons "Q1", "Q2", ... of [summary_page], row by row: the indices
    [q_idx] they set. *)
Definition goto_buttons (num_questions : nat) : list nat :=
  let num_buttons_per_row := 5%nat in
  let num_rows := ((num_questions + num_buttons_per_row - 1) / num_buttons_per_row)%nat in
  row ← seq 0 num_rows;
  col_idx ← seq 0 num_buttons_per_row;
  let q_idx := (row * num_buttons_per_row + col_idx)%nat in
  if bool_decide (q_idx < num_questions)%nat then [q_idx] else [].

(** A row of the "Question Status" table of [summary_page]. *)
Record StatusRow : Type := mkStatusRow {
  question_number : Z;
  question_text : string;
  answered : bool;
}.

(** The text the table shows for a question: [sentence[:50] + "..."] when
    [len(sentence) > 50], else [sentence]; [len(None)] raises [TypeError]. *)
Definition truncated_text (sentence : cell) : result string :=
  match sentence with
  | None => Raise TypeError
  | Some sentence =>
      Ok (if (50 <? String.length sentence)%nat
          then (String.substring 0 50 sentence ++ "...")%string
          else sentence)
  end.

(** The [for i, question in enumerate(questions)] loop of [summary_page],
    from index [i] on. *)
Fixpoint status_data (answered_ids : list Z) (i : Z) (questions : list Question)
  : result (list StatusRow) :=
  match questions with
  | [] => Ok []
  | question :: questions' =>
      match truncated_text (sentence question) with
      | Raise e => Raise e
      | Ok text =>
          let status := bool_decide (i ∈ answered_ids) in
          match status_data answered_ids (i + 1) questions' with
          | Raise e => Raise e
          | Ok rows => Ok (mkStatusRow (i + 1) text status :: rows)
          end
      end
  end.

(** [summary_page], for the events it has buttons for. The three metrics
    are shown from [len(questions)] and [len(responses)]; the status table
    is built, and shown, before any button is looked at. *)
Definition summary_page (username : string) (ev : page_event) (ss : Session)
  : M (Session * option feedback) :=
  questions <- load_questions ;;
  responses <- load_responses username ;;
  let answered_ids := question_id <$> responses in
  lift (status_data answered_ids 0 questions) ;;;
  match ev with
  | Goto q_idx =>
      if bool_decide (q_idx ∈ goto_buttons (length questions))
      then ret (set_show_summary false (set_question_index (Z.of_nat q_idx) ss), None)
      else ret (ss, None)
  | ExportMyResults =>
      r <- export_results username questions responses ;;
      let '(success, result) := r in
      if success : bool then ret (ss, Some (st_success result))
      else ret (ss, Some (st_error result))
  | BackToQuestions => ret (set_show_summary false ss, None)
  | _ => ret (ss, None)
  end.

(** One run of [question_page] for the logged-in [username]. *)
Definition question_page (username now : string) (ev : page_event) (ss : Session)
  : M (Session * option feedback) :=
  questions <- load_questions ;;
  responses <- load_responses username ;;
  let ss :=
    match question_index ss with
    | None => set_question_index (initial_question_index responses questions) ss
    | Some _ => ss
    end in
  match sidebar questions ev ss with
  | Some ss' => ret (ss', None)
  | None =>
      if show_summary ss then summary_page username ev ss
      else
        let current_index := current_question_index ss in
        if current_index <? Z.of_nat (length questions) then
          match py_index questions current_index with
          | None => raise IndexError
          | Some question =>
              match ev with
              | SaveAnswer selected_option confidence =>
                  let response :=
                    form_response username question current_index
                      selected_option confidence now in
                  save_response username response ;;;
                  if current_index <? Z.of_nat (length questions) - 1
                  then ret (set_question_index (current_index + 1) ss,
                            Some (st_success (Text "Response saved successfully!")))
                  else ret (ss, Some (st_success (Text "Response saved successfully!")))
              | _ => ret (ss, None)
              end
          end
        else ret (ss, Some (st_error (Text "Question index out of range")))
  end.

(** ** The desktop front-end *)

(** [PreferenceCollector] of [preference.py], after [load_questions]: the
    fields of [self] that the methods use, and the two files they touch,
    [preference_data.json] and [preference_results.csv]. *)
Module PreferenceCollector.

(** A record of [preference_data.json]: it has no [user]. *)
Record Answer : Type := mkAnswer {
  a_question_id : Z;
  a_sentence : cell;
  a_selected_option : Z;
  a_selected_text : cell;
  a_confidence : Z;
  a_timestamp : string;
}.

Record State : Type := mkState {
  questions : list Question;
  responses : list Answer;
  current_index : Z;
  data_file : option (stored (list Answer));
  results_file : option (table pyval);
}.

(** What a method leaves on screen. *)
Inductive outcome : Type :=
  | SelectionRequired
  | Submitted
  | ExportSuccessful
  | ExportFailed (e : exn).

Definition load_responses (st : State) : result unit * State :=
  match data_file st with
  | None => (Ok tt, mkState (questions st) [] 0 (data_file st) (results_file st))
  | Some Unreadable => (Raise PermissionError, st)
  | Some Malformed => (Raise ValueError, st)
  | Some (Holding l) =>
      (Ok tt, mkState (questions st) l (Z.of_nat (length l)) (data_file st) (results_file st))
  end.

Definition save_responses (st : State) : State :=
  mkState (questions st) (responses st) (current_index st)
    (Some (Holding (responses st))) (results_file st).

(** [l[i] = x], for the [i] the caller has checked to be below [len(l)]. *)
Definition py_assign {A : Type} (l : list A) (i : Z) (x : A) : option (list A) :=
  if 0 <=? i then
    if i <? Z.of_nat (length l) then Some (<[Z.to_nat i := x]> l) else None
  else if - Z.of_nat (length l) <=? i
       then Some (<[Z.to_nat (Z.of_nat (length l) + i) := x]> l)
       else None.

(** [option_var] and [confidence_var] are the values of the two widgets,
    [now] the formatted [datetime.now()]. *)
Definition submit_response (option_var confidence_var : Z) (now : string) (st : State)
  : result outcome * State :=
  if option_var =? 0 then (Ok SelectionRequired, st)
  else
    match py_index (questions st) (current_index st) with
    | None => (Raise IndexError, st)
    | Some question =>
        let response :=
          mkAnswer (current_index st) (sentence question) option_var
            (if option_var =? 1 then option1 question else option2 question)
            confidence_var now in
        let responses' :=
          if current_index st <? Z.of_nat (length (responses st))
          then py_assign (responses st) (current_index st) response
          else Some (responses st ++ [response]) in
        match responses' with
        | None => (Raise IndexError, st)
        | Some responses' =>
            let st := mkState (questions st) responses' (current_index st)
                        (data_file st) (results_file st) in
            let st := save_responses st in
            (Ok Submitted,
             mkState (questions st) (responses st) (current_index st + 1)
               (data_file st) (results_file st))
        end
    end.

Definition fieldnames : list string :=
  [ "question_id"; "sentence"; "option1"; "option2";
    "selected_option"; "selected_text"; "confidence"; "timestamp" ].

Definition row_of (question : Question) (response : Answer) : odict pyval :=
  [ ("question_id", PInt (a_question_id response));
    ("sentence", of_cell (sentence question));
    ("option1", of_cell (option1 question));
    ("option2", of_cell (option2 question));
    ("selected_option", PInt (a_selected_option response));
    ("selected_text", of_cell (a_selected_text response));
    ("confidence", PInt (a_confidence response));
    ("timestamp", PStr (a_timestamp response)) ].

(** The [for i, response in enumerate(self.responses)] loop. *)
Fixpoint export_rows (questions : list Question) (responses : list Answer)
  : table pyval * option exn :=
  match responses with
  | [] => ([], None)
  | response :: responses' =>
      match py_index questions (a_question_id response) with
      | None => ([], Some IndexError)
      | Some question =>
          let '(rows, e) := export_rows questions responses' in
          (dict_to_list fieldnames (row_of question response) :: rows, e)
      end
  end.

Definition export_results (st : State) : outcome * State :=
  let '(rows, e) := export_rows (questions st) (responses st) in
  let st := mkState (questions st) (responses st) (current_index st) (data_file st)
              (Some (header_row fieldnames :: rows)) in
  match e with
  | Some e => (ExportFailed e, st)
  | None => (ExportSuccessful, st)
  end.

End PreferenceCollector.

(** ** More notions the properties are stated with *)

(** The last record of ordinal [q] in a run of submissions. *)
Definition last_of (q : Z) (submissions : list Response) : option Response :=
  last (filter (fun r => question_id r = q) submissions).

(** The data rows [export_results] writes for a user whose ledger loads. *)
Definition own_rows (questions : list Question) (s : fs) (username : string)
  : list (list pyval) :=
  match fst (load_responses username s) with
  | Ok responses => fst (export_rows username questions responses)
  | Raise _ => []
  end.

(** The three columns [load_questions] reads. *)
Definition has_columns (fieldnames : list string) : Prop :=
  "translated" ∈ fieldnames /\ "text" ∈ fieldnames /\ "multi" ∈ fieldnames.

(** The entry of [user_progress] for one account. *)
Definition progress_of (users : odict Account) (question_count : Z) (s : fs)
    (username : string) : Progress :=
  match fst (load_responses username s) with
  | Ok responses =>
      let n := Z.of_nat (length responses) in
      mkProgress n
        (if 0 <? question_count
         then Float (py_truediv n question_count * 100)%float
         else Int 0)
        (created_at_of users username)
  | Raise _ => mkProgress 0 (Int 0) (created_at_of users username)
  end.

(** The records of the ledgers that load, all users together. *)
Definition responses_loaded (s : fs) (usernames : list string) : Z :=
  foldr (fun u n =>
           match fst (load_responses u s) with
           | Ok responses => Z.of_nat (length responses) + n
           | Raise _ => n
           end) 0 usernames.

(** A session of [question_page] over the files: the catalog loads, the
    index, once set, is a position of the catalog, and the ledger of the
    user holds one record per ordinal, in order, each for a position of the
    catalog. *)
Definition session_ok (username : string) (questions : list Question)
    (s : fs) (ss : Session) : Prop :=
  fst (load_questions s) = Ok questions
  /\ (forall i, question_index ss = Some i -> 0 <= i < Z.of_nat (length questions))
  /\ exists responses,
       fst (load_responses username s) = Ok responses
       /\ ledger_ok responses
       /\ Forall (fun r => 0 <= question_id r < Z.of_nat (length questions)) responses.

(** The events the widgets of a page over [questions] can produce. *)
Definition event_ok (questions : list Question) (ev : page_event) : Prop :=
  match ev with
  | Go jump_to => 1 <= jump_to <= Z.of_nat (length questions)
  | _ => True
  end.

(** Every question of the catalog has its sentence: no row of
    [questions.csv] stops short of the [translated] column. *)
Definition sentences_present (questions : list Question) : Prop :=
  Forall (fun q => is_Some (sentence q)) questions.

(** The desktop ledger numbers its records 0, 1, 2, ... *)
Definition numbered (responses : list PreferenceCollector.Answer) : Prop :=
  PreferenceCollector.a_question_id <$> responses
  = Z.of_nat <$> seq 0 (length responses).

(** The desktop front-end between two submissions: [current_index] is the
    number of records, as [load_responses] sets it. *)
Definition resumed (st : PreferenceCollector.State) : Prop :=
  PreferenceCollector.current_index st
  = Z.of_nat (length (PreferenceCollector.responses st)).

(** ** Running a computation in a proof *)

Ltac unfold_M :=
  cbv [bind ret raise try_except get modify lift read_file any_Exception
       is_FileNotFoundError] in *.

(** * Properties *)

(** ** Loading never writes *)

Lemma load_users_spec (s : fs) :
  load_users s =
    (match users_file s with
     | None => Ok []
     | Some Unreadable => Raise PermissionError
     | Some Malformed => Raise ValueError
     | Some (Holding users) => Ok users
     end, s).
Proof.
  unfold load_users. unfold_M.
  destruct (users_file s) as [[| |users]|]; reflexivity.
Qed.

Lemma load_responses_spec (username : string) (s : fs) :
  load_responses username s =
    (match data_files s !! username with
     | None => Ok []
     | Some Unreadable => Raise PermissionError
     | Some Malformed => Raise ValueError
     | Some (Holding responses) => Ok responses
     end, s).
Proof.
  unfold load_responses. unfold_M.
  destruct (data_files s !! username) as [[| |responses]|]; reflexivity.
Qed.

Lemma load_users_Ok (s : fs) (users : odict Account) :
  fst (load_users s) = Ok users -> load_users s = (Ok users, s).
Proof. rewrite load_users_spec. simpl. by intros ->. Qed.

Lemma load_responses_Ok (username : string) (s : fs) (responses : list Response) :
  fst (load_responses username s) = Ok responses ->
  load_responses username s = (Ok responses, s).
Proof. rewrite load_responses_spec. simpl. by intros ->. Qed.

(** ** Ordered dicts *)

Lemma od_get_set_eq {V : Type} (k : string) (v : V) (d : odict V) :
  od_get k (od_set k v d) = Some v.
Proof.
  induction d as [|[k' v'] d IH]; simpl.
  - by rewrite decide_True.
  - destruct (decide (k' = k)) as [->|Hne]; simpl.
    + by rewrite decide_True.
    + by rewrite decide_False.
Qed.

Lemma od_get_set_ne {V : Type} (k k' : string) (v : V) (d : odict V) :
  k ≠ k' -> od_get k' (od_set k v d) = od_get k' d.
Proof.
  intros Hne. induction d as [|[k0 v0] d IH]; simpl.
  - by rewrite decide_False.
  - destruct (decide (k0 = k)) as [->|Hne0]; simpl.
    + by rewrite !decide_False.
    + by rewrite IH.
Qed.

Lemma od_mem_set {V : Type} (k : string) (v : V) (d : odict V) :
  od_mem k (od_set k v d) = true.
Proof. unfold od_mem. by rewrite od_get_set_eq. Qed.

(** ** C7: registering the same identity twice *)

(** C7. When [username] has no account yet, the first [register_user]
    succeeds and stores the password hash with the creation timestamp; a
    second [register_user] for the same name, whatever its password and
    time, returns "Username already exists" and leaves every file, hence
    the stored hash and timestamp, as the first call left them. *)
Theorem register_user_twice (sha256_hexdigest : string -> string)
    (now1 now2 username password1 password2 : string)
    (s : fs) (users : odict Account) :
  fst (load_users s) = Ok users ->
  od_get username users = None ->
  exists s1 users1,
    register_user sha256_hexdigest now1 username password1 s
      = (Ok (true, Text "Registration successful"), s1)
    /\ load_users s1 = (Ok users1, s1)
    /\ od_get username users1
       = Some (mkAccount (sha256_hexdigest password1) (Some now1))
    /\ register_user sha256_hexdigest now2 username password2 s1
       = (Ok (false, Text "Username already exists"), s1).
Proof.
  intros Hload Hnew. apply load_users_Ok in Hload.
  set (acct := mkAccount (sha256_hexdigest password1) (Some now1)).
  exists (set_users_file (Some (Holding (od_set username acct users))) s),
         (od_set username acct users).
  assert (Hload1 : load_users (set_users_file (Some (Holding (od_set username acct users))) s)
                   = (Ok (od_set username acct users),
                      set_users_file (Some (Holding (od_set username acct users))) s))
    by (by rewrite load_users_spec).
  split; [|split; [|split]].
  - unfold register_user, bind. rewrite Hload.
    unfold od_mem. rewrite Hnew. reflexivity.
  - exact Hload1.
  - apply od_get_set_eq.
  - unfold register_user, bind. rewrite Hload1.
    by rewrite od_mem_set.
Qed.

Lemma register_user_twice_witness :
  fst (load_users fs_empty) = Ok [] /\
  od_get "u1" ([] : odict Account) = None /\
  exists s1 users1,
    register_user (String.append "sha256:") "2024-01-01 10:00:00" "u1" "secret" fs_empty
      = (Ok (true, Text "Registration successful"), s1)
    /\ load_users s1 = (Ok users1, s1)
    /\ od_get "u1" users1
       = Some (mkAccount ("sha256:secret") (Some "2024-01-01 10:00:00"))
    /\ register_user (String.append "sha256:") "2024-01-02 11:30:00" "u1" "other" s1
       = (Ok (false, Text "Username already exists"), s1).
Proof.
  split; [reflexivity|]. split; [reflexivity|].
  apply (register_user_twice (String.append "sha256:")
           "2024-01-01 10:00:00" "2024-01-02 11:30:00" "u1" "secret" "other"
           fs_empty []); reflexivity.
Defined.

(** ** C10: deleting an identity that does not exist *)

(** C10. [delete_user] on a name with no account entry and no ledger file
    returns [True] with the "deleted successfully" message, and leaves the
    account table and every other file untouched. *)
Theorem delete_user_nonexistent (username : string) (s : fs) (users : odict Account) :
  fst (load_users s) = Ok users ->
  od_get username users = None ->
  data_files s !! username = None ->
  delete_user username s
    = (Ok (true, Text ("User '" +:+ username +:+ "' deleted successfully")), s).
Proof.
  intros Hload Hacct Hfile. apply load_users_Ok in Hload.
  unfold delete_user, bind at 1. rewrite Hload.
  unfold od_mem. rewrite Hacct.
  unfold_M. rewrite Hfile.
  rewrite bool_decide_false by (intros [? ?]; discriminate).
  reflexivity.
Qed.

Lemma delete_user_nonexistent_witness :
  fst (load_users fs_empty) = Ok [] /\
  od_get "ghost" ([] : odict Account) = None /\
  data_files fs_empty !! "ghost" = None /\
  delete_user "ghost" fs_empty
    = (Ok (true, Text "User 'ghost' deleted successfully"), fs_empty).
Proof.
  split; [reflexivity|]. split; [reflexivity|]. split; [reflexivity|].
  apply (delete_user_nonexistent "ghost" fs_empty []); reflexivity.
Defined.

(** ** The sort of the ledger *)

Lemma insert_by_question_id_Permutation (x : Response) (l : list Response) :
  insert_by_question_id x l ≡ₚ x :: l.
Proof.
  induction l as [|y l IH]; simpl; [done|].
  destruct (question_id x <=? question_id y); [done|].
  rewrite IH. apply Permutation_swap.
Qed.

Lemma sort_by_question_id_Permutation (l : list Response) :
  sort_by_question_id l ≡ₚ l.
Proof.
  induction l as [|x l IH]; simpl; [done|].
  rewrite insert_by_question_id_Permutation. by rewrite IH.
Qed.

Lemma insert_by_question_id_Sorted (x : Response) (l : list Response) :
  Sorted Z.le (ordinals l) -> Sorted Z.le (ordinals (insert_by_question_id x l)).
Proof.
  induction l as [|y l IH]; simpl; intros Hs.
  - repeat constructor.
  - destruct (Z.leb_spec (question_id x) (question_id y)) as [Hle|Hgt]; simpl.
    + constructor; [done|]. by constructor.
    + inversion Hs as [|? ? Hs' Hhd]; subst.
      constructor; [by apply IH|].
      destruct l as [|z l]; simpl.
      * constructor. lia.
      * destruct (Z.leb_spec (question_id x) (question_id z)); simpl.
        -- constructor. lia.
        -- inversion Hhd; subst. by constructor.
Qed.

Lemma sort_by_question_id_Sorted (l : list Response) :
  Sorted Z.le (ordinals (sort_by_question_id l)).
Proof.
  induction l as [|x l IH]; simpl; [constructor|].
  by apply insert_by_question_id_Sorted.
Qed.

(** Stability: records with equal keys keep their relative order. *)
Lemma insert_by_question_id_stable (k : Z) (x : Response) (l : list Response) :
  filter (fun r => question_id r = k) (insert_by_question_id x l)
  = filter (fun r => question_id r = k) (x :: l).
Proof.
  induction l as [|y l IH]; simpl; [done|].
  destruct (Z.leb_spec (question_id x) (question_id y)) as [Hle|Hgt]; [done|].
  rewrite (filter_cons _ y), IH, !filter_cons.
  destruct (decide (question_id y = k)), (decide (question_id x = k)); try done; lia.
Qed.

Lemma sort_by_question_id_stable (k : Z) (l : list Response) :
  filter (fun r => question_id r = k) (sort_by_question_id l)
  = filter (fun r => question_id r = k) l.
Proof.
  induction l as [|x l IH]; simpl; [done|].
  rewrite insert_by_question_id_stable, !filter_cons. by rewrite IH.
Qed.

(** ** The update of the ledger *)

Lemma existing_index_Some (responses : list Response) (response : Response) (i : nat) :
  existing_index responses response = Some i ->
  exists r, responses !! i = Some r
            /\ question_id r = question_id response
            /\ forall j y, responses !! j = Some y -> (j < i)%nat ->
                           question_id y <> question_id response.
Proof.
  unfold existing_index. intros H.
  destruct (list_find _ responses) as [[i' r]|] eqn:Hfind; simplify_eq/=.
  apply list_find_Some in Hfind as (? & ? & ?). eauto.
Qed.

Lemma existing_index_None (responses : list Response) (response : Response) :
  existing_index responses response = None ->
  question_id response ∉ ordinals responses.
Proof.
  unfold existing_index. intros H.
  destruct (list_find _ responses) as [[i' r]|] eqn:Hfind; simplify_eq/=.
  apply list_find_None in Hfind.
  intros (r & Hq & Hr)%list_elem_of_fmap.
  rewrite Forall_forall in Hfind. by apply (Hfind r).
Qed.

Lemma existing_index_is_Some (responses : list Response) (response : Response) :
  question_id response ∈ ordinals responses ->
  is_Some (existing_index responses response).
Proof.
  intros Hin. destruct (existing_index responses response) eqn:E; [by eexists|].
  by apply existing_index_None in E.
Qed.

Lemma save_response_spec (username : string) (response : Response) (s : fs)
    (responses : list Response) :
  fst (load_responses username s) = Ok responses ->
  save_response username response s
  = (Ok (update_responses responses response),
     set_data_files
       (<[username := Holding (update_responses responses response)]> (data_files s)) s).
Proof.
  intros Hload%load_responses_Ok.
  unfold save_response, bind. rewrite Hload. reflexivity.
Qed.

Lemma load_after_write (username : string) (responses : list Response) (s : fs) :
  load_responses username
    (set_data_files (<[username := Holding responses]> (data_files s)) s)
  = (Ok responses,
     set_data_files (<[username := Holding responses]> (data_files s)) s).
Proof. rewrite load_responses_spec. simpl. by rewrite lookup_insert_eq. Qed.

Lemma update_responses_replace (responses : list Response) (response : Response) (i : nat) :
  existing_index responses response = Some i ->
  update_responses responses response = <[i := response]> responses
  /\ (i < length responses)%nat
  /\ ordinals (update_responses responses response) = ordinals responses.
Proof.
  intros Hi. unfold update_responses. rewrite Hi.
  destruct (existing_index_Some _ _ _ Hi) as (r & Hr & Hq & _).
  split; [done|]. split; [by eapply lookup_lt_Some|].
  rewrite list_fmap_insert. apply list_insert_id.
  by rewrite list_lookup_fmap, Hr, <- Hq.
Qed.

Lemma previous_response_insert (responses : list Response) (response : Response) (i : nat) :
  existing_index responses response = Some i ->
  previous_response (<[i := response]> responses) (question_id response) = Some response.
Proof.
  intros Hi. destruct (existing_index_Some _ _ _ Hi) as (r & Hr & Hq & Hmin).
  unfold previous_response.
  assert (list_find (fun r0 => question_id r0 = question_id response)
            (<[i := response]> responses) = Some (i, response)) as ->; [|done].
  apply list_find_Some. split; [|split; [done|]].
  - apply list_lookup_insert_eq. by eapply lookup_lt_Some.
  - intros j y Hj Hlt. rewrite list_lookup_insert_ne in Hj by lia. by eapply Hmin.
Qed.

(** ** C1: resubmitting an answered question replaces its record *)

(** C1. When the ordinal of the submitted record already occurs in the
    user's persisted ledger, [save_response] returns and persists a ledger
    of the same length in which the record found under that ordinal is the
    submitted one: it was written over the first record of that ordinal,
    at its index; and when the ledger held that ordinal once, no other
    record of the result carries it. *)
Theorem save_response_replaces (username : string) (response : Response) (s : fs)
    (responses : list Response) :
  fst (load_responses username s) = Ok responses ->
  question_id response ∈ ordinals responses ->
  exists responses' s' i,
    save_response username response s = (Ok responses', s')
    /\ load_responses username s' = (Ok responses', s')
    /\ length responses' = length responses
    /\ existing_index responses response = Some i
    /\ responses' = <[i := response]> responses
    /\ responses' !! i = Some response
    /\ previous_response responses' (question_id response) = Some response
    /\ (NoDup (ordinals responses) ->
        forall r, r ∈ responses' -> question_id r = question_id response -> r = response).
Proof.
  intros Hload Hin.
  destruct (existing_index_is_Some _ _ Hin) as [i Hi].
  destruct (update_responses_replace _ _ _ Hi) as (Hupd & Hlt & Hord).
  eexists _, _, i. rewrite (save_response_spec _ _ _ _ Hload), Hupd.
  split; [reflexivity|]. split; [apply load_after_write|].
  split; [apply length_insert|]. split; [done|]. split; [done|].
  split; [by apply list_lookup_insert_eq|].
  split; [by apply previous_response_insert|].
  intros Hnd r Hr Hq.
  apply list_elem_of_lookup in Hr as [j Hj].
  destruct (decide (j = i)) as [->|Hne].
  - rewrite list_lookup_insert_eq in Hj by done. congruence.
  - rewrite list_lookup_insert_ne in Hj by done.
    destruct (existing_index_Some _ _ _ Hi) as (r0 & Hr0 & Hq0 & _).
    exfalso. apply Hne.
    eapply (NoDup_lookup _ j i (question_id response) Hnd).
    + by rewrite list_lookup_fmap, Hj; simpl; rewrite Hq.
    + by rewrite list_lookup_fmap, Hr0; simpl; rewrite Hq0.
Qed.

(** ** C2: the ledger stays sorted, one record per ordinal *)

Lemma update_responses_ok (responses : list Response) (response : Response) :
  ledger_ok responses -> ledger_ok (update_responses responses response).
Proof.
  intros [Hnd Hs].
  destruct (existing_index responses response) as [i|] eqn:Hi.
  - destruct (update_responses_replace _ _ _ Hi) as (_ & _ & Hord).
    unfold ledger_ok. by rewrite Hord.
  - unfold update_responses. rewrite Hi. split.
    + rewrite sort_by_question_id_Permutation, fmap_app. simpl.
      rewrite <- Permutation_cons_append. constructor; [|done].
      by apply existing_index_None.
    + apply sort_by_question_id_Sorted.
Qed.

(** The records of the updated ledger: the submitted one, and those of
    the ledger under another ordinal. *)
Lemma update_responses_elem_of (responses : list Response) (response r : Response) :
  NoDup (ordinals responses) ->
  r ∈ update_responses responses response
  <-> r = response \/ (r ∈ responses /\ question_id r <> question_id response).
Proof.
  intros Hnd.
  destruct (existing_index responses response) as [i|] eqn:Hi.
  - destruct (update_responses_replace _ _ _ Hi) as (-> & Hlt & _).
    destruct (existing_index_Some _ _ _ Hi) as (r0 & Hr0 & Hq0 & _).
    split.
    + intros [j Hj]%list_elem_of_lookup.
      destruct (decide (j = i)) as [->|Hne].
      * rewrite list_lookup_insert_eq in Hj by done. left. congruence.
      * rewrite list_lookup_insert_ne in Hj by done. right.
        split; [by eapply list_elem_of_lookup_2|].
        intros Hq. apply Hne.
        eapply (NoDup_lookup _ j i (question_id response) Hnd).
        -- by rewrite list_lookup_fmap, Hj; simpl; rewrite Hq.
        -- by rewrite list_lookup_fmap, Hr0; simpl; rewrite Hq0.
    + intros [->|[[j Hj]%list_elem_of_lookup Hq]].
      * apply list_elem_of_lookup. exists i. by apply list_lookup_insert_eq.
      * apply list_elem_of_lookup. exists j.
        rewrite list_lookup_insert_ne; [done|].
        intros ->. congruence.
  - unfold update_responses. rewrite Hi.
    rewrite sort_by_question_id_Permutation, elem_of_app, list_elem_of_singleton.
    apply existing_index_None in Hi.
    split.
    + intros [Hr| ->]; [right|by left].
      split; [done|]. intros Hq. apply Hi. rewrite <- Hq.
      by apply list_elem_of_fmap_2.
    + intros [->|[Hr _]]; [by right|by left].
Qed.

(** Its ordinals: those of the ledger and the submitted one. *)
Lemma update_responses_ordinals (responses : list Response) (response : Response) (q : Z) :
  q ∈ ordinals (update_responses responses response)
  <-> q = question_id response \/ q ∈ ordinals responses.
Proof.
  destruct (existing_index responses response) as [i|] eqn:Hi.
  - destruct (update_responses_replace _ _ _ Hi) as (_ & _ & ->).
    destruct (existing_index_Some _ _ _ Hi) as (r0 & Hr0 & Hq0 & _).
    split; [by right|]. intros [->|Hq]; [|done].
    rewrite <- Hq0. apply list_elem_of_fmap_2. by eapply list_elem_of_lookup_2.
  - unfold update_responses. rewrite Hi.
    rewrite sort_by_question_id_Permutation, fmap_app, elem_of_app. simpl.
    rewrite list_elem_of_singleton. tauto.
Qed.

(** Distinct ordinals: each ordinal of the ledger is that of one record. *)
Lemma one_record_per_ordinal (responses : list Response) (q : Z) :
  NoDup (ordinals responses) ->
  q ∈ ordinals responses ->
  exists r, filter (fun r => question_id r = q) responses = [r].
Proof.
  induction responses as [|x l IH]; simpl; intros Hnd Hq.
  - by apply elem_of_nil in Hq.
  - apply NoDup_cons in Hnd as [Hx Hnd]. rewrite filter_cons.
    destruct (decide (question_id x = q)) as [<-|Hne].
    + exists x. f_equal.
      destruct (filter _ l) as [|y l'] eqn:Hf; [done|].
      assert (Hy : y ∈ filter (fun r => question_id r = question_id x) l)
        by (rewrite Hf; left).
      apply list_elem_of_filter in Hy as [Hy1 Hy2].
      exfalso. apply Hx. rewrite <- Hy1. by apply list_elem_of_fmap_2.
    + apply IH; [done|]. by apply elem_of_cons in Hq as [?|?]; [congruence|].
Qed.

(** C2. When the persisted ledger of a user holds one record per ordinal
    in ascending order, so does the ledger [save_response] returns and
    persists, whatever the ordinal submitted: its ordinals are distinct and
    ascending; its records are the submitted one and the records the ledger
    held under another ordinal; its ordinals are those of the ledger and
    the submitted one, each the ordinal of exactly one record. *)
Theorem save_response_keeps_ledger_ok (username : string) (response : Response) (s : fs)
    (responses : list Response) :
  fst (load_responses username s) = Ok responses ->
  ledger_ok responses ->
  exists responses' s',
    save_response username response s = (Ok responses', s')
    /\ load_responses username s' = (Ok responses', s')
    /\ NoDup (ordinals responses')
    /\ Sorted Z.le (ordinals responses')
    /\ (forall r, r ∈ responses'
                  <-> r = response
                      \/ (r ∈ responses /\ question_id r <> question_id response))
    /\ (forall q, q ∈ ordinals responses'
                  <-> q = question_id response \/ q ∈ ordinals responses)
    /\ (forall q, q ∈ ordinals responses' ->
                  exists r, filter (fun r => question_id r = q) responses' = [r]).
Proof.
  intros Hload Hok. eexists _, _.
  rewrite (save_response_spec _ _ _ _ Hload).
  split; [reflexivity|]. split; [apply load_after_write|].
  destruct (update_responses_ok responses response Hok) as [Hnd Hs].
  split; [done|]. split; [done|].
  split; [by intros r; apply update_responses_elem_of, Hok|].
  split; [by intros q; apply update_responses_ordinals|].
  intros q. by apply one_record_per_ordinal.
Qed.

(** ** C9: what [save_response] leaves alone *)

Lemma filter_insert_out {A : Type} (P : A -> Prop) `{!forall x, Decision (P x)}
    (l : list A) (i : nat) (x y : A) :
  l !! i = Some y -> ~ P y -> ~ P x -> filter P (<[i := x]> l) = filter P l.
Proof.
  revert i. induction l as [|z l IH]; intros i Hi Hy Hx; [done|].
  destruct i as [|i]; simpl in *.
  - simplify_eq. by rewrite !filter_cons_False.
  - rewrite !(filter_cons _ z). by rewrite (IH i).
Qed.

Lemma update_responses_other_keys (responses : list Response) (response : Response)
    (P : Response -> Prop) `{!forall x, Decision (P x)} :
  (forall r, P r -> question_id r <> question_id response) ->
  filter P (update_responses responses response) ≡ₚ filter P responses
  /\ (forall i, existing_index responses response = Some i ->
      filter P (update_responses responses response) = filter P responses).
Proof.
  intros HP.
  destruct (existing_index responses response) as [i|] eqn:Hi.
  - destruct (existing_index_Some _ _ _ Hi) as (r & Hr & Hq & _).
    assert (filter P (update_responses responses response) = filter P responses) as Heq.
    { unfold update_responses. rewrite Hi.
      apply (filter_insert_out P _ _ _ r); [done| |]; intros HPr; by apply HP in HPr. }
    split; [by rewrite Heq|done].
  - split; [|discriminate].
    unfold update_responses. rewrite Hi.
    rewrite sort_by_question_id_Permutation, filter_app.
    rewrite (filter_cons_False _ response) by (intros HPr; by apply HP in HPr).
    by rewrite filter_nil, app_nil_r.
Qed.

(** C9. [save_response] rewrites the ledger file of [username] and nothing
    else. In the ledger it returns and persists, the records of every other
    ordinal are the records the ledger had: the same records, each as often
    as before, and for each such ordinal in the same order. When the
    submitted ordinal was present (at index [i]), every other index holds
    the record it held. *)
Theorem save_response_frame (username : string) (response : Response) (s : fs)
    (responses : list Response) :
  fst (load_responses username s) = Ok responses ->
  exists responses' s',
    save_response username response s = (Ok responses', s')
    /\ load_responses username s' = (Ok responses', s')
    /\ filter (fun r => question_id r <> question_id response) responses'
       ≡ₚ filter (fun r => question_id r <> question_id response) responses
    /\ (forall k, k <> question_id response ->
        filter (fun r => question_id r = k) responses'
        = filter (fun r => question_id r = k) responses)
    /\ (forall i, existing_index responses response = Some i ->
        length responses' = length responses
        /\ forall j, j <> i -> responses' !! j = responses !! j)
    /\ (forall username', username' <> username ->
        data_files s' !! username' = data_files s !! username')
    /\ users_file s' = users_file s
    /\ questions_file s' = questions_file s
    /\ results_files s' = results_files s
    /\ all_data_file s' = all_data_file s.
Proof.
  intros Hload. eexists _, _.
  rewrite (save_response_spec _ _ _ _ Hload).
  split; [reflexivity|]. split; [apply load_after_write|].
  split; [by apply update_responses_other_keys|].
  split.
  { intros k Hk.
    destruct (existing_index responses response) as [i|] eqn:Hi.
    - eapply update_responses_other_keys; [|done]. simpl. congruence.
    - unfold update_responses. rewrite Hi.
      rewrite sort_by_question_id_stable, filter_app.
      rewrite (filter_cons_False _ response) by (simpl; congruence).
      by rewrite filter_nil, app_nil_r. }
  split.
  { intros i Hi. destruct (update_responses_replace _ _ _ Hi) as (-> & _ & _).
    split; [apply length_insert|].
    intros j Hj. by apply list_lookup_insert_ne. }
  split; [|done].
  intros username' Hne. simpl. by rewrite lookup_insert_ne.
Qed.

(** ** The ledger through a run of submissions *)

Lemma ledger_ok_after_submissions (username : string) (submissions : list Response)
    (s : fs) (responses : list Response) :
  fst (load_responses username s) = Ok responses ->
  ledger_ok responses ->
  exists s' responses',
    foldM (fun _ r => save_response username r) responses submissions s = (Ok responses', s')
    /\ fst (load_responses username s') = Ok responses'
    /\ ledger_ok responses'.
Proof.
  revert s responses. induction submissions as [|r submissions IH]; intros s responses Hload Hok.
  - exists s, responses. split; [done|]. by split.
  - simpl. unfold bind. rewrite (save_response_spec _ _ _ _ Hload).
    apply IH.
    + by rewrite load_after_write.
    + by apply update_responses_ok.
Qed.

(** ** The question catalog *)

Lemma question_of_row_written (q : Question) :
  all_cells_str q ->
  question_of_row
    (dict_row ["text"; "multi"; "translated"]
       [cell_text (option1 q); cell_text (option2 q); cell_text (sentence q)])
  = Ok q.
Proof.
  destruct q as [s o1 o2]. unfold all_cells_str. simpl.
  intros ([s' ->] & [o1' ->] & [o2' ->]).
  unfold question_of_row, row_get, dict_row. simpl.
  by simplify_map_eq.
Qed.

(** Reading back what [questions_table] lays out, through the renaming of
    [text], [multi], [translated] to [option1], [option2], [sentence]. *)
Lemma questions_table_round_trip (questions : list Question) :
  Forall all_cells_str questions ->
  questions_of_rows (DictReader (questions_table questions)) = Ok questions.
Proof.
  unfold questions_table, DictReader.
  induction 1 as [|q questions Hq _ IH]; [done|].
  rewrite fmap_cons, filter_cons_True by done.
  rewrite fmap_cons. simpl. rewrite (question_of_row_written q Hq).
  by rewrite IH.
Qed.

Lemma sample_questions_all_str : Forall all_cells_str sample_questions.
Proof. repeat constructor; by eexists. Qed.

Lemma read_questions_seeded (s : fs) :
  questions_file s = Some (Holding (questions_table sample_questions)) ->
  read_questions s = (Ok sample_questions, s).
Proof.
  intros Hf. unfold read_questions. unfold_M. rewrite Hf.
  by rewrite (questions_table_round_trip _ sample_questions_all_str).
Qed.

Lemma load_questions_of_read (s : fs) (questions : list Question) :
  read_questions s = (Ok questions, s) -> load_questions s = (Ok questions, s).
Proof. intros H. unfold load_questions, try_except. by rewrite H. Qed.

Lemma read_questions_no_rows (s : fs) :
  questions_file s = None
  \/ (exists t, questions_file s = Some (Holding t) /\ DictReader t = []) ->
  read_questions s = (Raise FileNotFoundError, s).
Proof.
  unfold read_questions. unfold_M.
  intros [->|(t & -> & Hrows)]; [done|]. by rewrite Hrows.
Qed.

Lemma load_questions_seeds (s : fs) :
  questions_file s = None
  \/ (exists t, questions_file s = Some (Holding t) /\ DictReader t = []) ->
  load_questions s
  = (Ok sample_questions,
     set_questions_file (Some (Holding (questions_table sample_questions))) s).
Proof.
  intros H. unfold load_questions, try_except.
  by rewrite (read_questions_no_rows s H).
Qed.

Lemma Desktop_load_questions_eq (s : fs) :
  Desktop.load_questions true [] s = load_questions s.
Proof.
  unfold Desktop.load_questions, load_questions, try_except.
  unfold Desktop.read_questions, read_questions. unfold_M.
  by destruct (questions_file s) as [[| |t]|];
    [| | destruct (questions_of_rows (DictReader t)) as [[|q qs]|e]; simpl |].
Qed.

(** Without the directory [./data], the desktop loader raises from inside
    its own fallback. *)
Lemma Desktop_load_questions_no_dir (s : fs) :
  questions_file s = None ->
  Desktop.load_questions false [] s = (Raise FileNotFoundError, s).
Proof.
  intros Hf. unfold Desktop.load_questions, Desktop.read_questions.
  unfold_M. by rewrite Hf.
Qed.

(** ** C3: the catalog loader seeds itself *)

(** A catalog file that cannot be opened or decoded: both loaders raise
    what [open] or the decoder raised, past [except FileNotFoundError], and
    the files are as they were. *)
Lemma load_questions_raises (s : fs) (e : exn) :
  fst (read_file (questions_file s) s) = Raise e ->
  is_FileNotFoundError e = false ->
  load_questions s = (Raise e, s)
  /\ forall data_dir_exists self_questions,
       Desktop.load_questions data_dir_exists self_questions s = (Raise e, s).
Proof.
  unfold load_questions, Desktop.load_questions, read_questions, Desktop.read_questions.
  unfold try_except, bind, get. unfold read_file at 1.
  destruct (questions_file s) as [[| |t]|]; simpl; intros [= <-]; try discriminate.
  all: by intros _.
Qed.

(** C3, as the code has it. When [questions.csv] is absent, or is there and
    yields no row, [load_questions] returns the 3 built-in sample questions
    and writes them to [questions.csv]; the next load reads them back in
    its [try] block, without the fallback. The desktop loader does the same
    when its directory exists. When [questions.csv] is there and cannot be
    opened, or cannot be decoded, both loaders raise ([PermissionError], a
    decoding [ValueError]) and write nothing. *)
Theorem load_questions_self_seeding (s : fs) :
  (questions_file s = None
   \/ (exists t, questions_file s = Some (Holding t) /\ DictReader t = []) ->
   exists s',
     load_questions s = (Ok sample_questions, s')
     /\ length sample_questions = 3%nat
     /\ questions_file s' = Some (Holding (questions_table sample_questions))
     /\ read_questions s' = (Ok sample_questions, s')
     /\ load_questions s' = (Ok sample_questions, s')
     /\ Desktop.load_questions true [] s = (Ok sample_questions, s')
     /\ Desktop.load_questions true [] s' = (Ok sample_questions, s'))
  /\ (questions_file s = Some Unreadable ->
      load_questions s = (Raise PermissionError, s)
      /\ forall data_dir_exists self_questions,
           Desktop.load_questions data_dir_exists self_questions s
           = (Raise PermissionError, s))
  /\ (questions_file s = Some Malformed ->
      load_questions s = (Raise ValueError, s)
      /\ forall data_dir_exists self_questions,
           Desktop.load_questions data_dir_exists self_questions s
           = (Raise ValueError, s)).
Proof.
  split; [|split; intros Hf; apply load_questions_raises; by rewrite ?Hf].
  intros H.
  exists (set_questions_file (Some (Holding (questions_table sample_questions))) s).
  pose proof (load_questions_seeds s H) as Hseed.
  assert (Hread : read_questions
            (set_questions_file (Some (Holding (questions_table sample_questions))) s)
          = (Ok sample_questions,
             set_questions_file (Some (Holding (questions_table sample_questions))) s))
    by (by apply read_questions_seeded).
  pose proof (load_questions_of_read _ _ Hread) as Hload.
  split; [exact Hseed|]. split; [reflexivity|]. split; [reflexivity|].
  split; [exact Hread|]. split; [exact Hload|].
  split; [exact (eq_trans (Desktop_load_questions_eq _) Hseed)|].
  exact (eq_trans (Desktop_load_questions_eq _) Hload).
Qed.

Lemma load_questions_self_seeding_witness :
  (questions_file (set_questions_file (Some (Holding [["text"; "multi"; "translated"]])) fs_empty)
     = None
   \/ (exists t,
         questions_file
           (set_questions_file (Some (Holding [["text"; "multi"; "translated"]])) fs_empty)
         = Some (Holding t) /\ DictReader t = []))
  /\ exists s',
       load_questions
         (set_questions_file (Some (Holding [["text"; "multi"; "translated"]])) fs_empty)
       = (Ok sample_questions, s')
       /\ length sample_questions = 3%nat
       /\ questions_file s' = Some (Holding (questions_table sample_questions))
       /\ read_questions s' = (Ok sample_questions, s')
       /\ load_questions s' = (Ok sample_questions, s')
       /\ Desktop.load_questions true []
            (set_questions_file (Some (Holding [["text"; "multi"; "translated"]])) fs_empty)
          = (Ok sample_questions, s')
       /\ Desktop.load_questions true [] s' = (Ok sample_questions, s')
       /\ load_questions (set_questions_file (Some Unreadable) fs_u1)
          = (Raise PermissionError, set_questions_file (Some Unreadable) fs_u1)
       /\ Desktop.load_questions true [] (set_questions_file (Some Malformed) fs_u1)
          = (Raise ValueError, set_questions_file (Some Malformed) fs_u1).
Proof.
  assert (H : questions_file
                (set_questions_file (Some (Holding [["text"; "multi"; "translated"]])) fs_empty)
              = None
            \/ (exists t,
                  questions_file
                    (set_questions_file (Some (Holding [["text"; "multi"; "translated"]]))
                       fs_empty)
                  = Some (Holding t) /\ DictReader t = [])).
  { right. eexists. split; reflexivity. }
  split; [exact H|].
  destruct (proj1 (load_questions_self_seeding _) H)
    as (s' & H1 & H2 & H3 & H4 & H5 & H6 & H7).
  exists s'.
  split; [exact H1|]. split; [exact H2|]. split; [exact H3|]. split; [exact H4|].
  split; [exact H5|]. split; [exact H6|]. split; [exact H7|].
  split.
  - exact (proj1 (proj1 (proj2 (load_questions_self_seeding
                                  (set_questions_file (Some Unreadable) fs_u1)))
                    eq_refl)).
  - exact (proj2 (proj2 (proj2 (load_questions_self_seeding
                                  (set_questions_file (Some Malformed) fs_u1)))
                    eq_refl) true []).
Defined.

(** C3 in the specification also covers a source that is there but cannot be
    read: there [load_questions] raises, [except FileNotFoundError] catching
    neither [PermissionError] nor a decoding error, and seeds nothing. *)
Lemma load_questions_unreadable_raises :
  load_questions (set_questions_file (Some Unreadable) fs_empty)
    = (Raise PermissionError, set_questions_file (Some Unreadable) fs_empty)
  /\ load_questions (set_questions_file (Some Malformed) fs_empty)
    = (Raise ValueError, set_questions_file (Some Malformed) fs_empty)
  /\ ~ (forall s,
          questions_file s = None
          \/ questions_file s = Some Unreadable
          \/ (exists t, questions_file s = Some (Holding t) /\ DictReader t = []) ->
          exists s', load_questions s = (Ok sample_questions, s')).
Proof.
  split; [reflexivity|]. split; [reflexivity|].
  intros H.
  destruct (H (set_questions_file (Some Unreadable) fs_empty)) as [s' Hs'].
  - right. by left.
  - discriminate Hs'.
Qed.

(** ** C8: seeding and reading back *)

(** C8. With no [questions.csv], [load_questions] returns exactly the 3
    built-in questions and leaves a file with the header [text], [multi],
    [translated] and one row per question holding [option1], [option2],
    [sentence] in that order; a second load reads that file in its [try]
    block and returns the same 3 questions in the same order, writing
    nothing. *)
Theorem load_questions_round_trip (s : fs) :
  questions_file s = None ->
  exists s',
    load_questions s = (Ok sample_questions, s')
    /\ length sample_questions = 3%nat
    /\ questions_file s'
       = Some (Holding
           [ ["text"; "multi"; "translated"];
             ["I found the film to be quite delightful.";
              "The cinematic experience gave me great pleasure.";
              "The movie was really enjoyable and entertaining."];
             ["The firm reported unprecedented earnings for this period.";
              "The business revealed they had their most successful quarter yet.";
              "The company announced record profits this quarter."];
             ["Scientists identified a previously unknown amphibian of the frog family.";
              "The research team found a type of frog that was not known before.";
              "The researchers discovered a new species of frog."] ])
    /\ read_questions s' = (Ok sample_questions, s')
    /\ load_questions s' = (Ok sample_questions, s').
Proof.
  intros Hf.
  exists (set_questions_file (Some (Holding (questions_table sample_questions))) s).
  split; [apply load_questions_seeds; by left|].
  split; [reflexivity|]. split; [reflexivity|].
  assert (Hread : read_questions
            (set_questions_file (Some (Holding (questions_table sample_questions))) s)
          = (Ok sample_questions,
             set_questions_file (Some (Holding (questions_table sample_questions))) s))
    by (by apply read_questions_seeded).
  split; [exact Hread|]. by apply load_questions_of_read.
Qed.

Lemma load_questions_round_trip_witness :
  questions_file fs_empty = None
  /\ exists s',
       load_questions fs_empty = (Ok sample_questions, s')
       /\ length sample_questions = 3%nat
       /\ questions_file s'
          = Some (Holding
              [ ["text"; "multi"; "translated"];
                ["I found the film to be quite delightful.";
                 "The cinematic experience gave me great pleasure.";
                 "The movie was really enjoyable and entertaining."];
                ["The firm reported unprecedented earnings for this period.";
                 "The business revealed they had their most successful quarter yet.";
                 "The company announced record profits this quarter."];
                ["Scientists identified a previously unknown amphibian of the frog family.";
                 "The research team found a type of frog that was not known before.";
                 "The researchers discovered a new species of frog."] ])
       /\ read_questions s' = (Ok sample_questions, s')
       /\ load_questions s' = (Ok sample_questions, s').
Proof.
  split; [reflexivity|].
  apply (load_questions_round_trip fs_empty). reflexivity.
Defined.

(** ** Python indexing *)

Lemma py_index_None {A : Type} (l : list A) (i : Z) :
  py_index l i = None <-> index_error l i.
Proof.
  unfold py_index, index_error.
  destruct (Z.leb_spec 0 i) as [Hi|Hi].
  - rewrite lookup_ge_None. lia.
  - destruct (Z.leb_spec (- Z.of_nat (length l)) i) as [Hl|Hl].
    + rewrite lookup_ge_None. lia.
    + split; [lia|done].
Qed.

Lemma py_index_is_Some {A : Type} (l : list A) (i : Z) :
  is_Some (py_index l i) <-> - Z.of_nat (length l) <= i < Z.of_nat (length l).
Proof.
  rewrite <- not_eq_None_Some, py_index_None. unfold index_error. lia.
Qed.

Lemma py_index_nonneg {A : Type} (l : list A) (i : Z) :
  0 <= i -> py_index l i = l !! Z.to_nat i.
Proof. intros Hi. unfold py_index. by destruct (Z.leb_spec 0 i); [|lia]. Qed.

(** ** C4: the export of one user *)

(** The cells [export_results] writes for one record. *)
Lemma dict_to_list_joined_row (username : string) (question : Question) (response : Response) :
  dict_to_list results_fieldnames (joined_row username question response)
  = [ PInt (question_id response); PStr username;
      of_cell (sentence question); of_cell (option1 question); of_cell (option2 question);
      PInt (selected_option response); of_cell (selected_text response);
      PInt (confidence response); PStr (timestamp response) ].
Proof. reflexivity. Qed.

Lemma export_rows_complete (username : string) (questions : list Question)
    (responses : list Response) :
  Forall (fun r => ~ index_error questions (question_id r)) responses ->
  exists rows,
    export_rows username questions responses = (rows, None)
    /\ Forall2 (joins username questions) responses rows.
Proof.
  induction 1 as [|r responses Hr _ (rows & IH & Hrows)]; simpl.
  - by exists [].
  - destruct (py_index questions (question_id r)) as [q|] eqn:Hq.
    + rewrite IH. eexists. split; [done|]. constructor; [|done]. by exists q.
    + by apply py_index_None in Hq.
Qed.

Lemma export_rows_fails (username : string) (questions : list Question)
    (responses : list Response) :
  Exists (fun r => index_error questions (question_id r)) responses ->
  exists rows,
    export_rows username questions responses = (rows, Some IndexError)
    /\ (length rows < length responses)%nat.
Proof.
  induction responses as [|r responses IH]; intros Hex; [by inversion Hex|]. simpl.
  destruct (py_index questions (question_id r)) as [q|] eqn:Hq.
  - inversion Hex as [? ? Hr|? ? Hex']; subst.
    + apply py_index_None in Hr. congruence.
    + destruct (IH Hex') as (rows & -> & Hlen). eexists. split; [done|]. simpl. lia.
  - eexists. split; [done|]. simpl. lia.
Qed.

(** C4, as the code has it. [export_results] fails exactly when the lookup
    [questions[question_id]] of some record raises [IndexError], that is
    when an ordinal is at or past the end of the catalog or below minus its
    length: it then returns [False] with the text of the [IndexError],
    having written the rows before that record. Otherwise it returns [True]
    with the path, having written the header and one joined row per record,
    in order; a negative ordinal down to minus the length is joined with
    the question counted from the end. *)
Theorem export_results_index_error (username : string) (questions : list Question)
    (responses : list Response) (s : fs) :
  (Exists (fun r => index_error questions (question_id r)) responses ->
   exists rows,
     export_results username questions responses s
     = (Ok (false, StrOfExn IndexError),
        set_results_files
          (<[username := header_row results_fieldnames :: rows]> (results_files s)) s)
     /\ (length rows < length responses)%nat)
  /\ (Forall (fun r => ~ index_error questions (question_id r)) responses ->
      exists rows,
        export_results username questions responses s
        = (Ok (true, Text (results_path username)),
           set_results_files
             (<[username := header_row results_fieldnames :: rows]> (results_files s)) s)
        /\ length rows = length responses
        /\ Forall2 (joins username questions) responses rows).
Proof.
  split.
  - intros (rows & Hrows & Hlen)%(export_rows_fails username).
    exists rows. split; [|done].
    unfold export_results. unfold_M. by rewrite Hrows.
  - intros (rows & Hrows & Hjoin)%(export_rows_complete username).
    exists rows. split; [|split; [|done]].
    + unfold export_results. unfold_M. by rewrite Hrows.
    + symmetry. by eapply Forall2_length.
Qed.

(** For the ordinals the front-ends write, which are not negative:
    failure exactly when one is at or past the end of the catalog. *)
Lemma export_results_nonneg (username : string) (questions : list Question)
    (responses : list Response) (s : fs) :
  Forall (fun r => 0 <= question_id r) responses ->
  (Exists (fun r => Z.of_nat (length questions) <= question_id r) responses ->
   fst (export_results username questions responses s) = Ok (false, StrOfExn IndexError))
  /\ (Forall (fun r => question_id r < Z.of_nat (length questions)) responses ->
      fst (export_results username questions responses s)
      = Ok (true, Text (results_path username))).
Proof.
  intros Hnn. split.
  - intros Hex.
    destruct (export_rows_fails username questions responses) as (rows & Hrows & _).
    { eapply Exists_impl; [exact Hex|]. intros r Hr. by right. }
    unfold export_results. unfold_M. by rewrite Hrows.
  - intros Hall.
    destruct (export_rows_complete username questions responses) as (rows & Hrows & _).
    { rewrite Forall_forall in Hnn, Hall. apply Forall_forall. intros r Hr.
      specialize (Hnn r Hr). specialize (Hall r Hr). unfold index_error. lia. }
    unfold export_results. unfold_M. by rewrite Hrows.
Qed.

(** ** C5: the export of all users *)

Lemma join_responses_nonneg (username : string) (questions : list Question)
    (responses : list Response) (all_data : list (odict pyval)) :
  Forall (fun r => 0 <= question_id r) responses ->
  join_responses username questions responses all_data
  = (all_data ++ rows_in_range username questions responses, None).
Proof.
  intros Hnn. revert all_data.
  induction Hnn as [|r responses Hr _ IH]; intros all_data; simpl.
  - by rewrite app_nil_r.
  - unfold rows_in_range. simpl.
    destruct (Z.leb_spec 0 (question_id r)) as [_|]; [|lia].
    rewrite py_index_nonneg by done.
    destruct (Z.ltb_spec (question_id r) (Z.of_nat (length questions))) as [Hlt|Hge].
    + destruct (lookup_lt_is_Some_2 questions (Z.to_nat (question_id r))) as [q Hq]; [lia|].
      rewrite Hq. simpl. rewrite IH. by rewrite <- app_assoc.
    + rewrite (proj2 (lookup_ge_None questions (Z.to_nat (question_id r)))) by lia.
      simpl. apply IH.
Qed.

Lemma load_responses_same_ledgers (username : string) (s s1 : fs) :
  same_ledgers s s1 ->
  load_responses username s1 = (fst (load_responses username s), s1).
Proof.
  unfold same_ledgers. intros H. rewrite !load_responses_spec. simpl. by rewrite H.
Qed.

Lemma collect_user_nonneg (questions : list Question) (all_data : list (odict pyval))
    (username : string) (s s1 : fs) :
  same_ledgers s s1 ->
  (forall responses, fst (load_responses username s) = Ok responses ->
                     Forall (fun r => 0 <= question_id r) responses) ->
  collect_user questions all_data username s1
  = (Ok (all_data ++ rows_of_user questions s username),
     set_stdout (stdout s1 ++ error_of_user s username) s1).
Proof.
  intros Hsame Hnn. unfold collect_user, rows_of_user, error_of_user.
  rewrite (load_responses_same_ledgers _ _ _ Hsame).
  destruct (fst (load_responses username s)) as [responses|e].
  - rewrite (join_responses_nonneg _ _ _ _ (Hnn _ eq_refl)).
    rewrite app_nil_r. by destruct s1.
  - by rewrite app_nil_r.
Qed.

Lemma collect_users_nonneg (questions : list Question) (usernames : list string)
    (all_data : list (odict pyval)) (s s1 : fs) :
  same_ledgers s s1 ->
  (forall username responses,
     username ∈ usernames ->
     fst (load_responses username s) = Ok responses ->
     Forall (fun r => 0 <= question_id r) responses) ->
  foldM (collect_user questions) all_data usernames s1
  = (Ok (all_data ++ (usernames ≫= rows_of_user questions s)),
     set_stdout (stdout s1 ++ (usernames ≫= error_of_user s)) s1).
Proof.
  revert all_data s1. induction usernames as [|u usernames IH]; intros all_data s1 Hsame Hnn.
  - simpl. unfold ret. rewrite !app_nil_r. by destruct s1.
  - simpl. unfold bind.
    rewrite (collect_user_nonneg _ _ _ s s1 Hsame)
      by (intros; eapply Hnn; [apply list_elem_of_here|done]).
    rewrite IH.
    + simpl. by rewrite <- !app_assoc.
    + exact Hsame.
    + intros. eapply Hnn; [by apply list_elem_of_further|done].
Qed.

(** C5, as the code has it, for ledgers without negative ordinals. Once
    the account table and the catalog have loaded, [export_all_data] goes
    through every user in the table's order: a user whose ledger fails to
    load contributes no row and one printed line, a record whose ordinal is
    at or past the end of the catalog is skipped, and every other record
    contributes its joined row. It writes the header and these rows to
    [all_preference_data.csv], or the one cell "No data available" when
    there are none, touches no ledger, and returns [True] with the path. *)
Theorem export_all_data_skips (s : fs) (users : odict Account) (questions : list Question) :
  fst (load_users s) = Ok users ->
  fst (load_questions s) = Ok questions ->
  (forall username responses,
     username ∈ od_keys users ->
     fst (load_responses username s) = Ok responses ->
     Forall (fun r => 0 <= question_id r) responses) ->
  exists s',
    export_all_data s = (Ok (true, Text "all_preference_data.csv"), s')
    /\ all_data_file s'
       = Some (match od_keys users ≫= rows_of_user questions s with
               | [] => [[PStr "No data available"]]
               | rows =>
                   header_row results_fieldnames
                   :: (dict_to_list results_fieldnames <$> rows)
               end)
    /\ stdout s' = (stdout s ++ (od_keys users ≫= error_of_user s))%list
    /\ data_files s' = data_files s
    /\ users_file s' = users_file s
    /\ results_files s' = results_files s.
Proof.
  intros Hu%load_users_Ok Hq Hnn.
  destruct (load_questions s) as [rq s1] eqn:Hlq. simpl in Hq. subst rq.
  assert (Hs1 : s1 = s \/ s1 = set_questions_file
                              (Some (Holding (questions_table sample_questions))) s).
  { revert Hlq. unfold load_questions, read_questions. unfold_M.
    destruct (questions_file s) as [[| |t]|]; try (intros H; inversion H; by auto).
    destruct (questions_of_rows (DictReader t)) as [[|q qs]|[]];
      intros H; inversion H; by auto. }
  assert (Hsame : same_ledgers s s1) by (by destruct Hs1 as [->| ->]).
  eexists. split.
  - unfold export_all_data, try_except, bind. rewrite Hu, Hlq.
    rewrite (collect_users_nonneg questions (od_keys users) [] s s1 Hsame Hnn).
    unfold modify, ret. reflexivity.
  - simpl. split; [|by destruct Hs1 as [->| ->]].
    f_equal. unfold all_data_table.
    destruct (od_keys users ≫= rows_of_user questions s) as [|first rows] eqn:Hall; [done|].
    assert (Hkeys : od_keys first = results_fieldnames); [|by rewrite Hkeys].
    assert (Hin : first ∈ od_keys users ≫= rows_of_user questions s)
      by (rewrite Hall; apply list_elem_of_here).
    apply list_elem_of_bind in Hin as (u & Hin & _).
    unfold rows_of_user in Hin.
    destruct (fst (load_responses u s)) as [responses|e]; [|by apply elem_of_nil in Hin].
    unfold rows_in_range in Hin. apply list_elem_of_omap in Hin as (r & _ & Hr).
    destruct (0 <=? question_id r); [|done].
    destruct (questions !! Z.to_nat (question_id r)); by simplify_eq/=.
Qed.

(** ** C6: completed users and the completion rate *)

Lemma counts_as_completed_iff (s : fs) (question_count : Z) (username : string)
    (responses : list Response) :
  fst (load_responses username s) = Ok responses ->
  counts_as_completed s question_count username = true
  <-> question_count <= Z.of_nat (length responses).
Proof. unfold counts_as_completed. intros ->. apply Z.leb_le. Qed.

Lemma count_questions_state (s : fs) : snd (count_questions s) = s.
Proof.
  unfold count_questions. unfold_M.
  by destruct (questions_file s) as [[| |t]|].
Qed.

Lemma tally_user_spec (users : odict Account) (question_count : Z) (t : Tally)
    (username : string) (s : fs) :
  exists t',
    tally_user users question_count t username s = (Ok t', s)
    /\ completed_users t'
       = completed_users t
         + (if counts_as_completed s question_count username then 1 else 0).
Proof.
  unfold tally_user, try_except, bind, counts_as_completed.
  rewrite load_responses_spec. simpl.
  destruct (data_files s !! username) as [[| |responses]|]; simpl;
    (eexists; split; [reflexivity|]); simpl; try lia.
  - destruct (question_count <=? Z.of_nat (length responses)); simpl; lia.
  - destruct (question_count <=? Z.of_nat 0); simpl; lia.
Qed.

Lemma tally_users_from (users : odict Account) (question_count : Z)
    (usernames : list string) (t : Tally) (s : fs) :
  exists t',
    foldM (tally_user users question_count) t usernames s = (Ok t', s)
    /\ completed_users t'
       = completed_users t + completed_count s question_count usernames.
Proof.
  revert t. induction usernames as [|u usernames IH]; intros t.
  - exists t. split; [done|]. unfold completed_count. simpl. lia.
  - destruct (tally_user_spec users question_count t u s) as (t1 & Ht1 & Hc1).
    destruct (IH t1) as (t' & Ht' & Hc').
    exists t'. split.
    + simpl. unfold bind. by rewrite Ht1.
    + rewrite Hc', Hc1. unfold completed_count. rewrite filter_cons.
      destruct (decide (counts_as_completed s question_count u = true)) as [E|E].
      * rewrite E. simpl length. lia.
      * apply not_true_is_false in E. rewrite E. lia.
Qed.

(** C6, as the code has it. [question_count] is the number of rows of the
    questions file less one, 0 when the file is absent. [get_statistics]
    counts a user as completed exactly when the user's ledger loads with at
    least [question_count] records. The completion rate is the [float]
    [(completed_users / total_users) * 100] when there is a user and
    [question_count] is positive; it is the [int] 0 when there is no user or
    [question_count] is not positive, whatever the number of completed
    users. *)
Theorem get_statistics_completion (s : fs) (users : odict Account) (question_count : Z) :
  fst (load_users s) = Ok users ->
  fst (count_questions s) = Ok question_count ->
  exists st t,
    get_statistics s = (Ok st, s)
    /\ tally_users users question_count s = (Ok t, s)
    /\ st_total_users st = Z.of_nat (length users)
    /\ st_question_count st = question_count
    /\ (questions_file s = None /\ question_count = 0
        \/ exists rows, questions_file s = Some (Holding rows)
                        /\ question_count = Z.of_nat (length rows) - 1)
    /\ completed_users t = completed_count s question_count (od_keys users)
    /\ (forall username responses,
          fst (load_responses username s) = Ok responses ->
          counts_as_completed s question_count username = true
          <-> question_count <= Z.of_nat (length responses))
    /\ (forall username e,
          fst (load_responses username s) = Raise e ->
          counts_as_completed s question_count username = false)
    /\ st_completion_rate st
       = completion_rate_of (st_total_users st) question_count (completed_users t)
    /\ (0 < st_total_users st -> 0 < question_count ->
        st_completion_rate st
        = Float (py_truediv (completed_users t) (st_total_users st) * 100)%float)
    /\ (st_total_users st = 0 \/ question_count <= 0 -> st_completion_rate st = Int 0).
Proof.
  intros Hu%load_users_Ok Hq.
  assert (Hcq : count_questions s = (Ok question_count, s)).
  { pose proof (count_questions_state s) as Hst.
    destruct (count_questions s) as [r s1]. simpl in *. by subst. }
  destruct (tally_users_from users question_count (od_keys users) (mkTally 0 0 []) s)
    as (t & Ht & Hc).
  eexists _, t. split; [|split; [exact Ht|]].
  - unfold get_statistics, bind. rewrite Hu, Hcq.
    unfold tally_users in *. rewrite Ht. reflexivity.
  - cbn [st_total_users st_question_count st_completion_rate].
    split; [done|]. split; [done|]. split.
    { revert Hq. unfold count_questions. unfold_M.
      destruct (questions_file s) as [[| |rows]|]; simpl; intros Hq;
        try discriminate Hq; injection Hq as <-.
      - right. by exists rows.
      - by left. }
    split; [by rewrite Hc|].
    split; [intros username responses; apply counts_as_completed_iff|].
    split; [by intros username e; unfold counts_as_completed; intros ->|].
    split; [done|]. unfold completion_rate_of. split.
    + intros Hpos Hqpos.
      by rewrite (proj2 (Z.ltb_lt _ _) Hpos), (proj2 (Z.ltb_lt _ _) Hqpos).
    + intros [H0|H0].
      * rewrite H0. reflexivity.
      * destruct (Z.ltb_spec 0 question_count); [lia|]. by rewrite andb_false_r.
Qed.

(** * The properties on concrete working directories *)

Lemma save_response_replaces_witness :
  fst (load_responses "u1" fs_u1) = Ok [answer 1 1 4 "2024-03-01 09:00:00"]
  /\ question_id (answer 1 2 2 "2024-03-01 09:05:00")
       ∈ ordinals [answer 1 1 4 "2024-03-01 09:00:00"]
  /\ exists responses' s' i,
       save_response "u1" (answer 1 2 2 "2024-03-01 09:05:00") fs_u1 = (Ok responses', s')
       /\ load_responses "u1" s' = (Ok responses', s')
       /\ length responses' = length [answer 1 1 4 "2024-03-01 09:00:00"]
       /\ existing_index [answer 1 1 4 "2024-03-01 09:00:00"]
            (answer 1 2 2 "2024-03-01 09:05:00") = Some i
       /\ responses' = <[i := answer 1 2 2 "2024-03-01 09:05:00"]>
                         [answer 1 1 4 "2024-03-01 09:00:00"]
       /\ responses' !! i = Some (answer 1 2 2 "2024-03-01 09:05:00")
       /\ previous_response responses' (question_id (answer 1 2 2 "2024-03-01 09:05:00"))
          = Some (answer 1 2 2 "2024-03-01 09:05:00")
       /\ (NoDup (ordinals [answer 1 1 4 "2024-03-01 09:00:00"]) ->
           forall r, r ∈ responses' ->
                     question_id r = question_id (answer 1 2 2 "2024-03-01 09:05:00") ->
                     r = answer 1 2 2 "2024-03-01 09:05:00").
Proof.
  assert (H1 : fst (load_responses "u1" fs_u1) = Ok [answer 1 1 4 "2024-03-01 09:00:00"])
    by reflexivity.
  assert (H2 : question_id (answer 1 2 2 "2024-03-01 09:05:00")
                 ∈ ordinals [answer 1 1 4 "2024-03-01 09:00:00"])
    by (simpl; apply list_elem_of_here).
  split; [exact H1|]. split; [exact H2|].
  exact (save_response_replaces "u1" (answer 1 2 2 "2024-03-01 09:05:00") fs_u1 _ H1 H2).
Defined.

Lemma save_response_keeps_ledger_ok_witness :
  fst (load_responses "u1" fs_u1_02)
    = Ok [answer 0 2 5 "2024-03-01 09:00:00"; answer 2 1 3 "2024-03-01 09:02:00"]
  /\ ledger_ok [answer 0 2 5 "2024-03-01 09:00:00"; answer 2 1 3 "2024-03-01 09:02:00"]
  /\ exists responses' s',
       save_response "u1" (answer 1 1 4 "2024-03-01 09:05:00") fs_u1_02 = (Ok responses', s')
       /\ load_responses "u1" s' = (Ok responses', s')
       /\ NoDup (ordinals responses')
       /\ Sorted Z.le (ordinals responses')
       /\ (forall r, r ∈ responses'
                     <-> r = answer 1 1 4 "2024-03-01 09:05:00"
                         \/ (r ∈ [answer 0 2 5 "2024-03-01 09:00:00";
                                  answer 2 1 3 "2024-03-01 09:02:00"]
                             /\ question_id r
                                <> question_id (answer 1 1 4 "2024-03-01 09:05:00")))
       /\ (forall q, q ∈ ordinals responses'
                     <-> q = question_id (answer 1 1 4 "2024-03-01 09:05:00")
                         \/ q ∈ ordinals [answer 0 2 5 "2024-03-01 09:00:00";
                                          answer 2 1 3 "2024-03-01 09:02:00"])
       /\ (forall q, q ∈ ordinals responses' ->
                     exists r, filter (fun r => question_id r = q) responses' = [r]).
Proof.
  assert (H1 : fst (load_responses "u1" fs_u1_02)
               = Ok [answer 0 2 5 "2024-03-01 09:00:00"; answer 2 1 3 "2024-03-01 09:02:00"])
    by reflexivity.
  assert (H2 : ledger_ok [answer 0 2 5 "2024-03-01 09:00:00";
                          answer 2 1 3 "2024-03-01 09:02:00"]).
  { split; simpl.
    - apply NoDup_cons. split; [|apply NoDup_singleton].
      intros H%list_elem_of_singleton. discriminate H.
    - repeat constructor. lia. }
  split; [exact H1|]. split; [exact H2|].
  exact (save_response_keeps_ledger_ok "u1" (answer 1 1 4 "2024-03-01 09:05:00")
           fs_u1_02 _ H1 H2).
Defined.

(** The new record lands between the two the ledger held. *)
Example save_response_out_of_order :
  fst (save_response "u1" (answer 1 1 4 "2024-03-01 09:05:00") fs_u1_02)
  = Ok [answer 0 2 5 "2024-03-01 09:00:00";
        answer 1 1 4 "2024-03-01 09:05:00";
        answer 2 1 3 "2024-03-01 09:02:00"].
Proof. reflexivity. Qed.

Lemma save_response_frame_witness :
  fst (load_responses "u1" fs_u1_02)
    = Ok [answer 0 2 5 "2024-03-01 09:00:00"; answer 2 1 3 "2024-03-01 09:02:00"]
  /\ exists responses' s',
       save_response "u1" (answer 2 2 1 "2024-03-01 09:05:00") fs_u1_02 = (Ok responses', s')
       /\ responses' !! 0%nat = Some (answer 0 2 5 "2024-03-01 09:00:00")
       /\ filter (fun r => question_id r = 0) responses'
          = [answer 0 2 5 "2024-03-01 09:00:00"].
Proof.
  assert (H1 : fst (load_responses "u1" fs_u1_02)
               = Ok [answer 0 2 5 "2024-03-01 09:00:00"; answer 2 1 3 "2024-03-01 09:02:00"])
    by reflexivity.
  split; [exact H1|].
  destruct (save_response_frame "u1" (answer 2 2 1 "2024-03-01 09:05:00") fs_u1_02 _ H1)
    as (responses' & s' & Hsave & _ & _ & Hkeys & Hidx & _).
  exists responses', s'. split; [exact Hsave|]. split.
  - destruct (Hidx 1%nat eq_refl) as [_ Hother].
    apply (Hother 0%nat). discriminate.
  - apply (Hkeys 0). discriminate.
Defined.

Lemma export_results_index_error_witness :
  Exists (fun r => index_error sample_questions (question_id r))
    [answer 0 2 5 "2024-03-01 09:00:00"; answer 3 1 3 "2024-03-01 09:02:00"]
  /\ fst (export_results "u1" sample_questions
            [answer 0 2 5 "2024-03-01 09:00:00"; answer 3 1 3 "2024-03-01 09:02:00"] fs_empty)
     = Ok (false, StrOfExn IndexError)
  /\ Forall (fun r => ~ index_error sample_questions (question_id r))
       [answer 0 2 5 "2024-03-01 09:00:00"; answer 2 1 3 "2024-03-01 09:02:00"]
  /\ fst (export_results "u1" sample_questions
            [answer 0 2 5 "2024-03-01 09:00:00"; answer 2 1 3 "2024-03-01 09:02:00"] fs_empty)
     = Ok (true, Text "user_data/u1_results.csv").
Proof.
  assert (H1 : Exists (fun r => index_error sample_questions (question_id r))
                 [answer 0 2 5 "2024-03-01 09:00:00"; answer 3 1 3 "2024-03-01 09:02:00"]).
  { apply Exists_cons_tl, Exists_cons_hd. right. simpl. lia. }
  assert (H2 : Forall (fun r => ~ index_error sample_questions (question_id r))
                 [answer 0 2 5 "2024-03-01 09:00:00"; answer 2 1 3 "2024-03-01 09:02:00"]).
  { repeat constructor; unfold index_error; simpl; lia. }
  split; [exact H1|]. split; [|split; [exact H2|]].
  - destruct (export_results_index_error "u1" sample_questions
                [answer 0 2 5 "2024-03-01 09:00:00"; answer 3 1 3 "2024-03-01 09:02:00"]
                fs_empty) as [Hfail _].
    destruct (Hfail H1) as (rows & Heq & _). rewrite Heq. reflexivity.
  - destruct (export_results_index_error "u1" sample_questions
                [answer 0 2 5 "2024-03-01 09:00:00"; answer 2 1 3 "2024-03-01 09:02:00"]
                fs_empty) as [_ Hok].
    destruct (Hok H2) as (rows & Heq & _). rewrite Heq. reflexivity.
Defined.

(** C4 in the specification has every ordinal that is not a position of the
    catalog fail the export. Ordinal -1 is no position of a catalog of 3,
    yet [questions[-1]] is the last question: the export succeeds and
    writes the record joined with it. *)
Lemma export_results_negative_ordinal :
  ~ (0 <= question_id (answer (-1) 1 4 "2024-03-01 09:00:00")
       < Z.of_nat (length sample_questions))
  /\ export_results "u1" sample_questions [answer (-1) 1 4 "2024-03-01 09:00:00"] fs_empty
     = (Ok (true, Text "user_data/u1_results.csv"),
        set_results_files
          {[ "u1" :=
               [ [PStr "question_id"; PStr "user"; PStr "sentence"; PStr "option1";
                  PStr "option2"; PStr "selected_option"; PStr "selected_text";
                  PStr "confidence"; PStr "timestamp"];
                 [PInt (-1); PStr "u1";
                  PStr "The researchers discovered a new species of frog.";
                  PStr "Scientists identified a previously unknown amphibian of the frog family.";
                  PStr "The research team found a type of frog that was not known before.";
                  PInt 1; PStr "I found the film to be quite delightful.";
                  PInt 4; PStr "2024-03-01 09:00:00"] ] ]}
          fs_empty).
Proof. split; [simpl; lia|reflexivity]. Qed.

Lemma export_all_data_skips_witness :
  fst (load_users fs_three_users)
    = Ok [ ("u1", mkAccount "h1" (Some "2024-02-01 08:00:00"));
           ("u2", mkAccount "h2" (Some "2024-02-02 08:00:00"));
           ("u3", mkAccount "h3" None) ]
  /\ fst (load_questions fs_three_users) = Ok sample_questions
  /\ (forall username responses,
        username ∈ ["u1"; "u2"; "u3"] ->
        fst (load_responses username fs_three_users) = Ok responses ->
        Forall (fun r => 0 <= question_id r) responses)
  /\ exists s',
       export_all_data fs_three_users = (Ok (true, Text "all_preference_data.csv"), s')
       /\ all_data_file s'
          = Some [ header_row results_fieldnames;
                   [PInt 0; PStr "u1";
                    PStr "The movie was really enjoyable and entertaining.";
                    PStr "I found the film to be quite delightful.";
                    PStr "The cinematic experience gave me great pleasure.";
                    PInt 2; PStr "The cinematic experience gave me great pleasure.";
                    PInt 5; PStr "2024-03-01 09:00:00"] ]
       /\ stdout s' = [("u2", ValueError)].
Proof.
  assert (H1 : fst (load_users fs_three_users)
               = Ok [ ("u1", mkAccount "h1" (Some "2024-02-01 08:00:00"));
                      ("u2", mkAccount "h2" (Some "2024-02-02 08:00:00"));
                      ("u3", mkAccount "h3" None) ]) by reflexivity.
  assert (H2 : fst (load_questions fs_three_users) = Ok sample_questions) by reflexivity.
  assert (H3 : forall username responses,
             username ∈ ["u1"; "u2"; "u3"] ->
             fst (load_responses username fs_three_users) = Ok responses ->
             Forall (fun r => 0 <= question_id r) responses).
  { intros username responses Hin.
    repeat (apply elem_of_cons in Hin as [->|Hin]); [| | |by apply elem_of_nil in Hin];
      vm_compute; intros H; inversion H; repeat constructor; discriminate. }
  split; [exact H1|]. split; [exact H2|]. split; [exact H3|].
  destruct (export_all_data_skips fs_three_users _ _ H1 H2 H3)
    as (s' & Hexp & Hfile & Hout & _).
  exists s'. split; [exact Hexp|]. split; [exact Hfile|exact Hout].
Defined.

(** C5 in the specification has each record whose ordinal is out of range
    skipped and the records after it still exported. With ordinals -5 and 0
    in the ledger of "u1" and a catalog of 3, [questions[-5]] raises inside
    the [try] of that user: the record of ordinal 0 is not exported. And a
    record of ordinal -1 is not skipped but joined with the last question. *)
Lemma export_all_data_negative_ordinal :
  let s := set_users_file (Some (Holding [("u1", mkAccount "h1" None)]))
             (set_data_files
                {[ "u1" := Holding [answer (-5) 1 4 "2024-03-01 09:00:00";
                                    answer 0 2 5 "2024-03-01 09:02:00"] ]}
                fs_empty) in
  let s1 := set_users_file (Some (Holding [("u1", mkAccount "h1" None)]))
              (set_data_files
                 {[ "u1" := Holding [answer (-1) 1 4 "2024-03-01 09:00:00"] ]}
                 fs_empty) in
  fst (load_questions s) = Ok sample_questions
  /\ fst (export_all_data s) = Ok (true, Text "all_preference_data.csv")
  /\ all_data_file (snd (export_all_data s)) = Some [[PStr "No data available"]]
  /\ stdout (snd (export_all_data s)) = [("u1", IndexError)]
  /\ all_data_file (snd (export_all_data s1))
     = Some [ header_row results_fieldnames;
              [PInt (-1); PStr "u1";
               PStr "The researchers discovered a new species of frog.";
               PStr "Scientists identified a previously unknown amphibian of the frog family.";
               PStr "The research team found a type of frog that was not known before.";
               PInt 1; PStr "I found the film to be quite delightful.";
               PInt 4; PStr "2024-03-01 09:00:00"] ].
Proof. repeat split; reflexivity. Qed.

Lemma get_statistics_completion_witness :
  fst (load_users fs_two_users)
    = Ok [ ("u1", mkAccount "h1" (Some "2024-02-01 08:00:00"));
           ("u2", mkAccount "h2" (Some "2024-02-02 08:00:00")) ]
  /\ fst (count_questions fs_two_users) = Ok 3
  /\ exists st t,
       get_statistics fs_two_users = (Ok st, fs_two_users)
       /\ st_total_users st = 2
       /\ st_question_count st = 3
       /\ completed_users t = 1
       /\ st_completion_rate st = Float 50.
Proof.
  assert (H1 : fst (load_users fs_two_users)
               = Ok [ ("u1", mkAccount "h1" (Some "2024-02-01 08:00:00"));
                      ("u2", mkAccount "h2" (Some "2024-02-02 08:00:00")) ])
    by reflexivity.
  assert (H2 : fst (count_questions fs_two_users) = Ok 3) by reflexivity.
  split; [exact H1|]. split; [exact H2|].
  destruct (get_statistics_completion fs_two_users _ 3 H1 H2)
    as (st & t & Hst & _ & Htotal & Hqc & _ & Hcompleted & _ & _ & _ & Hrate & _).
  exists st, t. split; [exact Hst|]. split; [exact Htotal|]. split; [exact Hqc|].
  split; [exact Hcompleted|].
  rewrite Hrate.
  - rewrite Hcompleted, Htotal. reflexivity.
  - rewrite Htotal. reflexivity.
  - reflexivity.
Defined.

(** C6 in the specification makes the rate [100 * completed / total] unless
    one of the two counts is 0, and compares the response count with the
    size of the catalog.
    - With one account and a catalog file that has its header and no
      question, [question_count] is 0, the account counts as completed
      (0 >= 0), neither count is 0, and the rate returned is 0, not 100.
    - With no catalog file, [question_count] is 0 while the catalog that
      [load_questions] serves has 3 questions: "u1", with one answer out of
      3, is counted as completed.
    - A blank row of the catalog file is counted: with a catalog of one
      question followed by a blank row, [question_count] is 2 and "u1", who
      has answered the only question, is not counted as completed.
    - With 1 completed account of 3, [(1 / 3) * 100] is 33.33333333333333;
      [100 * 1 / 3] is 33.333333333333336. *)
Lemma get_statistics_rate_without_questions :
  let users := [("u1", mkAccount "h1" None)] in
  let header_only :=
    set_users_file (Some (Holding users))
      (set_questions_file (Some (Holding [["text"; "multi"; "translated"]])) fs_empty) in
  let no_catalog := set_users_file (Some (Holding users)) fs_u1 in
  let blank_row :=
    set_users_file (Some (Holding users))
      (set_questions_file
         (Some (Holding [["text"; "multi"; "translated"]; ["a"; "b"; "c"]; []]))
         (set_data_files
            {[ "u1" := Holding [mkResponse 0 "u1" (Some "c") 1 (Some "a") 4
                                  "2024-03-01 09:00:00"] ]}
            fs_empty)) in
  let three_users :=
    set_users_file
      (Some (Holding [ ("u1", mkAccount "h1" None); ("u2", mkAccount "h2" None);
                       ("u3", mkAccount "h3" None) ]))
      fs_two_users in
  (get_statistics header_only
     = (Ok (mkStatistics 1 0 0 (Int 0) [("u1", mkProgress 0 (Int 0) "Unknown")]),
        header_only)
   /\ completed_count header_only 0 ["u1"] = 1
   /\ number_eqb (Int 0) (completionRatePercent 1 1) = false)
  /\ (fst (load_questions no_catalog) = Ok sample_questions
      /\ length sample_questions = 3%nat
      /\ fst (get_statistics no_catalog)
         = Ok (mkStatistics 1 1 0 (Int 0) [("u1", mkProgress 1 (Int 0) "Unknown")])
      /\ completed_count no_catalog 0 ["u1"] = 1)
  /\ (fst (load_questions blank_row) = Ok [mkQuestion (Some "c") (Some "a") (Some "b")]
      /\ fst (get_statistics blank_row)
         = Ok (mkStatistics 1 1 2 (Float 0) [("u1", mkProgress 1 (Float 50) "Unknown")])
      /\ completed_count blank_row 2 ["u1"] = 0)
  /\ (fst (get_statistics three_users)
        = Ok (mkStatistics 3 4 3 (Float 0x1.0aaaaaaaaaaaap+5)
                [ ("u1", mkProgress 3 (Float 100) "Unknown");
                  ("u2", mkProgress 1 (Float 0x1.0aaaaaaaaaaaap+5) "Unknown");
                  ("u3", mkProgress 0 (Float 0) "Unknown") ])
      /\ completed_count three_users 3 ["u1"; "u2"; "u3"] = 1
      /\ completionRatePercent 1 3 = Float 0x1.0aaaaaaaaaaabp+5
      /\ number_eqb (Float 0x1.0aaaaaaaaaaaap+5) (completionRatePercent 1 3) = false).
Proof.
  repeat split; reflexivity.
Qed.

(** * Further properties of the code *)

(** ** The account store *)

Lemma od_set_fresh {V : Type} (k : string) (v : V) (d : odict V) :
  od_get k d = None -> od_set k v d = d ++ [(k, v)].
Proof.
  induction d as [|[k' v'] d IH]; simpl; [done|].
  destruct (decide (k' = k)); [done|]. intros H. by rewrite IH.
Qed.

Lemma od_get_None {V : Type} (k : string) (d : odict V) :
  od_get k d = None <-> k ∉ od_keys d.
Proof.
  unfold od_keys. induction d as [|[k' v'] d IH]; simpl.
  - split; [intros _; apply not_elem_of_nil|done].
  - rewrite not_elem_of_cons. destruct (decide (k' = k)) as [->|Hne].
    + split; [done|]. by intros [? _].
    + rewrite IH. split; [by intros ?; split|by intros [_ ?]].
Qed.

Lemma od_get_del_ne {V : Type} (k k' : string) (d : odict V) :
  k <> k' -> od_get k' (od_del k d) = od_get k' d.
Proof.
  intros Hne. induction d as [|[k0 v0] d IH]; simpl; [done|].
  destruct (decide (k0 = k)) as [->|Hne0]; simpl.
  - by rewrite decide_False.
  - by rewrite IH.
Qed.

Lemma od_get_del_eq {V : Type} (k : string) (d : odict V) :
  NoDup (od_keys d) -> od_get k (od_del k d) = None.
Proof.
  unfold od_keys. induction d as [|[k0 v0] d IH]; simpl; [done|].
  intros [Hnotin Hnd]%NoDup_cons.
  destruct (decide (k0 = k)) as [->|Hne0]; simpl.
  - by apply od_get_None.
  - rewrite decide_False by done. by apply IH.
Qed.

Lemma authenticate_spec (sha256_hexdigest : string -> string)
    (username pw : string) (s : fs) (users : odict Account) :
  fst (load_users s) = Ok users ->
  authenticate sha256_hexdigest username pw s
  = (Ok (match od_get username users with
         | None => (false, Text "User not found")
         | Some acct =>
             if decide (password acct = sha256_hexdigest pw)
             then (true, Text "Authentication successful")
             else (false, Text "Incorrect password")
         end), s).
Proof.
  intros Hu%load_users_Ok. unfold authenticate, bind. rewrite Hu.
  destruct (od_get username users) as [[stored_password c]|]; [|done].
  unfold hash_password. simpl.
  by destruct (decide (stored_password = sha256_hexdigest pw)).
Qed.

Lemma register_user_fresh (sha256_hexdigest : string -> string)
    (now username pw : string) (s : fs) (users : odict Account) :
  load_users s = (Ok users, s) ->
  od_mem username users = false ->
  register_user sha256_hexdigest now username pw s
  = (Ok (true, Text "Registration successful"),
     set_users_file
       (Some (Holding (od_set username (mkAccount (sha256_hexdigest pw) (Some now)) users)))
       s).
Proof.
  intros Hu Hnew. unfold register_user, bind. by rewrite Hu, Hnew.
Qed.

(** X1. A successful [register_user] puts the new account last in
    [users.json], keeps every account that was there, in order, and writes
    no other file. *)
Theorem register_user_appends (sha256_hexdigest : string -> string)
    (now username pw : string) (s : fs) (users : odict Account) :
  fst (load_users s) = Ok users ->
  od_get username users = None ->
  register_user sha256_hexdigest now username pw s
  = (Ok (true, Text "Registration successful"),
     set_users_file
       (Some (Holding (users ++ [(username, mkAccount (sha256_hexdigest pw) (Some now))])))
       s).
Proof.
  intros Hu%load_users_Ok Hnew. unfold register_user, bind. rewrite Hu.
  unfold od_mem. rewrite Hnew. unfold hash_password, save_users, modify, ret.
  by rewrite od_set_fresh.
Qed.

Lemma register_user_appends_witness :
  fst (load_users fs_two_users)
    = Ok [ ("u1", mkAccount "h1" (Some "2024-02-01 08:00:00"));
           ("u2", mkAccount "h2" (Some "2024-02-02 08:00:00")) ]
  /\ od_get "u3" [ ("u1", mkAccount "h1" (Some "2024-02-01 08:00:00"));
                   ("u2", mkAccount "h2" (Some "2024-02-02 08:00:00")) ] = None
  /\ register_user (String.append "sha256:") "2024-03-05 12:00:00" "u3" "pw" fs_two_users
     = (Ok (true, Text "Registration successful"),
        set_users_file
          (Some (Holding [ ("u1", mkAccount "h1" (Some "2024-02-01 08:00:00"));
                           ("u2", mkAccount "h2" (Some "2024-02-02 08:00:00"));
                           ("u3", mkAccount "sha256:pw" (Some "2024-03-05 12:00:00")) ]))
          fs_two_users).
Proof.
  split; [reflexivity|]. split; [reflexivity|].
  exact (register_user_appends (String.append "sha256:") "2024-03-05 12:00:00" "u3" "pw"
           fs_two_users
           [ ("u1", mkAccount "h1" (Some "2024-02-01 08:00:00"));
             ("u2", mkAccount "h2" (Some "2024-02-02 08:00:00")) ]
           eq_refl eq_refl).
Defined.

(** X2. Once [register_user] has succeeded for a name, [authenticate]
    accepts that name with any password of the same digest and answers
    "Incorrect password" for every other; what it answers for any other
    name is what it answered before the registration. *)
Theorem register_then_authenticate (sha256_hexdigest : string -> string)
    (now username pw : string) (s : fs) (users : odict Account) :
  fst (load_users s) = Ok users ->
  od_get username users = None ->
  exists s1,
    register_user sha256_hexdigest now username pw s
      = (Ok (true, Text "Registration successful"), s1)
    /\ (forall pw', sha256_hexdigest pw' = sha256_hexdigest pw ->
        authenticate sha256_hexdigest username pw' s1
        = (Ok (true, Text "Authentication successful"), s1))
    /\ (forall pw', sha256_hexdigest pw' <> sha256_hexdigest pw ->
        authenticate sha256_hexdigest username pw' s1
        = (Ok (false, Text "Incorrect password"), s1))
    /\ (forall username' pw', username' <> username ->
        authenticate sha256_hexdigest username' pw' s1
        = (fst (authenticate sha256_hexdigest username' pw' s), s1)).
Proof.
  intros Hu Hnew.
  set (acct := mkAccount (sha256_hexdigest pw) (Some now)).
  exists (set_users_file (Some (Holding (users ++ [(username, acct)]))) s).
  split.
  { rewrite (register_user_fresh _ _ _ _ _ users);
      [|by apply load_users_Ok|by unfold od_mem; rewrite Hnew].
    by rewrite od_set_fresh. }
  assert (Hu1 : fst (load_users
                       (set_users_file (Some (Holding (users ++ [(username, acct)]))) s))
                = Ok (od_set username acct users)).
  { rewrite load_users_spec. simpl. by rewrite od_set_fresh. }
  split; [|split].
  - intros pw' Hpw. rewrite (authenticate_spec _ _ _ _ _ Hu1), od_get_set_eq. simpl.
    by rewrite decide_True.
  - intros pw' Hpw. rewrite (authenticate_spec _ _ _ _ _ Hu1), od_get_set_eq. simpl.
    by rewrite decide_False.
  - intros username' pw' Hne.
    rewrite (authenticate_spec _ _ _ _ _ Hu1), (authenticate_spec _ _ _ _ _ Hu). simpl.
    by rewrite od_get_set_ne.
Qed.

Lemma register_then_authenticate_witness :
  fst (load_users fs_empty) = Ok []
  /\ od_get "u1" ([] : odict Account) = None
  /\ exists s1,
       register_user (String.append "sha256:") "2024-01-01 10:00:00" "u1" "secret" fs_empty
         = (Ok (true, Text "Registration successful"), s1)
       /\ authenticate (String.append "sha256:") "u1" "secret" s1
          = (Ok (true, Text "Authentication successful"), s1)
       /\ authenticate (String.append "sha256:") "u1" "guess" s1
          = (Ok (false, Text "Incorrect password"), s1).
Proof.
  split; [reflexivity|]. split; [reflexivity|].
  destruct (register_then_authenticate (String.append "sha256:")
              "2024-01-01 10:00:00" "u1" "secret" fs_empty [] eq_refl eq_refl)
    as (s1 & Hreg & Hsame & Hother & _).
  exists s1. split; [exact Hreg|]. split; [apply Hsame; reflexivity|].
  apply Hother. discriminate.
Defined.


(** X3. [delete_user] for a name that has an account removes the account
    and the ledger file, and nothing else: afterwards the ledger of the name
    loads as empty and [authenticate] answers "User not found", the other
    accounts are as they were, and the user's exported results file stays. *)
Theorem delete_user_removes (sha256_hexdigest : string -> string)
    (username : string) (s : fs) (users : odict Account) (acct : Account) :
  fst (load_users s) = Ok users ->
  NoDup (od_keys users) ->
  od_get username users = Some acct ->
  exists s',
    delete_user username s
      = (Ok (true, Text ("User '" +:+ username +:+ "' deleted successfully")), s')
    /\ users_file s' = Some (Holding (od_del username users))
    /\ data_files s' = delete username (data_files s)
    /\ fst (load_responses username s') = Ok []
    /\ (forall pw, authenticate sha256_hexdigest username pw s'
                   = (Ok (false, Text "User not found"), s'))
    /\ (forall username', username' <> username ->
        od_get username' (od_del username users) = od_get username' users)
    /\ results_files s' = results_files s
    /\ questions_file s' = questions_file s
    /\ all_data_file s' = all_data_file s.
Proof.
  intros Hu Hnd Hacct.
  exists (set_users_file (Some (Holding (od_del username users)))
            (set_data_files (delete username (data_files s)) s)).
  split.
  { apply load_users_Ok in Hu. unfold delete_user, bind at 1. rewrite Hu.
    unfold od_mem. rewrite Hacct. unfold save_users. unfold_M.
    destruct (data_files s !! username) as [f|] eqn:Hf.
    - by rewrite bool_decide_true by (by eexists).
    - rewrite bool_decide_false by (intros [? ?]; discriminate).
      rewrite delete_id by done. by destruct s. }
  split; [done|]. split; [done|].
  split; [rewrite load_responses_spec; simpl; by rewrite lookup_delete_eq|].
  split.
  { intros pw. erewrite authenticate_spec; [|by rewrite load_users_spec].
    by rewrite od_get_del_eq. }
  split; [|done].
  intros username' Hne. by apply od_get_del_ne.
Qed.

Lemma delete_user_removes_witness :
  fst (load_users fs_two_users)
    = Ok [ ("u1", mkAccount "h1" (Some "2024-02-01 08:00:00"));
           ("u2", mkAccount "h2" (Some "2024-02-02 08:00:00")) ]
  /\ NoDup (od_keys [ ("u1", mkAccount "h1" (Some "2024-02-01 08:00:00"));
                      ("u2", mkAccount "h2" (Some "2024-02-02 08:00:00")) ])
  /\ od_get "u2" [ ("u1", mkAccount "h1" (Some "2024-02-01 08:00:00"));
                   ("u2", mkAccount "h2" (Some "2024-02-02 08:00:00")) ]
     = Some (mkAccount "h2" (Some "2024-02-02 08:00:00"))
  /\ exists s',
       delete_user "u2" fs_two_users
         = (Ok (true, Text "User 'u2' deleted successfully"), s')
       /\ users_file s' = Some (Holding [("u1", mkAccount "h1" (Some "2024-02-01 08:00:00"))])
       /\ fst (load_responses "u2" s') = Ok []
       /\ authenticate (String.append "sha256:") "u2" "pw" s'
          = (Ok (false, Text "User not found"), s').
Proof.
  assert (Hnd : NoDup (od_keys [ ("u1", mkAccount "h1" (Some "2024-02-01 08:00:00"));
                                 ("u2", mkAccount "h2" (Some "2024-02-02 08:00:00")) ])).
  { apply NoDup_cons. split; [|apply NoDup_singleton].
    intros H%list_elem_of_singleton. discriminate H. }
  split; [reflexivity|]. split; [exact Hnd|]. split; [reflexivity|].
  destruct (delete_user_removes (String.append "sha256:") "u2" fs_two_users _ _
              eq_refl Hnd eq_refl)
    as (s' & Hdel & Husers & _ & Hload & Hauth & _).
  exists s'. split; [exact Hdel|]. split; [exact Husers|]. split; [exact Hload|].
  apply Hauth.
Defined.

(** X4. When [users.json] is there but cannot be opened or decoded,
    [register_user], [authenticate] and [delete_user] raise the error of the
    read instead of answering, and write nothing: the table is not
    replaced, and [delete_user] leaves the ledger file in place. *)
Theorem account_functions_raise (sha256_hexdigest : string -> string)
    (now username pw : string) (s : fs) (e : exn) :
  fst (load_users s) = Raise e ->
  register_user sha256_hexdigest now username pw s = (Raise e, s)
  /\ authenticate sha256_hexdigest username pw s = (Raise e, s)
  /\ delete_user username s = (Raise e, s)
  /\ (e = PermissionError \/ e = ValueError).
Proof.
  intros H. assert (Hl : load_users s = (Raise e, s)).
  { rewrite load_users_spec in *. simpl in H. by rewrite H. }
  unfold register_user, authenticate, delete_user, bind. rewrite Hl.
  split; [done|]. split; [done|]. split; [done|].
  rewrite load_users_spec in H. simpl in H.
  destruct (users_file s) as [[| |users]|]; simplify_eq; auto.
Qed.

Lemma account_functions_raise_witness :
  fst (load_users (set_users_file (Some Malformed) fs_u1)) = Raise ValueError
  /\ register_user (String.append "sha256:") "2024-01-01 10:00:00" "u1" "secret"
       (set_users_file (Some Malformed) fs_u1)
     = (Raise ValueError, set_users_file (Some Malformed) fs_u1)
  /\ delete_user "u1" (set_users_file (Some Malformed) fs_u1)
     = (Raise ValueError, set_users_file (Some Malformed) fs_u1).
Proof.
  split; [reflexivity|].
  destruct (account_functions_raise (String.append "sha256:") "2024-01-01 10:00:00"
              "u1" "secret" (set_users_file (Some Malformed) fs_u1) ValueError eq_refl)
    as (Hreg & _ & Hdel & _).
  split; [exact Hreg|exact Hdel].
Defined.

(** ** The ledger *)

Lemma previous_response_filter (responses : list Response) (q : Z) :
  previous_response responses q = head (filter (fun r => question_id r = q) responses).
Proof.
  unfold previous_response. induction responses as [|x l IH]; [done|].
  rewrite filter_cons. simpl. destruct (decide (question_id x = q)); [done|].
  rewrite <- IH. by destruct (list_find _ l) as [[i y]|].
Qed.

Lemma update_responses_filter_other (responses : list Response) (response : Response) (k : Z) :
  k <> question_id response ->
  filter (fun r => question_id r = k) (update_responses responses response)
  = filter (fun r => question_id r = k) responses.
Proof.
  intros Hk. destruct (existing_index responses response) as [i|] eqn:Hi.
  - eapply update_responses_other_keys; [|done]. simpl. congruence.
  - unfold update_responses. rewrite Hi.
    rewrite sort_by_question_id_stable, filter_app.
    rewrite (filter_cons_False _ response) by (simpl; congruence).
    by rewrite filter_nil, app_nil_r.
Qed.

Lemma previous_response_update (responses : list Response) (response : Response) (q : Z) :
  previous_response (update_responses responses response) q
  = if decide (q = question_id response) then Some response
    else previous_response responses q.
Proof.
  destruct (decide (q = question_id response)) as [->|Hne].
  - destruct (existing_index responses response) as [i|] eqn:Hi.
    + unfold update_responses. rewrite Hi. by apply previous_response_insert.
    + unfold update_responses. rewrite Hi.
      rewrite previous_response_filter, sort_by_question_id_stable, filter_app.
      rewrite (filter_cons_True _ response) by done.
      assert (filter (fun r => question_id r = question_id response) responses = []) as ->;
        [|done].
      apply existing_index_None in Hi.
      induction responses as [|x l IH]; [done|].
      rewrite fmap_cons, not_elem_of_cons in Hi. destruct Hi as [Hx Hl].
      rewrite filter_cons_False by congruence. by apply IH.
  - by rewrite !previous_response_filter, update_responses_filter_other.
Qed.

(** X5. After [save_response], looking a question up in the ledger (the
    scan of [question_page]) finds the submitted record under its ordinal
    and, under every other ordinal, what it found before. *)
Theorem save_response_then_lookup (username : string) (response : Response) (s : fs)
    (responses : list Response) :
  fst (load_responses username s) = Ok responses ->
  exists responses' s',
    save_response username response s = (Ok responses', s')
    /\ fst (load_responses username s') = Ok responses'
    /\ forall q,
         previous_response responses' q
         = if decide (q = question_id response) then Some response
           else previous_response responses q.
Proof.
  intros Hload. eexists _, _. rewrite (save_response_spec _ _ _ _ Hload).
  split; [reflexivity|]. split; [by rewrite load_after_write|].
  apply previous_response_update.
Qed.

Lemma save_response_then_lookup_witness :
  fst (load_responses "u1" fs_u1_02)
    = Ok [answer 0 2 5 "2024-03-01 09:00:00"; answer 2 1 3 "2024-03-01 09:02:00"]
  /\ exists responses' s',
       save_response "u1" (answer 1 1 4 "2024-03-01 09:05:00") fs_u1_02 = (Ok responses', s')
       /\ previous_response responses' 1 = Some (answer 1 1 4 "2024-03-01 09:05:00")
       /\ previous_response responses' 2 = Some (answer 2 1 3 "2024-03-01 09:02:00")
       /\ previous_response responses' 3 = None.
Proof.
  split; [reflexivity|].
  destruct (save_response_then_lookup "u1" (answer 1 1 4 "2024-03-01 09:05:00")
              fs_u1_02 _ eq_refl) as (responses' & s' & Hsave & _ & Hlook).
  exists responses', s'. split; [exact Hsave|].
  split; [exact (Hlook 1)|]. split; [exact (Hlook 2)|exact (Hlook 3)].
Defined.

(** X6. Submitting a record for an ordinal the ledger does not hold adds
    exactly that record: the ledger is one longer and holds the records it
    held and the new one. *)
Theorem save_response_new_ordinal (username : string) (response : Response) (s : fs)
    (responses : list Response) :
  fst (load_responses username s) = Ok responses ->
  question_id response ∉ ordinals responses ->
  exists responses' s',
    save_response username response s = (Ok responses', s')
    /\ fst (load_responses username s') = Ok responses'
    /\ length responses' = S (length responses)
    /\ responses' ≡ₚ response :: responses.
Proof.
  intros Hload Hnew. eexists _, _. rewrite (save_response_spec _ _ _ _ Hload).
  split; [reflexivity|]. split; [by rewrite load_after_write|].
  assert (Hi : existing_index responses response = None).
  { destruct (existing_index responses response) as [i|] eqn:Hi; [|done].
    destruct (existing_index_Some _ _ _ Hi) as (r & Hr & Hq & _).
    exfalso. apply Hnew. apply list_elem_of_fmap. exists r.
    split; [done|]. by eapply list_elem_of_lookup_2. }
  assert (Hperm : update_responses responses response ≡ₚ response :: responses).
  { unfold update_responses. rewrite Hi, sort_by_question_id_Permutation.
    by rewrite <- Permutation_cons_append. }
  split; [by rewrite Hperm|done].
Qed.

Lemma save_response_new_ordinal_witness :
  fst (load_responses "u1" fs_u1_02)
    = Ok [answer 0 2 5 "2024-03-01 09:00:00"; answer 2 1 3 "2024-03-01 09:02:00"]
  /\ (question_id (answer 1 1 4 "2024-03-01 09:05:00")
        ∉ ordinals [answer 0 2 5 "2024-03-01 09:00:00"; answer 2 1 3 "2024-03-01 09:02:00"])
  /\ exists responses' s',
       save_response "u1" (answer 1 1 4 "2024-03-01 09:05:00") fs_u1_02 = (Ok responses', s')
       /\ length responses' = 3%nat.
Proof.
  assert (H : question_id (answer 1 1 4 "2024-03-01 09:05:00")
                ∉ ordinals [answer 0 2 5 "2024-03-01 09:00:00";
                            answer 2 1 3 "2024-03-01 09:02:00"]).
  { simpl. intros Hin. repeat (apply elem_of_cons in Hin as [Hin|Hin]; [discriminate|]).
    by apply elem_of_nil in Hin. }
  split; [reflexivity|]. split; [exact H|].
  destruct (save_response_new_ordinal "u1" (answer 1 1 4 "2024-03-01 09:05:00")
              fs_u1_02 _ eq_refl H) as (responses' & s' & Hsave & _ & Hlen & _).
  exists responses', s'. split; [exact Hsave|exact Hlen].
Defined.

Lemma update_responses_idempotent (responses : list Response) (response : Response) :
  update_responses (update_responses responses response) response
  = update_responses responses response.
Proof.
  set (l := update_responses responses response).
  pose proof (previous_response_update responses response (question_id response)) as Hprev.
  rewrite decide_True in Hprev by done. fold l in Hprev.
  unfold previous_response in Hprev.
  destruct (list_find _ l) as [[i x]|] eqn:Hfind; simplify_eq/=.
  unfold update_responses at 1, existing_index. rewrite Hfind. simpl.
  apply list_find_Some in Hfind as (Hi & _ & _). by apply list_insert_id.
Qed.

(** X7. [save_response] is idempotent: submitting the same record a second
    time returns the same ledger and leaves every file as the first
    submission left it. *)
Theorem save_response_idempotent (username : string) (response : Response) (s : fs)
    (responses : list Response) :
  fst (load_responses username s) = Ok responses ->
  exists responses' s',
    save_response username response s = (Ok responses', s')
    /\ save_response username response s' = (Ok responses', s').
Proof.
  intros Hload. eexists _, _. rewrite (save_response_spec _ _ _ _ Hload).
  split; [reflexivity|].
  erewrite save_response_spec; [|by rewrite load_after_write].
  rewrite update_responses_idempotent. f_equal.
  destruct s. unfold set_data_files. simpl. f_equal. apply insert_insert_eq.
Qed.

Lemma save_response_idempotent_witness :
  fst (load_responses "u1" fs_u1_02)
    = Ok [answer 0 2 5 "2024-03-01 09:00:00"; answer 2 1 3 "2024-03-01 09:02:00"]
  /\ exists responses' s',
       save_response "u1" (answer 1 1 4 "2024-03-01 09:05:00") fs_u1_02 = (Ok responses', s')
       /\ save_response "u1" (answer 1 1 4 "2024-03-01 09:05:00") s' = (Ok responses', s').
Proof.
  split; [reflexivity|].
  exact (save_response_idempotent "u1" (answer 1 1 4 "2024-03-01 09:05:00")
           fs_u1_02 _ eq_refl).
Defined.

(** X8. When the ledger file of the user is there but cannot be opened or
    decoded, [save_response] raises the error of the read and leaves the
    file as it is: the submitted record is not saved and the file is not
    replaced by a fresh ledger. *)
Theorem save_response_unreadable_ledger (username : string) (response : Response)
    (s : fs) (e : exn) :
  fst (load_responses username s) = Raise e ->
  save_response username response s = (Raise e, s)
  /\ (e = PermissionError \/ e = ValueError).
Proof.
  intros H. rewrite load_responses_spec in H. simpl in H.
  unfold save_response, bind. rewrite load_responses_spec.
  destruct (data_files s !! username) as [[| |l]|]; simplify_eq; auto.
Qed.

Lemma save_response_unreadable_ledger_witness :
  fst (load_responses "u2" fs_three_users) = Raise ValueError
  /\ save_response "u2" (answer 0 1 4 "2024-03-01 09:05:00") fs_three_users
     = (Raise ValueError, fs_three_users).
Proof.
  split; [reflexivity|].
  exact (proj1 (save_response_unreadable_ledger "u2" (answer 0 1 4 "2024-03-01 09:05:00")
                  fs_three_users ValueError eq_refl)).
Defined.

Lemma last_of_cons (q : Z) (r : Response) (submissions : list Response) :
  last_of q (r :: submissions)
  = match last_of q submissions with
    | Some r' => Some r'
    | None => if decide (question_id r = q) then Some r else None
    end.
Proof.
  unfold last_of. rewrite filter_cons.
  destruct (decide (question_id r = q)); [|by destruct (last _)].
  destruct (filter _ submissions) as [|x l] eqn:E; [done|].
  rewrite last_cons. by destruct (last (x :: l)).
Qed.

(** X9. Through any run of submissions for one user, each saved by
    [save_response], the last record submitted for an ordinal is the one the
    ledger ends up holding for it, ordinals never submitted keep the record
    they had, and a ledger that held one record per ordinal in ascending
    order still does. *)
Theorem submissions_last_wins (username : string) (submissions : list Response)
    (s : fs) (responses : list Response) :
  fst (load_responses username s) = Ok responses ->
  exists responses' s',
    foldM (fun _ r => save_response username r) responses submissions s
      = (Ok responses', s')
    /\ fst (load_responses username s') = Ok responses'
    /\ (forall q,
          previous_response responses' q
          = match last_of q submissions with
            | Some r => Some r
            | None => previous_response responses q
            end)
    /\ (ledger_ok responses -> ledger_ok responses').
Proof.
  revert s responses.
  induction submissions as [|r submissions IH]; intros s responses Hload.
  - exists responses, s. split; [done|]. split; [done|]. split; [done|]. auto.
  - simpl foldM. unfold bind. rewrite (save_response_spec _ _ _ _ Hload).
    edestruct IH as (responses' & s' & Hrun & Hload' & Hlook & Hok);
      [by rewrite load_after_write|].
    exists responses', s'. split; [exact Hrun|]. split; [exact Hload'|]. split.
    + intros q. rewrite Hlook, last_of_cons, previous_response_update.
      destruct (last_of q submissions); [done|].
      destruct (decide (q = question_id r)) as [->|Hne].
      * by rewrite decide_True.
      * by rewrite decide_False.
    + intros H. by apply Hok, update_responses_ok.
Qed.

Lemma submissions_last_wins_witness :
  fst (load_responses "u1" fs_empty) = Ok []
  /\ exists responses' s',
       foldM (fun _ r => save_response "u1" r) []
         [answer 2 1 3 "2024-03-01 09:00:00";
          answer 0 2 5 "2024-03-01 09:01:00";
          answer 2 2 1 "2024-03-01 09:02:00"] fs_empty
       = (Ok responses', s')
       /\ previous_response responses' 2 = Some (answer 2 2 1 "2024-03-01 09:02:00")
       /\ previous_response responses' 0 = Some (answer 0 2 5 "2024-03-01 09:01:00")
       /\ previous_response responses' 1 = None
       /\ ledger_ok responses'.
Proof.
  split; [reflexivity|].
  destruct (submissions_last_wins "u1"
              [answer 2 1 3 "2024-03-01 09:00:00";
               answer 0 2 5 "2024-03-01 09:01:00";
               answer 2 2 1 "2024-03-01 09:02:00"] fs_empty [] eq_refl)
    as (responses' & s' & Hrun & _ & Hlook & Hok).
  exists responses', s'. split; [exact Hrun|].
  split; [exact (Hlook 2)|]. split; [exact (Hlook 0)|]. split; [exact (Hlook 1)|].
  apply Hok. split; constructor.
Defined.

(** ** The catalog *)

Lemma load_questions_cases (s : fs) (questions : list Question) (s' : fs) :
  load_questions s = (Ok questions, s') ->
  (s' = s /\ questions <> [] /\ read_questions s = (Ok questions, s))
  \/ (s' = set_questions_file (Some (Holding (questions_table sample_questions))) s
      /\ questions = sample_questions).
Proof.
  unfold load_questions, read_questions. unfold_M.
  destruct (questions_file s) as [[| |t]|]; try (intros H; inversion H; by auto).
  destruct (questions_of_rows (DictReader t)) as [[|q qs]|[]];
    intros H; inversion H; subst; auto.
Qed.

(** X10. Whenever [load_questions] returns, it returns at least one
    question: an empty catalog is never handed to the pages. *)
Theorem load_questions_nonempty (s : fs) (questions : list Question) (s' : fs) :
  load_questions s = (Ok questions, s') ->
  (0 < length questions)%nat.
Proof.
  intros [(_ & Hne & _)|(_ & ->)]%load_questions_cases.
  - destruct questions; [done|simpl; lia].
  - simpl. lia.
Qed.

Lemma load_questions_nonempty_witness :
  load_questions fs_two_users = (Ok sample_questions, fs_two_users)
  /\ (0 < length sample_questions)%nat.
Proof.
  split; [reflexivity|].
  exact (load_questions_nonempty fs_two_users sample_questions fs_two_users eq_refl).
Defined.

(** X11. Loading is stable: after any [load_questions] that returned, the
    next one returns the same questions and writes nothing. *)
Theorem load_questions_stable (s : fs) (questions : list Question) (s' : fs) :
  load_questions s = (Ok questions, s') ->
  load_questions s' = (Ok questions, s').
Proof.
  intros H. destruct (load_questions_cases _ _ _ H) as [(-> & _ & _)|(-> & ->)]; [done|].
  by apply load_questions_of_read, read_questions_seeded.
Qed.

Lemma load_questions_stable_witness :
  load_questions fs_three_users
    = (Ok sample_questions,
       set_questions_file (Some (Holding (questions_table sample_questions))) fs_three_users)
  /\ load_questions
       (set_questions_file (Some (Holding (questions_table sample_questions))) fs_three_users)
     = (Ok sample_questions,
        set_questions_file (Some (Holding (questions_table sample_questions))) fs_three_users).
Proof.
  split; [reflexivity|].
  exact (load_questions_stable fs_three_users sample_questions _ eq_refl).
Defined.

Lemma foldl_insert_Some_lookup (l : list (string * string)) (d : gmap string cell)
    (k : string) :
  is_Some (foldl (fun d kv => <[kv.1 := Some kv.2]> d) d l !! k)
  <-> is_Some (d !! k) \/ k ∈ l.*1.
Proof.
  revert d. induction l as [|[k' v] l IH]; intros d; simpl.
  - rewrite elem_of_nil. tauto.
  - rewrite IH, elem_of_cons. simpl.
    destruct (decide (k' = k)) as [->|Hne].
    + rewrite lookup_insert_eq. split; [auto|]. intros _. left. by eexists.
    + rewrite lookup_insert_ne by done. split; [tauto|].
      intros [?|[?|?]]; [tauto|congruence|tauto].
Qed.

Lemma foldl_insert_None_lookup (l : list string) (d : gmap string cell) (k : string) :
  is_Some (foldl (fun d k => <[k := None]> d) d l !! k)
  <-> is_Some (d !! k) \/ k ∈ l.
Proof.
  revert d. induction l as [|k' l IH]; intros d; simpl.
  - rewrite elem_of_nil. tauto.
  - rewrite IH, elem_of_cons.
    destruct (decide (k' = k)) as [->|Hne].
    + rewrite lookup_insert_eq. split; [auto|]. intros _. left. by eexists.
    + rewrite lookup_insert_ne by done. split; [tauto|].
      intros [?|[?|?]]; [tauto|congruence|tauto].
Qed.

Lemma fst_zip_take {A B : Type} (l : list A) (k : list B) :
  (zip l k).*1 = take (length k) l.
Proof.
  revert k. induction l as [|x l IH]; intros [|y k]; simpl; try done.
  by rewrite IH.
Qed.

(** A row of [csv.DictReader] has exactly the field names as keys. *)
Lemma dict_row_is_Some (fieldnames row : list string) (k : string) :
  is_Some (dict_row fieldnames row !! k) <-> k ∈ fieldnames.
Proof.
  unfold dict_row.
  rewrite foldl_insert_None_lookup, foldl_insert_Some_lookup, lookup_empty, fst_zip_take.
  rewrite <- (take_drop (length row) fieldnames) at 3. rewrite elem_of_app.
  split; [|tauto]. intros [[[? ?]|?]|?]; [done|tauto|tauto].
Qed.

Lemma question_of_row_Ok (fieldnames row : list string) :
  has_columns fieldnames ->
  exists q, question_of_row (dict_row fieldnames row) = Ok q.
Proof.
  intros (H1 & H2 & H3). unfold question_of_row, row_get.
  apply (dict_row_is_Some fieldnames row) in H1 as [c1 ->].
  apply (dict_row_is_Some fieldnames row) in H2 as [c2 ->].
  apply (dict_row_is_Some fieldnames row) in H3 as [c3 ->].
  by eexists.
Qed.

Lemma question_of_row_KeyError (fieldnames row : list string) :
  ~ has_columns fieldnames ->
  exists k,
    question_of_row (dict_row fieldnames row) = Raise (KeyError k)
    /\ k ∈ ["translated"; "text"; "multi"] /\ k ∉ fieldnames.
Proof.
  intros Hno. unfold question_of_row, row_get.
  destruct (dict_row fieldnames row !! "translated") as [c1|] eqn:E1.
  - destruct (dict_row fieldnames row !! "text") as [c2|] eqn:E2.
    + destruct (dict_row fieldnames row !! "multi") as [c3|] eqn:E3.
      * exfalso. apply Hno. repeat split;
          apply (dict_row_is_Some fieldnames row); by eexists.
      * exists "multi". split; [done|]. split; [set_solver|].
        rewrite <- (dict_row_is_Some fieldnames row), E3. by intros [? ?].
    + exists "text". split; [done|]. split; [set_solver|].
      rewrite <- (dict_row_is_Some fieldnames row), E2. by intros [? ?].
  - exists "translated". split; [done|]. split; [set_solver|].
    rewrite <- (dict_row_is_Some fieldnames row), E1. by intros [? ?].
Qed.

Lemma questions_of_rows_Ok (fieldnames : list string) (rows : table string) :
  has_columns fieldnames ->
  exists questions,
    questions_of_rows (dict_row fieldnames <$> rows) = Ok questions
    /\ length questions = length rows.
Proof.
  intros Hcols. induction rows as [|row rows (qs & IH & Hlen)]; [by exists []|].
  destruct (question_of_row_Ok fieldnames row Hcols) as [q Hq].
  exists (q :: qs). rewrite fmap_cons. cbn [questions_of_rows].
  rewrite Hq, IH. simpl. by rewrite Hlen.
Qed.

(** X12. When the header of [questions.csv] lacks one of the columns
    [translated], [text], [multi] and some row below it is not blank,
    [load_questions] raises [KeyError] for a missing column, neither
    falling back to the samples nor writing anything. *)
Theorem load_questions_missing_column (s : fs) (fieldnames : list string)
    (rows : table string) :
  questions_file s = Some (Holding (fieldnames :: rows)) ->
  ~ has_columns fieldnames ->
  Exists (fun row => row <> []) rows ->
  exists k,
    load_questions s = (Raise (KeyError k), s)
    /\ k ∈ ["translated"; "text"; "multi"] /\ k ∉ fieldnames.
Proof.
  intros Hf Hno Hex.
  destruct (filter (fun row => row <> []) rows) as [|row rows'] eqn:Hrows.
  - exfalso. apply Exists_exists in Hex as (row & Hin & Hrow).
    eapply (filter_nil_not_elem_of _ _ row Hrows); done.
  - destruct (question_of_row_KeyError fieldnames row Hno) as (k & Hk & Hin & Hnotin).
    exists k. split; [|done].
    unfold load_questions, read_questions. unfold_M. rewrite Hf.
    unfold DictReader, table in *. rewrite Hrows, fmap_cons. cbn [questions_of_rows].
    by rewrite Hk.
Qed.

Lemma load_questions_missing_column_witness :
  questions_file
    (set_questions_file
       (Some (Holding [["sentence"; "text"; "multi"]; ["s"; "a"; "b"]])) fs_empty)
  = Some (Holding [["sentence"; "text"; "multi"]; ["s"; "a"; "b"]])
  /\ ~ has_columns ["sentence"; "text"; "multi"]
  /\ Exists (fun row => row <> []) [["s"; "a"; "b"]]
  /\ exists k,
       load_questions
         (set_questions_file
            (Some (Holding [["sentence"; "text"; "multi"]; ["s"; "a"; "b"]])) fs_empty)
       = (Raise (KeyError k),
          set_questions_file
            (Some (Holding [["sentence"; "text"; "multi"]; ["s"; "a"; "b"]])) fs_empty).
Proof.
  assert (H1 : ~ has_columns ["sentence"; "text"; "multi"]).
  { intros [Hin _].
    repeat (apply elem_of_cons in Hin as [Hin|Hin]; [discriminate|]).
    by apply elem_of_nil in Hin. }
  assert (H2 : Exists (fun row : list string => row <> []) [["s"; "a"; "b"]]).
  { apply Exists_cons_hd. discriminate. }
  split; [reflexivity|]. split; [exact H1|]. split; [exact H2|].
  destruct (load_questions_missing_column
              (set_questions_file
                 (Some (Holding [["sentence"; "text"; "multi"]; ["s"; "a"; "b"]])) fs_empty)
              _ _ eq_refl H1 H2) as (k & Hk & _).
  exists k. exact Hk.
Defined.

(** X13. When the header of [questions.csv] has the three columns and
    some row below it is not blank, [load_questions] returns one question
    per non-blank row and writes nothing, while the [question_count] of
    [get_statistics] also counts the blank rows. *)
Theorem load_questions_counts (s : fs) (fieldnames : list string) (rows : table string) :
  questions_file s = Some (Holding (fieldnames :: rows)) ->
  has_columns fieldnames ->
  Exists (fun row => row <> []) rows ->
  exists questions,
    load_questions s = (Ok questions, s)
    /\ length questions = length (filter (fun row => row <> []) rows)
    /\ count_questions s
       = (Ok (Z.of_nat (length questions)
              + Z.of_nat (length (filter (fun row => ~ row <> []) rows))), s).
Proof.
  intros Hf Hcols Hex.
  destruct (questions_of_rows_Ok fieldnames (filter (fun row => row <> []) rows) Hcols)
    as (qs & Hqs & Hlen).
  exists qs. split; [|split; [done|]].
  - unfold load_questions, read_questions. unfold_M. rewrite Hf.
    unfold DictReader, table in *. rewrite Hqs.
    destruct qs as [|q qs]; [|done]. exfalso.
    apply Exists_exists in Hex as (row & Hin & Hrow).
    symmetry in Hlen. apply length_zero_iff_nil in Hlen.
    eapply (filter_nil_not_elem_of _ _ row Hlen); done.
  - unfold count_questions. unfold_M. rewrite Hf. simpl. do 2 f_equal.
    rewrite Hlen, <- Nat2Z.inj_add, <- length_app.
    rewrite (Permutation_length (filter_app_complement (fun row => row <> []) rows)). lia.
Qed.

Lemma load_questions_counts_witness :
  questions_file
    (set_questions_file
       (Some (Holding [["text"; "multi"; "translated"]; ["a"; "b"; "s"]; []; ["c"; "d"; "t"]]))
       fs_empty)
  = Some (Holding [["text"; "multi"; "translated"]; ["a"; "b"; "s"]; []; ["c"; "d"; "t"]])
  /\ has_columns ["text"; "multi"; "translated"]
  /\ Exists (fun row => row <> []) [["a"; "b"; "s"]; []; ["c"; "d"; "t"]]
  /\ exists questions,
       fst (load_questions
              (set_questions_file
                 (Some (Holding [["text"; "multi"; "translated"];
                                 ["a"; "b"; "s"]; []; ["c"; "d"; "t"]]))
                 fs_empty))
       = Ok questions
       /\ length questions = 2%nat
       /\ fst (count_questions
                 (set_questions_file
                    (Some (Holding [["text"; "multi"; "translated"];
                                    ["a"; "b"; "s"]; []; ["c"; "d"; "t"]]))
                    fs_empty))
          = Ok 3.
Proof.
  assert (H1 : has_columns ["text"; "multi"; "translated"]).
  { unfold has_columns. set_solver. }
  assert (H2 : Exists (fun row : list string => row <> [])
                 [["a"; "b"; "s"]; []; ["c"; "d"; "t"]]).
  { apply Exists_cons_hd. discriminate. }
  split; [reflexivity|]. split; [exact H1|]. split; [exact H2|].
  destruct (load_questions_counts
              (set_questions_file
                 (Some (Holding [["text"; "multi"; "translated"];
                                 ["a"; "b"; "s"]; []; ["c"; "d"; "t"]]))
                 fs_empty) _ _ eq_refl H1 H2) as (questions & Hload & Hlen & Hcount).
  exists questions. split; [by rewrite Hload|]. split; [exact Hlen|].
  rewrite Hcount, Hlen. reflexivity.
Defined.

(** ** The exports *)

Lemma export_rows_prefix (username : string) (questions : list Question)
    (responses : list Response) :
  exists rows e,
    export_rows username questions responses = (rows, e)
    /\ Forall2 (joins username questions) (take (length rows) responses) rows
    /\ ((e = None /\ length rows = length responses)
        \/ (e = Some IndexError
            /\ exists r, responses !! length rows = Some r
                         /\ index_error questions (question_id r))).
Proof.
  induction responses as [|r responses (rows & e & IH & Hjoin & Hend)]; simpl.
  - exists [], None. split; [done|]. split; [constructor|]. by left.
  - destruct (py_index questions (question_id r)) as [q|] eqn:Hq.
    + rewrite IH. eexists _, e. split; [done|]. split.
      * simpl. constructor; [by exists q|done].
      * simpl. destruct Hend as [[-> ->]|[-> Hr]]; [by left|by right].
    + exists [], (Some IndexError). split; [done|]. split; [constructor|].
      right. split; [done|]. exists r. split; [done|]. by apply py_index_None.
Qed.

Lemma export_results_total (username : string) (questions : list Question)
    (responses : list Response) (s : fs) :
  exists (b : bool) (m : message) (rows : table pyval),
    export_results username questions responses s
    = (Ok (b, m),
       set_results_files
         (<[username := header_row results_fieldnames :: rows]> (results_files s)) s)
    /\ (m = Text (results_path username) \/ m = StrOfExn IndexError).
Proof.
  destruct (export_rows_prefix username questions responses)
    as (rows & e & Hrows & _ & Hend).
  unfold export_results. unfold_M. rewrite Hrows.
  destruct Hend as [[-> _]|[-> _]]; eexists _, _, rows; split; eauto.
Qed.

(** X14. [export_results] never raises and writes one file, the results
    file of the user: the header, then the joined rows of the records up to
    the first one whose lookup in the catalog raises. It answers [True]
    with the path when there is no such record and [False] with the text of
    the [IndexError] when there is, the rows before it staying in the file. *)
Theorem export_results_writes_prefix (username : string) (questions : list Question)
    (responses : list Response) (s : fs) :
  exists (b : bool) (m : message) (rows : table pyval),
    export_results username questions responses s
    = (Ok (b, m),
       set_results_files
         (<[username := header_row results_fieldnames :: rows]> (results_files s)) s)
    /\ Forall2 (joins username questions) (take (length rows) responses) rows
    /\ ((b = true /\ m = Text (results_path username)
         /\ length rows = length responses)
        \/ (b = false /\ m = StrOfExn IndexError
            /\ exists r, responses !! length rows = Some r
                         /\ index_error questions (question_id r))).
Proof.
  destruct (export_rows_prefix username questions responses)
    as (rows & e & Hrows & Hjoin & Hend).
  unfold export_results. unfold_M. rewrite Hrows.
  destruct Hend as [[-> Hlen]|[-> Hr]].
  - exists true, (Text (results_path username)), rows.
    split; [done|]. split; [done|]. by left.
  - exists false, (StrOfExn IndexError), rows.
    split; [done|]. split; [done|]. by right.
Qed.

Lemma collect_user_total (questions : list Question) (all_data : list (odict pyval))
    (username : string) (s : fs) :
  exists all_data' out,
    collect_user questions all_data username s = (Ok all_data', set_stdout out s).
Proof.
  unfold collect_user. rewrite load_responses_spec.
  destruct (data_files s !! username) as [[| |responses]|]; simpl;
    try (by eexists _, _).
  - destruct (join_responses username questions responses all_data) as [all_data' [e|]].
    + by eexists _, _.
    + exists all_data', (stdout s). by destruct s.
  - destruct (join_responses username questions [] all_data) as [all_data' [e|]] eqn:E;
      simpl in E; simplify_eq. exists all_data', (stdout s). by destruct s.
Qed.

Lemma collect_users_total (questions : list Question) (usernames : list string)
    (all_data : list (odict pyval)) (s : fs) :
  exists all_data' out,
    foldM (collect_user questions) all_data usernames s = (Ok all_data', set_stdout out s).
Proof.
  revert all_data s. induction usernames as [|u usernames IH]; intros all_data s.
  - exists all_data, (stdout s). by destruct s.
  - destruct (collect_user_total questions all_data u s) as (all_data1 & out1 & H1).
    destruct (IH all_data1 (set_stdout out1 s)) as (all_data' & out & H).
    exists all_data', out. simpl. unfold bind. rewrite H1, H. by destruct s.
Qed.

(** X15. [export_all_data] never raises. It answers [False] with the
    text of the error, and writes no export file, exactly when [users.json]
    or the catalog cannot be read; otherwise it answers [True] and the export
    file is there, whatever the ledgers hold. It never alters the account
    table, a ledger or a user's results file. *)
Theorem export_all_data_never_raises (s : fs) :
  exists (b : bool) (m : message) (s' : fs),
    export_all_data s = (Ok (b, m), s')
    /\ users_file s' = users_file s
    /\ data_files s' = data_files s
    /\ results_files s' = results_files s
    /\ match fst (load_users s), fst (load_questions s) with
       | Raise e, _ => b = false /\ m = StrOfExn e /\ s' = s
       | Ok _, Raise e => b = false /\ m = StrOfExn e /\ s' = s
       | Ok _, Ok _ =>
           b = true /\ m = Text "all_preference_data.csv" /\ is_Some (all_data_file s')
       end.
Proof.
  unfold export_all_data, try_except, bind, any_Exception.
  rewrite load_users_spec. simpl.
  destruct (users_file s) as [[| |users]|] eqn:Hu; simpl;
    try (by eexists false, _, s).
  - destruct (load_questions s) as [[questions|e] s1] eqn:Hq; simpl.
    + destruct (collect_users_total questions (od_keys users) [] s1)
        as (all_data & out & Hfold). rewrite Hfold. unfold modify, ret.
      eexists true, _, _. split; [done|].
      destruct (load_questions_cases _ _ _ Hq) as [(-> & _)|(-> & _)]; simpl;
        rewrite ?Hu; by eauto 10.
    + assert (s1 = s) as ->.
      { revert Hq. unfold load_questions, read_questions. unfold_M.
        destruct (questions_file s) as [[| |t]|]; try (intros H; inversion H; by auto).
        destruct (questions_of_rows (DictReader t)) as [[|q qs]|[]];
          intros H; inversion H; by auto. }
      by eexists false, _, s.
  - destruct (load_questions s) as [[questions|e] s1] eqn:Hq; simpl.
    + destruct (collect_users_total questions [] [] s1)
        as (all_data & out & Hfold). simpl in Hfold. unfold ret in Hfold.
      unfold ret, modify. eexists true, _, _. split; [done|].
      destruct (load_questions_cases _ _ _ Hq) as [(-> & _)|(-> & _)]; simpl;
        rewrite ?Hu; by eauto 10.
    + assert (s1 = s) as ->.
      { revert Hq. unfold load_questions, read_questions. unfold_M.
        destruct (questions_file s) as [[| |t]|]; try (intros H; inversion H; by auto).
        destruct (questions_of_rows (DictReader t)) as [[|q qs]|[]];
          intros H; inversion H; by auto. }
      by eexists false, _, s.
Qed.

Lemma export_rows_in_range (username : string) (questions : list Question)
    (responses : list Response) :
  Forall (fun r => 0 <= question_id r < Z.of_nat (length questions)) responses ->
  export_rows username questions responses
  = (dict_to_list results_fieldnames <$> rows_in_range username questions responses, None).
Proof.
  induction 1 as [|r responses Hr _ IH]; [done|].
  unfold rows_in_range in *. simpl.
  rewrite py_index_nonneg by lia.
  destruct (Z.leb_spec 0 (question_id r)); [|lia].
  destruct (lookup_lt_is_Some_2 questions (Z.to_nat (question_id r))) as [q Hq]; [lia|].
  rewrite Hq. simpl. by rewrite IH.
Qed.

Lemma all_data_table_of_rows (questions : list Question) (s : fs) (usernames : list string) :
  all_data_table (usernames ≫= rows_of_user questions s)
  = match usernames ≫= rows_of_user questions s with
    | [] => [[PStr "No data available"]]
    | rows => header_row results_fieldnames :: (dict_to_list results_fieldnames <$> rows)
    end.
Proof.
  unfold all_data_table.
  destruct (usernames ≫= rows_of_user questions s) as [|first rows] eqn:Hall; [done|].
  assert (Hkeys : od_keys first = results_fieldnames); [|by rewrite Hkeys].
  assert (Hin : first ∈ usernames ≫= rows_of_user questions s)
    by (rewrite Hall; apply list_elem_of_here).
  apply list_elem_of_bind in Hin as (u & Hin & _).
  unfold rows_of_user in Hin.
  destruct (fst (load_responses u s)) as [responses|e]; [|by apply elem_of_nil in Hin].
  unfold rows_in_range in Hin. apply list_elem_of_omap in Hin as (r & _ & Hr).
  destruct (0 <=? question_id r); [|done].
  destruct (questions !! Z.to_nat (question_id r)); by simplify_eq/=.
Qed.

Lemma own_rows_in_range (questions : list Question) (s : fs) (usernames : list string) :
  (forall username responses,
     username ∈ usernames ->
     fst (load_responses username s) = Ok responses ->
     Forall (fun r => 0 <= question_id r < Z.of_nat (length questions)) responses) ->
  dict_to_list results_fieldnames <$> (usernames ≫= rows_of_user questions s)
  = usernames ≫= own_rows questions s.
Proof.
  induction usernames as [|u usernames IH]; intros Hin; [done|].
  rewrite !bind_cons, fmap_app, IH
    by (intros; eapply Hin; [by apply list_elem_of_further|done]).
  f_equal. unfold rows_of_user, own_rows.
  destruct (fst (load_responses u s)) as [responses|e] eqn:Hload; [|done].
  rewrite export_rows_in_range; [done|].
  eapply Hin; [apply list_elem_of_here|done].
Qed.

(** X16. The two exports agree. When every ledger that loads holds
    ordinals of the catalog only, [export_all_data] writes, under the
    header, the data rows that [export_results] writes for each user, user
    after user in the order of the account table; when there is no such row
    it writes the placeholder instead of the bare header. *)
Theorem export_all_data_agrees (s : fs) (users : odict Account) (questions : list Question) :
  fst (load_users s) = Ok users ->
  fst (load_questions s) = Ok questions ->
  (forall username responses,
     username ∈ od_keys users ->
     fst (load_responses username s) = Ok responses ->
     Forall (fun r => 0 <= question_id r < Z.of_nat (length questions)) responses) ->
  exists s',
    export_all_data s = (Ok (true, Text "all_preference_data.csv"), s')
    /\ all_data_file s'
       = Some (match od_keys users ≫= own_rows questions s with
               | [] => [[PStr "No data available"]]
               | rows => header_row results_fieldnames :: rows
               end).
Proof.
  intros Hu%load_users_Ok Hq Hin.
  destruct (load_questions s) as [rq s1] eqn:Hlq. simpl in Hq. subst rq.
  assert (Hsame : same_ledgers s s1).
  { destruct (load_questions_cases _ _ _ Hlq) as [(-> & _)|(-> & _)]; done. }
  assert (Hnn : forall username responses,
             username ∈ od_keys users ->
             fst (load_responses username s) = Ok responses ->
             Forall (fun r => 0 <= question_id r) responses).
  { intros u rs Hu' Hl. eapply Forall_impl; [by eapply Hin|]. simpl. lia. }
  eexists. split.
  - unfold export_all_data, try_except, bind. rewrite Hu, Hlq.
    rewrite (collect_users_nonneg questions (od_keys users) [] s s1 Hsame Hnn).
    unfold modify, ret. reflexivity.
  - simpl. rewrite all_data_table_of_rows.
    rewrite <- (own_rows_in_range questions s (od_keys users) Hin).
    by destruct (od_keys users ≫= rows_of_user questions s).
Qed.

Lemma export_all_data_agrees_witness :
  fst (load_users fs_two_users)
    = Ok [ ("u1", mkAccount "h1" (Some "2024-02-01 08:00:00"));
           ("u2", mkAccount "h2" (Some "2024-02-02 08:00:00")) ]
  /\ fst (load_questions fs_two_users) = Ok sample_questions
  /\ (forall username responses,
        username ∈ ["u1"; "u2"] ->
        fst (load_responses username fs_two_users) = Ok responses ->
        Forall (fun r => 0 <= question_id r < Z.of_nat (length sample_questions)) responses)
  /\ exists s',
       export_all_data fs_two_users = (Ok (true, Text "all_preference_data.csv"), s')
       /\ all_data_file s'
          = Some (header_row results_fieldnames
                  :: (own_rows sample_questions fs_two_users "u1"
                      ++ own_rows sample_questions fs_two_users "u2")).
Proof.
  assert (H3 : forall username responses,
             username ∈ ["u1"; "u2"] ->
             fst (load_responses username fs_two_users) = Ok responses ->
             Forall (fun r => 0 <= question_id r < Z.of_nat (length sample_questions))
               responses).
  { intros username responses Hin.
    repeat (apply elem_of_cons in Hin as [->|Hin]); [| |by apply elem_of_nil in Hin];
      vm_compute; intros H; inversion H; repeat constructor; discriminate. }
  split; [reflexivity|]. split; [reflexivity|]. split; [exact H3|].
  destruct (export_all_data_agrees fs_two_users _ _ eq_refl eq_refl H3)
    as (s' & Hexp & Hfile).
  exists s'. split; [exact Hexp|exact Hfile].
Defined.

(** ** The statistics *)

Lemma tally_user_entry (users : odict Account) (question_count : Z) (t : Tally)
    (username : string) (s : fs) :
  exists t',
    tally_user users question_count t username s = (Ok t', s)
    /\ total_responses t'
       = total_responses t + responses_loaded s [username]
    /\ user_progress t'
       = od_set username (progress_of users question_count s username) (user_progress t).
Proof.
  unfold tally_user, try_except, bind, progress_of, responses_loaded.
  cbn [foldr]. rewrite !load_responses_spec. simpl.
  destruct (data_files s !! username) as [[| |responses]|]; simpl;
    (eexists; split; [reflexivity|]); simpl; split; try done; lia.
Qed.

Lemma tally_users_entries (users : odict Account) (question_count : Z)
    (usernames : list string) (t : Tally) (s : fs) :
  exists t',
    foldM (tally_user users question_count) t usernames s = (Ok t', s)
    /\ total_responses t' = total_responses t + responses_loaded s usernames
    /\ user_progress t'
       = foldl (fun d u => od_set u (progress_of users question_count s u) d)
           (user_progress t) usernames.
Proof.
  revert t. induction usernames as [|u usernames IH]; intros t.
  - exists t. split; [done|]. split; [simpl; lia|done].
  - destruct (tally_user_entry users question_count t u s) as (t1 & Ht1 & Htot1 & Hup1).
    destruct (IH t1) as (t' & Ht' & Htot & Hup).
    exists t'. split; [simpl; unfold bind; by rewrite Ht1|].
    split.
    + rewrite Htot, Htot1. unfold responses_loaded. simpl.
      destruct (fst (load_responses u s)); lia.
    + rewrite Hup, Hup1. done.
Qed.

Lemma foldl_od_set_fresh {V : Type} (f : string -> V) (keys : list string) (d : odict V) :
  NoDup keys ->
  (forall k, k ∈ keys -> k ∉ od_keys d) ->
  foldl (fun d k => od_set k (f k) d) d keys = d ++ ((fun k => (k, f k)) <$> keys).
Proof.
  intros Hnd. revert d. induction Hnd as [|k keys Hk Hnd IH]; intros d Hfresh; simpl.
  - by rewrite app_nil_r.
  - rewrite od_set_fresh by (apply od_get_None, Hfresh, list_elem_of_here).
    rewrite IH; [by rewrite <- app_assoc|].
    intros k' Hk'. unfold od_keys. rewrite fmap_app, not_elem_of_app. split.
    + by apply Hfresh, list_elem_of_further.
    + simpl. intros ->%list_elem_of_singleton. done.
Qed.

(** X17. [get_statistics] reports the number of accounts, the number of
    records of the ledgers that load, and one progress entry per account, in
    the order of the account table: the size of the ledger with the
    [float] [(len(responses) / question_count) * 100] (the [int] 0 when
    [question_count] is not positive), or zeros for a ledger that does not
    load; it writes nothing. *)
Theorem get_statistics_totals (s : fs) (users : odict Account) (question_count : Z) :
  fst (load_users s) = Ok users ->
  NoDup (od_keys users) ->
  fst (count_questions s) = Ok question_count ->
  exists st,
    get_statistics s = (Ok st, s)
    /\ st_total_users st = Z.of_nat (length users)
    /\ st_question_count st = question_count
    /\ st_total_responses st = responses_loaded s (od_keys users)
    /\ st_user_progress st
       = (fun u => (u, progress_of users question_count s u)) <$> od_keys users.
Proof.
  intros Hu%load_users_Ok Hnd Hq.
  assert (Hcq : count_questions s = (Ok question_count, s)).
  { pose proof (count_questions_state s) as Hst.
    destruct (count_questions s) as [r s1]. simpl in *. by subst. }
  destruct (tally_users_entries users question_count (od_keys users) (mkTally 0 0 []) s)
    as (t & Ht & Htot & Hup).
  eexists. split.
  - unfold get_statistics, bind. rewrite Hu, Hcq.
    unfold tally_users. rewrite Ht. reflexivity.
  - simpl. split; [done|]. split; [done|]. split; [by rewrite Htot|].
    rewrite Hup. simpl. rewrite foldl_od_set_fresh; [done|done|].
    intros k _. apply not_elem_of_nil.
Qed.

Lemma get_statistics_totals_witness :
  fst (load_users fs_two_users)
    = Ok [ ("u1", mkAccount "h1" (Some "2024-02-01 08:00:00"));
           ("u2", mkAccount "h2" (Some "2024-02-02 08:00:00")) ]
  /\ NoDup ["u1"; "u2"]
  /\ fst (count_questions fs_two_users) = Ok 3
  /\ exists st,
       get_statistics fs_two_users = (Ok st, fs_two_users)
       /\ st_total_users st = 2
       /\ st_total_responses st = 4
       /\ st_user_progress st
          = [ ("u1", mkProgress 3 (Float 100) "2024-02-01 08:00:00");
              ("u2", mkProgress 1 (Float 0x1.0aaaaaaaaaaaap+5) "2024-02-02 08:00:00") ].
Proof.
  assert (Hnd : NoDup ["u1"; "u2"]).
  { repeat (apply NoDup_cons; split;
            [intros Hin; repeat (apply elem_of_cons in Hin as [Hin|Hin]; [discriminate|]);
             by apply elem_of_nil in Hin|]).
    apply NoDup_nil_2. }
  split; [reflexivity|]. split; [exact Hnd|]. split; [reflexivity|].
  destruct (get_statistics_totals fs_two_users _ 3 eq_refl Hnd eq_refl)
    as (st & Hst & Htotal & _ & Hresp & Hprog).
  exists st. split; [exact Hst|]. split; [exact Htotal|]. split; [exact Hresp|exact Hprog].
Defined.

(** X18. [get_statistics] never writes, whether it returns or raises. It
    raises exactly when [users.json] or [questions.csv] is there but cannot
    be read, with the error of that read; a ledger that cannot be read does
    not make it raise. *)
Theorem get_statistics_reads_only (s : fs) :
  snd (get_statistics s) = s
  /\ forall e,
       fst (get_statistics s) = Raise e
       <-> fst (load_users s) = Raise e
           \/ ((exists users, fst (load_users s) = Ok users)
               /\ fst (count_questions s) = Raise e).
Proof.
  unfold get_statistics, bind.
  destruct (load_users s) as [[users|e0] s0] eqn:Hu.
  - assert (s0 = s) as -> by (rewrite load_users_spec in Hu; by inversion Hu).
    pose proof (count_questions_state s) as Hst.
    destruct (count_questions s) as [[question_count|e1] s1]; simpl in Hst; subst s1.
    + destruct (tally_users_entries users question_count (od_keys users)
                  (mkTally 0 0 []) s) as (t & Ht & _).
      unfold tally_users. rewrite Ht. simpl. split; [done|].
      intros e. split; [done|]. intros [?|[_ ?]]; done.
    + simpl. split; [done|]. intros e. split.
      * intros [= ->]. right. split; [by eexists|done].
      * intros [?|[_ ?]]; [done|congruence].
  - assert (s0 = s) as -> by (rewrite load_users_spec in Hu; by inversion Hu).
    simpl. split; [done|]. intros e. split.
    + intros [= ->]. by left.
    + intros [?|[[users ?] _]]; congruence.
Qed.

(** ** The pages of the web front-end *)

Lemma filter_seq_below (n m : nat) :
  (n <= m)%nat -> filter (fun q => q < n)%nat (seq 0 m) = seq 0 n.
Proof.
  intros Hle. replace m with (n + (m - n))%nat by lia.
  rewrite seq_app, filter_app. simpl.
  assert (H1 : forall a k, (a + k <= n)%nat -> filter (fun q => q < n)%nat (seq a k) = seq a k).
  { intros a k. revert a. induction k as [|k IH]; intros a Hak; [done|].
    simpl. rewrite filter_cons_True by lia. rewrite IH by lia. done. }
  assert (H2 : forall a k, (n <= a)%nat -> filter (fun q => q < n)%nat (seq a k) = []).
  { intros a k. revert a. induction k as [|k IH]; intros a Hak; [done|].
    simpl. rewrite filter_cons_False by lia. apply IH. lia. }
  rewrite H1 by lia. rewrite H2 by lia. by rewrite app_nil_r.
Qed.

Lemma goto_row (n row : nat) :
  (col_idx ← seq 0 5;
   if bool_decide (row * 5 + col_idx < n)%nat then [(row * 5 + col_idx)%nat] else [])
  = filter (fun q => q < n)%nat (seq (row * 5) 5).
Proof.
  cbn [seq mbind list_bind foldr app].
  rewrite !filter_cons, filter_nil.
  replace (row * 5 + 0)%nat with (row * 5)%nat by lia.
  replace (row * 5 + 1)%nat with (S (row * 5)) by lia.
  replace (row * 5 + 2)%nat with (S (S (row * 5))) by lia.
  replace (row * 5 + 3)%nat with (S (S (S (row * 5)))) by lia.
  replace (row * 5 + 4)%nat with (S (S (S (S (row * 5))))) by lia.
  repeat case_bool_decide; repeat case_decide; try lia; reflexivity.
Qed.

Lemma goto_rows (n num_rows : nat) :
  (row ← seq 0 num_rows; filter (fun q => q < n)%nat (seq (row * 5) 5))
  = filter (fun q => q < n)%nat (seq 0 (num_rows * 5)).
Proof.
  induction num_rows as [|k IH]; [done|].
  rewrite seq_S, bind_app, IH, bind_singleton.
  replace (S k * 5)%nat with (k * 5 + 5)%nat by lia.
  by rewrite seq_app, filter_app.
Qed.

Lemma goto_buttons_filter (num_questions : nat) :
  goto_buttons num_questions
  = filter (fun q => q < num_questions)%nat
      (seq 0 ((num_questions + 5 - 1) / 5 * 5)).
Proof.
  unfold goto_buttons.
  erewrite list_bind_ext; [|intros row; apply goto_row|reflexivity].
  apply goto_rows.
Qed.

Lemma goto_buttons_below (num_questions q_idx : nat) :
  q_idx ∈ goto_buttons num_questions -> (q_idx < num_questions)%nat.
Proof. rewrite goto_buttons_filter. by intros [? _]%list_elem_of_filter. Qed.

(** X19. The grid of buttons of [summary_page], laid out in rows of 5 by
    a rounded-up division, has one button for every question and no other:
    the indices it can set are 0, 1, ..., [num_questions - 1], in order. *)
Theorem goto_buttons_all (num_questions : nat) :
  goto_buttons num_questions = seq 0 num_questions.
Proof.
  rewrite goto_buttons_filter. apply filter_seq_below.
  pose proof (Nat.div_mod_eq (num_questions + 5 - 1) 5) as Hdiv.
  pose proof (Nat.mod_upper_bound (num_questions + 5 - 1) 5) as Hmod.
  lia.
Qed.

(** X20. The name "admin" is an account like any other: when no account
    has it, the "Register" button creates it for whoever asks, with any
    non-empty password, and the "Login" button then opens a session with
    [is_admin] set. For every other name a successful login leaves
    [is_admin] unset. *)
Theorem admin_is_first_come (sha256_hexdigest : string -> string)
    (now pw : string) (s : fs) (users : odict Account) :
  fst (load_users s) = Ok users ->
  od_get "admin" users = None ->
  pw <> "" ->
  exists s1 ss,
    register_button sha256_hexdigest now "admin" pw pw s
      = (Ok (st_success (Text "Registration successful")), s1)
    /\ login_button sha256_hexdigest "admin" pw fresh_session s1
       = (Ok (ss, st_success (Text "Authentication successful")), s1)
    /\ logged_in ss = true
    /\ session_username ss = Some "admin"
    /\ is_admin ss = true
    /\ (forall username pw' ss' fb s2,
          login_button sha256_hexdigest username pw' fresh_session s2 = (Ok (ss', fb), s2) ->
          is_admin ss' = true -> username = "admin").
Proof.
  intros Hu Hnew Hpw.
  assert (Hreg : register_user sha256_hexdigest now "admin" pw s
                 = (Ok (true, Text "Registration successful"),
                    set_users_file
                      (Some (Holding
                         (users ++ [("admin", mkAccount (sha256_hexdigest pw) (Some now))])))
                      s)).
  { rewrite (register_user_fresh _ _ _ _ _ users);
      [|by apply load_users_Ok|by unfold od_mem; rewrite Hnew].
    by rewrite od_set_fresh. }
  set (s1 := set_users_file
               (Some (Holding (users ++ [("admin", mkAccount (sha256_hexdigest pw) (Some now))])))
               s) in *.
  assert (Hu1 : fst (load_users s1)
                = Ok (od_set "admin" (mkAccount (sha256_hexdigest pw) (Some now)) users)).
  { unfold s1. rewrite load_users_spec. simpl. by rewrite od_set_fresh. }
  assert (Hempty : is_empty pw = false) by (unfold is_empty; by rewrite bool_decide_false).
  exists s1, (mkSession true (Some "admin") true None false).
  split; [|split; [|split; [done|split; [done|split; [done|]]]]].
  - unfold register_button, bind. rewrite Hempty. simpl.
    rewrite bool_decide_true by done. simpl. by rewrite Hreg.
  - unfold login_button, bind. rewrite Hempty. simpl.
    rewrite (authenticate_spec _ _ _ _ _ Hu1), od_get_set_eq. simpl.
    by rewrite decide_True.
  - intros username pw' ss' fb s2. unfold login_button, bind.
    destruct (is_empty username || is_empty pw'); [by intros [= <- _]|].
    destruct (authenticate sha256_hexdigest username pw' s2) as [[[[] m]|e] s3];
      unfold ret; intros H; inversion H; subst; simpl; try done.
    intros Hadm. by apply bool_decide_eq_true in Hadm.
Qed.

Lemma admin_is_first_come_witness :
  fst (load_users fs_two_users)
    = Ok [ ("u1", mkAccount "h1" (Some "2024-02-01 08:00:00"));
           ("u2", mkAccount "h2" (Some "2024-02-02 08:00:00")) ]
  /\ od_get "admin" [ ("u1", mkAccount "h1" (Some "2024-02-01 08:00:00"));
                      ("u2", mkAccount "h2" (Some "2024-02-02 08:00:00")) ] = None
  /\ "pw" <> ""
  /\ exists s1 ss,
       register_button (String.append "sha256:") "2024-03-05 12:00:00" "admin" "pw" "pw"
         fs_two_users
       = (Ok (st_success (Text "Registration successful")), s1)
       /\ login_button (String.append "sha256:") "admin" "pw" fresh_session s1
          = (Ok (ss, st_success (Text "Authentication successful")), s1)
       /\ is_admin ss = true.
Proof.
  assert (H3 : "pw" <> "") by discriminate.
  split; [reflexivity|]. split; [reflexivity|]. split; [exact H3|].
  destruct (admin_is_first_come (String.append "sha256:") "2024-03-05 12:00:00" "pw"
              fs_two_users _ eq_refl eq_refl H3)
    as (s1 & ss & Hreg & Hlogin & _ & _ & Hadmin & _).
  exists s1, ss. split; [exact Hreg|]. split; [exact Hlogin|exact Hadmin].
Defined.

(** X21. The "Register" button refuses an empty name, an empty password
    and a confirmation that differs, before looking at any file: it shows an
    error and [users.json] is neither read nor written, even when it cannot
    be read. *)
Theorem register_button_refuses (sha256_hexdigest : string -> string)
    (now username pw confirm_password : string) (s : fs) :
  username = "" \/ pw = "" \/ pw <> confirm_password ->
  register_button sha256_hexdigest now username pw confirm_password s
  = (Ok (st_error
           (Text (if bool_decide (username = "" \/ pw = "")
                  then "Please enter both username and password"
                  else "Passwords do not match"))), s).
Proof.
  intros H. unfold register_button, is_empty.
  destruct (decide (username = "")) as [->|Hu].
  { by rewrite !bool_decide_true by auto. }
  destruct (decide (pw = "")) as [->|Hp].
  { rewrite (bool_decide_true ("" = "")) by done. rewrite orb_true_r.
    by rewrite bool_decide_true by auto. }
  destruct H as [?|[?|Hne]]; [done|done|].
  rewrite !bool_decide_false by tauto. reflexivity.
Qed.

Lemma register_button_refuses_witness :
  ("u9" = "" \/ "secret" = "" \/ "secret" <> "secert")
  /\ register_button (String.append "sha256:") "2024-03-05 12:00:00" "u9" "secret" "secert"
       (set_users_file (Some Malformed) fs_empty)
     = (Ok (st_error (Text "Passwords do not match")),
        set_users_file (Some Malformed) fs_empty).
Proof.
  assert (H : "u9" = "" \/ "secret" = "" \/ "secret" <> "secert")
    by (right; right; discriminate).
  split; [exact H|].
  exact (register_button_refuses (String.append "sha256:") "2024-03-05 12:00:00"
           "u9" "secret" "secert" (set_users_file (Some Malformed) fs_empty) H).
Defined.

Lemma load_questions_fst_ext (s s' : fs) :
  questions_file s' = questions_file s ->
  fst (load_questions s') = fst (load_questions s).
Proof.
  intros H. unfold load_questions, read_questions. unfold_M. rewrite H.
  destruct (questions_file s) as [[| |t]|]; try done.
  by destruct (questions_of_rows (DictReader t)) as [[|q qs]|[]].
Qed.

Lemma update_responses_Forall (P : Response -> Prop) (responses : list Response)
    (response : Response) :
  P response -> Forall P responses -> Forall P (update_responses responses response).
Proof.
  intros Hr Hrs. unfold update_responses.
  destruct (existing_index responses response) as [i|].
  - by apply Forall_insert.
  - rewrite sort_by_question_id_Permutation. apply Forall_app. by split; [|constructor].
Qed.

Lemma session_ok_state (username : string) (questions : list Question)
    (s s' : fs) (ss : Session) :
  session_ok username questions s ss ->
  questions_file s' = questions_file s ->
  data_files s' !! username = data_files s !! username ->
  session_ok username questions s' ss.
Proof.
  intros (Hq & Hidx & responses & Hl & Hok) Hqf Hdf.
  split; [by rewrite (load_questions_fst_ext s s')|]. split; [done|].
  exists responses. split; [|done].
  rewrite load_responses_spec in *. simpl in *. by rewrite Hdf.
Qed.

Lemma session_ok_index (username : string) (questions : list Question)
    (s : fs) (ss : Session) (i : Z) :
  session_ok username questions s ss ->
  0 <= i < Z.of_nat (length questions) ->
  session_ok username questions s (set_question_index i ss).
Proof.
  intros (Hq & _ & Hl) Hi. split; [done|]. split; [|done].
  simpl. by intros ? [= <-].
Qed.

Lemma session_ok_summary (username : string) (questions : list Question)
    (s : fs) (ss : Session) (b : bool) :
  session_ok username questions s ss ->
  session_ok username questions s (set_show_summary b ss).
Proof. intros (Hq & Hidx & Hl). by split. Qed.

Lemma session_ok_fresh (username : string) (questions : list Question)
    (s : fs) (ss : Session) :
  session_ok username questions s ss ->
  session_ok username questions s fresh_session.
Proof. intros (Hq & _ & Hl). split; [done|]. by split. Qed.

Lemma session_ok_loaded (username : string) (questions : list Question)
    (s : fs) (ss : Session) :
  session_ok username questions s ss ->
  exists s1 responses,
    load_questions s = (Ok questions, s1)
    /\ load_questions s1 = (Ok questions, s1)
    /\ load_responses username s1 = (Ok responses, s1)
    /\ fst (load_responses username s) = Ok responses
    /\ session_ok username questions s1 ss
    /\ (0 < length questions)%nat.
Proof.
  intros Hok. pose proof Hok as (Hq & Hidx & responses & Hl & Hledger).
  destruct (load_questions s) as [rq s1] eqn:Hlq. simpl in Hq. subst rq.
  exists s1, responses.
  assert (Hdf : data_files s1 = data_files s).
  { destruct (load_questions_cases _ _ _ Hlq) as [(-> & _)|(-> & _)]; done. }
  assert (Hq1 : load_questions s1 = (Ok questions, s1)).
  { destruct (load_questions_cases _ _ _ Hlq) as [(-> & _ & _)|(-> & ->)]; [done|].
    by apply load_questions_of_read, read_questions_seeded. }
  assert (Hlen : (0 < length questions)%nat).
  { destruct (load_questions_cases _ _ _ Hlq) as [(_ & Hne & _)|(_ & ->)].
    - destruct questions; [done|simpl; lia].
    - simpl. lia. }
  split; [done|]. split; [done|].
  split; [by rewrite (load_responses_same_ledgers username s s1 Hdf), Hl|].
  split; [done|]. split; [|done].
  split; [by rewrite Hq1|]. split; [done|].
  exists responses. split; [|done].
  by rewrite (load_responses_same_ledgers username s s1 Hdf).
Qed.

Lemma initial_question_index_range (responses : list Response) (questions : list Question) :
  (0 < length questions)%nat ->
  0 <= initial_question_index responses questions < Z.of_nat (length questions).
Proof.
  intros Hlen. unfold initial_question_index.
  destruct (Z.ltb_spec (Z.of_nat (length responses)) (Z.of_nat (length questions))); lia.
Qed.

Lemma session_ok_saved (username : string) (questions : list Question)
    (s : fs) (ss : Session) (responses : list Response) (response : Response) :
  session_ok username questions s ss ->
  fst (load_responses username s) = Ok responses ->
  0 <= question_id response < Z.of_nat (length questions) ->
  session_ok username questions
    (set_data_files
       (<[username := Holding (update_responses responses response)]> (data_files s)) s)
    ss.
Proof.
  intros (Hq & Hidx & responses0 & Hl & Hledger & Hrange) Hl' Hr.
  assert (responses0 = responses) as -> by congruence.
  split; [by rewrite (load_questions_fst_ext s)|]. split; [done|].
  exists (update_responses responses response).
  split; [by rewrite load_after_write|].
  split; [by apply update_responses_ok|by apply update_responses_Forall].
Qed.

Lemma status_data_Ok (answered_ids : list Z) (i : Z) (questions : list Question) :
  sentences_present questions ->
  exists rows, status_data answered_ids i questions = Ok rows.
Proof.
  intros H. revert i. induction H as [|q questions [sentence Hq] _ IH]; intros i.
  - by eexists.
  - destruct (IH (i + 1)) as [rows Hrows].
    cbn [status_data]. rewrite Hq, Hrows. by eexists.
Qed.

Lemma status_data_TypeError (answered_ids : list Z) (i : Z) (questions : list Question) :
  Exists (fun q => sentence q = None) questions ->
  status_data answered_ids i questions = Raise TypeError.
Proof.
  revert i. induction questions as [|q questions IH]; intros i Hex.
  - by apply Exists_nil in Hex.
  - cbn [status_data]. destruct (sentence q) as [sentence|] eqn:Hq; [|done].
    apply Exists_cons in Hex as [Hex|Hex]; [congruence|].
    cbn [truncated_text]. by rewrite (IH (i + 1) Hex).
Qed.

(** The summary page of a catalog with a row that stops short of its
    [translated] column: the status table raises [TypeError], whatever the
    button. *)
Lemma summary_page_TypeError (username : string) (questions : list Question)
    (ev : page_event) (ss : Session) (s : fs) :
  session_ok username questions s ss ->
  Exists (fun q => sentence q = None) questions ->
  fst (summary_page username ev ss s) = Raise TypeError.
Proof.
  intros Hok Hex.
  destruct (session_ok_loaded _ _ _ _ Hok)
    as (s1 & responses & Hlq & Hlq1 & Hl1 & Hl & Hok1 & Hlen).
  unfold summary_page, bind, lift. rewrite Hlq, Hl1.
  by rewrite (status_data_TypeError _ _ _ Hex).
Qed.

Example summary_page_short_row :
  let s := set_questions_file (Some (Holding [["text"; "multi"; "translated"]; ["a"]]))
             fs_empty in
  fst (load_questions s) = Ok [mkQuestion None (Some "a") None]
  /\ fst (summary_page "u1" NoEvent (mkSession true (Some "u1") false (Some 0) true) s)
     = Raise TypeError.
Proof. split; reflexivity. Qed.

(** X22. One run of [question_page] keeps a session sound, whatever the
    user does: when the catalog loads, the question index (once set) is a
    position of the catalog, the ledger holds one record per ordinal, in
    ascending order, each for a position of the catalog, and, where the
    session shows the summary, every question of the catalog has its
    sentence, then the page returns, the same holds afterwards for the same
    catalog, and the page never shows "Question index out of range". *)
Theorem question_page_keeps_session_ok (username now : string)
    (questions : list Question) (ev : page_event) (ss : Session) (s : fs) :
  session_ok username questions s ss ->
  event_ok questions ev ->
  (show_summary ss = true -> sentences_present questions) ->
  exists ss' fb s',
    question_page username now ev ss s = (Ok (ss', fb), s')
    /\ session_ok username questions s' ss'
    /\ fb <> Some (st_error (Text "Question index out of range")).
Proof.
  intros Hok Hev Hsent.
  destruct (session_ok_loaded _ _ _ _ Hok)
    as (s1 & responses & Hlq & Hlq1 & Hl1 & Hl & Hok1 & Hlen).
  unfold question_page, bind. rewrite Hlq, Hl1.
  set (ss0 := match question_index ss with
              | Some _ => ss
              | None => set_question_index (initial_question_index responses questions) ss
              end).
  assert (Hok0 : session_ok username questions s1 ss0).
  { unfold ss0. destruct (question_index ss); [done|].
    by apply session_ok_index, initial_question_index_range. }
  assert (Hi0 : 0 <= current_question_index ss0 < Z.of_nat (length questions)).
  { destruct Hok0 as (_ & Hidx & _). unfold current_question_index, ss0 in *.
    destruct (question_index ss) as [i|] eqn:Hi.
    - rewrite Hi. simpl. by apply Hidx.
    - simpl. by apply initial_question_index_range. }
  assert (Hss0 : show_summary ss0 = show_summary ss).
  { unfold ss0. by destruct (question_index ss). }
  clearbody ss0.
  assert (Hsum : sentences_present questions ->
           exists ss' fb s',
             summary_page username ev ss0 s1 = (Ok (ss', fb), s')
             /\ session_ok username questions s' ss'
             /\ fb <> Some (st_error (Text "Question index out of range"))).
  { intros Hpresent.
    destruct (status_data_Ok (question_id <$> responses) 0 questions Hpresent)
      as [status_rows Hstatus].
    unfold summary_page, bind, lift. rewrite Hlq1, Hl1, Hstatus.
    destruct ev; try (by eexists _, _, _).
    - case_bool_decide as Hin.
      + eexists _, _, _. split; [done|]. split; [|done].
        apply session_ok_summary, session_ok_index; [done|].
        apply goto_buttons_below in Hin. lia.
      + by eexists _, _, _.
    - destruct (export_results_total username questions responses s1)
        as (b & m & rows & Hexp & Hm). rewrite Hexp.
      destruct b; unfold ret; eexists _, _, _; (split; [done|]); split;
        try (by apply (session_ok_state _ _ s1)).
      + done.
      + destruct Hm as [-> | ->]; [|done].
        unfold results_path. intros H. inversion H. }
  destruct (sidebar questions ev ss0) as [ss1|] eqn:Hside.
  - exists ss1, None, s1. split; [done|]. split; [|done].
    unfold sidebar in Hside.
    destruct ev; simplify_eq/=;
      try (by apply session_ok_index; [done|lia]);
      try (by eapply session_ok_fresh); try (by apply session_ok_summary).
    + destruct (Z.ltb_spec 0 (current_question_index ss0)); simplify_eq.
      apply session_ok_index; [done|lia].
    + destruct (Z.ltb_spec (current_question_index ss0) (Z.of_nat (length questions) - 1));
        simplify_eq. apply session_ok_index; [done|lia].
  - destruct (show_summary ss0) eqn:Hshow;
      [apply Hsum, Hsent; by rewrite <- Hss0|].
    destruct (Z.ltb_spec (current_question_index ss0) (Z.of_nat (length questions))) as [_|];
      [|lia].
    rewrite py_index_nonneg by lia.
    destruct (lookup_lt_is_Some_2 questions (Z.to_nat (current_question_index ss0)))
      as [question Hquestion]; [lia|].
    rewrite Hquestion.
    destruct ev as [| | | | | | | |sel conf| | |];
      try (unfold sidebar in Hside; discriminate Hside);
      try (by eexists _, _, _).
    rewrite (save_response_spec _ _ _ responses) by (by rewrite Hl1).
    assert (Hsaved := session_ok_saved username questions s1 ss0 responses
                        (form_response username question (current_question_index ss0)
                           sel conf now) Hok0).
    destruct (Z.ltb_spec (current_question_index ss0) (Z.of_nat (length questions) - 1));
      unfold ret; do 3 eexists; (split; [reflexivity|]); (split; [|done]).
    + apply session_ok_index; [|lia]. apply Hsaved; [by rewrite Hl1|done].
    + apply Hsaved; [by rewrite Hl1|done].
Qed.

Lemma sample_questions_present : sentences_present sample_questions.
Proof. repeat constructor; by eexists. Defined.

Lemma session_ok_u1_02 :
  session_ok "u1" sample_questions fs_u1_02 (mkSession true (Some "u1") false (Some 1) false).
Proof.
  split; [reflexivity|]. split.
  - simpl. intros i [= <-]. lia.
  - eexists. split; [reflexivity|]. split.
    + split; simpl.
      * apply NoDup_cons. split; [|apply NoDup_singleton].
        intros H%list_elem_of_singleton. discriminate H.
      * repeat constructor. lia.
    + repeat constructor; simpl; lia.
Defined.

Lemma question_page_keeps_session_ok_witness :
  session_ok "u1" sample_questions fs_u1_02 (mkSession true (Some "u1") false (Some 1) false)
  /\ event_ok sample_questions (Go 3)
  /\ exists ss' fb s',
       question_page "u1" "2024-03-01 09:05:00" (Go 3)
         (mkSession true (Some "u1") false (Some 1) false) fs_u1_02
       = (Ok (ss', fb), s')
       /\ session_ok "u1" sample_questions s' ss'
       /\ fb <> Some (st_error (Text "Question index out of range")).
Proof.
  assert (H2 : event_ok sample_questions (Go 3)) by (simpl; lia).
  split; [exact session_ok_u1_02|]. split; [exact H2|].
  exact (question_page_keeps_session_ok "u1" "2024-03-01 09:05:00" sample_questions (Go 3)
           _ fs_u1_02 session_ok_u1_02 H2 (fun _ => sample_questions_present)).
Defined.

(** X23. "Save Answer" on the question page stores the answer to the
    question on screen: the ledger then holds, under the index of that
    question, the record with the chosen text, with option 1 when that text
    is the text of [option1] and option 2 in every other case (so also when
    nothing was chosen), and the page moves on to the next question unless
    this was the last. *)
Theorem question_page_saves (username now : string) (questions : list Question)
    (sel : cell) (conf : Z) (ss : Session) (s : fs) (i : Z) :
  session_ok username questions s ss ->
  show_summary ss = false ->
  question_index ss = Some i ->
  exists question ss' s' responses',
    questions !! Z.to_nat i = Some question
    /\ question_page username now (SaveAnswer sel conf) ss s
       = (Ok (ss', Some (st_success (Text "Response saved successfully!"))), s')
    /\ fst (load_responses username s') = Ok responses'
    /\ previous_response responses' i
       = Some (mkResponse i username (sentence question)
                 (if decide (sel = option1 question) then 1 else 2) sel conf now)
    /\ question_index ss'
       = Some (if i <? Z.of_nat (length questions) - 1 then i + 1 else i).
Proof.
  intros Hok Hsum Hi.
  destruct (session_ok_loaded _ _ _ _ Hok)
    as (s1 & responses & Hlq & Hlq1 & Hl1 & Hl & Hok1 & Hlen).
  pose proof Hok as (_ & Hidx & _). specialize (Hidx i Hi).
  destruct (lookup_lt_is_Some_2 questions (Z.to_nat i)) as [question Hquestion]; [lia|].
  unfold question_page, bind. rewrite Hlq, Hl1, Hi.
  unfold sidebar, current_question_index. rewrite Hsum, Hi. cbv beta iota.
  change (default 0 (Some i)) with i.
  destruct (Z.ltb_spec i (Z.of_nat (length questions))) as [_|]; [|lia].
  rewrite (py_index_nonneg questions i) by lia. rewrite Hquestion.
  rewrite (save_response_spec _ _ _ responses) by (by rewrite Hl1).
  exists question.
  destruct (i <? Z.of_nat (length questions) - 1); unfold ret; do 3 eexists;
    (split; [done|]); (split; [reflexivity|]);
    (split; [by rewrite load_after_write|]);
    (split; [|by rewrite ?Hi]);
    rewrite previous_response_update; unfold form_response; simpl;
    by rewrite decide_True.
Qed.

Lemma question_page_saves_witness :
  session_ok "u1" sample_questions fs_u1_02 (mkSession true (Some "u1") false (Some 1) false)
  /\ exists ss' s' responses',
       question_page "u1" "2024-03-01 09:05:00" (SaveAnswer None 3)
         (mkSession true (Some "u1") false (Some 1) false) fs_u1_02
       = (Ok (ss', Some (st_success (Text "Response saved successfully!"))), s')
       /\ fst (load_responses "u1" s') = Ok responses'
       /\ previous_response responses' 1
          = Some (mkResponse 1 "u1"
                    (Some "The company announced record profits this quarter.")
                    2 None 3 "2024-03-01 09:05:00")
       /\ question_index ss' = Some 2.
Proof.
  split; [exact session_ok_u1_02|].
  destruct (question_page_saves "u1" "2024-03-01 09:05:00" sample_questions None 3
              _ fs_u1_02 1 session_ok_u1_02 eq_refl eq_refl)
    as (question & ss' & s' & responses' & Hq & Hpage & Hload & Hprev & Hidx).
  exists ss', s', responses'.
  split; [exact Hpage|]. split; [exact Hload|]. split; [|exact Hidx].
  rewrite Hprev. simpl in Hq. injection Hq as <-. reflexivity.
Defined.

(** X24. "Export My Results" on the summary page cannot fail in a sound
    session over a catalog whose questions all have their sentence: for a
    ledger as the question page keeps it, the status table is built, the
    export succeeds and the results file holds the header and one joined row
    per record of the ledger, in the order of the ledger. *)
Theorem summary_export_succeeds (username : string) (questions : list Question)
    (ss : Session) (s : fs) :
  session_ok username questions s ss ->
  sentences_present questions ->
  exists responses rows s',
    fst (load_responses username s) = Ok responses
    /\ summary_page username ExportMyResults ss s
       = (Ok (ss, Some (st_success (Text (results_path username)))), s')
    /\ results_files s' !! username = Some (header_row results_fieldnames :: rows)
    /\ Forall2 (joins username questions) responses rows.
Proof.
  intros Hok Hpresent.
  destruct (session_ok_loaded _ _ _ _ Hok)
    as (s1 & responses & Hlq & Hlq1 & Hl1 & Hl & Hok1 & Hlen).
  destruct Hok as (_ & _ & responses0 & Hl0 & _ & Hrange).
  assert (responses0 = responses) as -> by congruence.
  destruct (export_rows_complete username questions responses) as (rows & Hrows & Hjoin).
  { eapply Forall_impl; [exact Hrange|]. unfold index_error. simpl. lia. }
  destruct (status_data_Ok (question_id <$> responses) 0 questions Hpresent)
    as [status_rows Hstatus].
  exists responses, rows. eexists. split; [done|].
  unfold summary_page, bind, lift. rewrite Hlq, Hl1, Hstatus.
  unfold export_results. unfold_M. rewrite Hrows.
  split; [reflexivity|]. split; [|done]. simpl. by rewrite lookup_insert_eq.
Qed.

Lemma summary_export_succeeds_witness :
  session_ok "u1" sample_questions fs_u1_02 (mkSession true (Some "u1") false (Some 1) false)
  /\ sentences_present sample_questions
  /\ exists responses rows s',
       fst (load_responses "u1" fs_u1_02) = Ok responses
       /\ summary_page "u1" ExportMyResults
            (mkSession true (Some "u1") false (Some 1) false) fs_u1_02
          = (Ok (mkSession true (Some "u1") false (Some 1) false,
                 Some (st_success (Text "user_data/u1_results.csv"))), s')
       /\ results_files s' !! "u1" = Some (header_row results_fieldnames :: rows)
       /\ length rows = length responses.
Proof.
  split; [exact session_ok_u1_02|]. split; [exact sample_questions_present|].
  destruct (summary_export_succeeds "u1" sample_questions _ fs_u1_02 session_ok_u1_02
              sample_questions_present)
    as (responses & rows & s' & Hl & Hpage & Hfile & Hjoin).
  exists responses, rows, s'. split; [exact Hl|]. split; [exact Hpage|].
  split; [exact Hfile|]. symmetry. exact (Forall2_length _ _ _ Hjoin).
Defined.

(** ** The desktop front-end *)

Lemma numbered_snoc (responses : list PreferenceCollector.Answer)
    (response : PreferenceCollector.Answer) :
  numbered responses ->
  PreferenceCollector.a_question_id response = Z.of_nat (length responses) ->
  numbered (responses ++ [response]).
Proof.
  unfold numbered. intros Hn Hq.
  rewrite fmap_app, length_app, Hn. simpl length.
  rewrite Nat.add_1_r, seq_S, fmap_app. simpl. by rewrite Hq.
Qed.

(** X25. In the desktop front-end, from a state where [current_index] is
    the number of records (as [load_responses] leaves it), every accepted
    submission appends: the new record carries the old number of records as
    its [question_id], the file holds the longer list, [current_index] is
    again the number of records, a ledger numbered 0, 1, 2, ... stays so,
    and loading again changes nothing. The branch that overwrites a record
    is not taken. *)
Theorem desktop_submit_appends (option_var confidence_var : Z) (now : string)
    (st : PreferenceCollector.State) :
  resumed st ->
  option_var <> 0 ->
  (length (PreferenceCollector.responses st) < length (PreferenceCollector.questions st))%nat ->
  exists question st',
    PreferenceCollector.questions st !! length (PreferenceCollector.responses st)
      = Some question
    /\ PreferenceCollector.submit_response option_var confidence_var now st
       = (Ok PreferenceCollector.Submitted, st')
    /\ PreferenceCollector.responses st'
       = PreferenceCollector.responses st
         ++ [PreferenceCollector.mkAnswer
               (Z.of_nat (length (PreferenceCollector.responses st)))
               (sentence question) option_var
               (if option_var =? 1 then option1 question else option2 question)
               confidence_var now]
    /\ PreferenceCollector.data_file st'
       = Some (Holding (PreferenceCollector.responses st'))
    /\ PreferenceCollector.questions st' = PreferenceCollector.questions st
    /\ resumed st'
    /\ (numbered (PreferenceCollector.responses st)
        -> numbered (PreferenceCollector.responses st'))
    /\ PreferenceCollector.load_responses st' = (Ok tt, st').
Proof.
  intros Hres Hopt Hlt. unfold resumed in Hres.
  destruct (lookup_lt_is_Some_2 (PreferenceCollector.questions st)
              (length (PreferenceCollector.responses st)) Hlt) as [question Hq].
  exists question. eexists. split; [done|].
  unfold PreferenceCollector.submit_response.
  destruct (Z.eqb_spec option_var 0) as [|_]; [done|].
  rewrite Hres, py_index_nonneg, Nat2Z.id, Hq by lia.
  rewrite Z.ltb_irrefl. simpl.
  split; [reflexivity|]. simpl.
  split; [done|]. split; [done|]. split; [done|]. split.
  { unfold resumed. simpl. rewrite length_app. simpl. lia. }
  split.
  { intros Hn. by apply numbered_snoc. }
  unfold PreferenceCollector.load_responses. simpl.
  rewrite length_app. simpl. do 3 f_equal. lia.
Qed.

Lemma desktop_submit_appends_witness :
  resumed (PreferenceCollector.mkState sample_questions [] 0 None None)
  /\ 2 <> 0
  /\ (length (PreferenceCollector.responses
                (PreferenceCollector.mkState sample_questions [] 0 None None))
      < length (PreferenceCollector.questions
                  (PreferenceCollector.mkState sample_questions [] 0 None None)))%nat
  /\ exists st',
       PreferenceCollector.submit_response 2 4 "2024-03-01 09:00:00"
         (PreferenceCollector.mkState sample_questions [] 0 None None)
       = (Ok PreferenceCollector.Submitted, st')
       /\ PreferenceCollector.data_file st'
          = Some (Holding
               [PreferenceCollector.mkAnswer 0
                  (Some "The movie was really enjoyable and entertaining.") 2
                  (Some "The cinematic experience gave me great pleasure.") 4
                  "2024-03-01 09:00:00"])
       /\ PreferenceCollector.current_index st' = 1.
Proof.
  assert (H1 : resumed (PreferenceCollector.mkState sample_questions [] 0 None None))
    by reflexivity.
  assert (H2 : 2 <> 0) by discriminate.
  assert (H3 : (length (PreferenceCollector.responses
                          (PreferenceCollector.mkState sample_questions [] 0 None None))
                < length (PreferenceCollector.questions
                            (PreferenceCollector.mkState sample_questions [] 0 None None)))%nat)
    by (simpl; lia).
  split; [exact H1|]. split; [exact H2|]. split; [exact H3|].
  destruct (desktop_submit_appends 2 4 "2024-03-01 09:00:00" _ H1 H2 H3)
    as (question & st' & Hq & Hsub & Hresp & Hfile & _ & Hres & _).
  exists st'. split; [exact Hsub|]. split.
  - rewrite Hfile, Hresp. simpl in Hq. injection Hq as <-. reflexivity.
  - rewrite Hres, Hresp. reflexivity.
Defined.

(** X26. The desktop [submit_response] changes nothing when it does not
    accept a submission: with no option selected it asks for a selection,
    and once every question has a record (from a resumed state) it raises
    [IndexError]; in both cases the records, the index and the files are as
    before. *)
Theorem desktop_submit_refused (option_var confidence_var : Z) (now : string)
    (st : PreferenceCollector.State) :
  (option_var = 0 ->
   PreferenceCollector.submit_response option_var confidence_var now st
   = (Ok PreferenceCollector.SelectionRequired, st))
  /\ (option_var <> 0 -> resumed st ->
      (length (PreferenceCollector.questions st)
       <= length (PreferenceCollector.responses st))%nat ->
      PreferenceCollector.submit_response option_var confidence_var now st
      = (Raise IndexError, st)).
Proof.
  unfold PreferenceCollector.submit_response. split.
  - by intros ->.
  - intros Hopt Hres Hle. unfold resumed in Hres.
    destruct (Z.eqb_spec option_var 0) as [|_]; [done|].
    rewrite Hres, py_index_nonneg, Nat2Z.id by lia.
    by rewrite (proj2 (lookup_ge_None _ _)) by lia.
Qed.

Lemma desktop_submit_refused_witness :
  let answered :=
    [ PreferenceCollector.mkAnswer 0
        (Some "The movie was really enjoyable and entertaining.") 1
        (Some "I found the film to be quite delightful.") 4 "2024-03-01 09:00:00";
      PreferenceCollector.mkAnswer 1
        (Some "The company announced record profits this quarter.") 2
        (Some "The business revealed they had their most successful quarter yet.") 3
        "2024-03-01 09:01:00";
      PreferenceCollector.mkAnswer 2
        (Some "The researchers discovered a new species of frog.") 1
        (Some "Scientists identified a previously unknown amphibian of the frog family.") 5
        "2024-03-01 09:02:00" ] in
  let st := PreferenceCollector.mkState sample_questions answered 3
              (Some (Holding answered)) None in
  PreferenceCollector.submit_response 0 3 "2024-03-01 09:00:00"
    (PreferenceCollector.mkState sample_questions [] 0 None None)
  = (Ok PreferenceCollector.SelectionRequired,
     PreferenceCollector.mkState sample_questions [] 0 None None)
  /\ PreferenceCollector.load_responses
       (PreferenceCollector.mkState sample_questions [] 0 (Some (Holding answered)) None)
     = (Ok tt, st)
  /\ PreferenceCollector.submit_response 1 3 "2024-03-01 09:05:00" st
     = (Raise IndexError, st).
Proof.
  intros answered st. split; [|split].
  - apply (proj1 (desktop_submit_refused 0 3 "2024-03-01 09:00:00"
                    (PreferenceCollector.mkState sample_questions [] 0 None None))).
    reflexivity.
  - reflexivity.
  - apply (proj2 (desktop_submit_refused 1 3 "2024-03-01 09:05:00" st)).
    + discriminate.
    + reflexivity.
    + simpl. lia.
Defined.

Lemma desktop_export_rows_numbered (questions : list Question)
    (responses : list PreferenceCollector.Answer) :
  Forall (fun r => 0 <= PreferenceCollector.a_question_id r < Z.of_nat (length questions))
    responses ->
  exists rows,
    PreferenceCollector.export_rows questions responses = (rows, None)
    /\ length rows = length responses.
Proof.
  induction 1 as [|r responses Hr _ (rows & IH & Hlen)]; [by exists []|].
  simpl. rewrite py_index_nonneg by lia.
  destruct (lookup_lt_is_Some_2 questions (Z.to_nat (PreferenceCollector.a_question_id r)))
    as [q Hq]; [lia|].
  rewrite Hq, IH. eexists. split; [done|]. simpl. by rewrite Hlen.
Qed.

(** X27. The desktop export succeeds on every ledger the desktop
    front-end builds: when the records are numbered 0, 1, 2, ... and are no
    more than the questions, [export_results] reports success and the
    results file holds the header and one row per record. *)
Theorem desktop_export_succeeds (st : PreferenceCollector.State) :
  numbered (PreferenceCollector.responses st) ->
  (length (PreferenceCollector.responses st) <= length (PreferenceCollector.questions st))%nat ->
  exists rows st',
    PreferenceCollector.export_results st = (PreferenceCollector.ExportSuccessful, st')
    /\ PreferenceCollector.results_file st'
       = Some (header_row PreferenceCollector.fieldnames :: rows)
    /\ length rows = length (PreferenceCollector.responses st)
    /\ PreferenceCollector.responses st' = PreferenceCollector.responses st
    /\ PreferenceCollector.data_file st' = PreferenceCollector.data_file st.
Proof.
  intros Hn Hle.
  destruct (desktop_export_rows_numbered (PreferenceCollector.questions st)
              (PreferenceCollector.responses st)) as (rows & Hrows & Hlen).
  { apply Forall_forall. intros r Hr.
    apply list_elem_of_lookup in Hr as [i Hi].
    assert (Hq : (PreferenceCollector.a_question_id <$> PreferenceCollector.responses st) !! i
                 = Some (PreferenceCollector.a_question_id r))
      by (by rewrite list_lookup_fmap, Hi).
    rewrite Hn, list_lookup_fmap in Hq.
    apply lookup_lt_Some in Hi.
    rewrite lookup_seq_lt in Hq by done. simpl in Hq. injection Hq as <-. lia. }
  exists rows. eexists. unfold PreferenceCollector.export_results. rewrite Hrows.
  split; [reflexivity|]. by simpl.
Qed.

Lemma desktop_export_succeeds_witness :
  numbered [PreferenceCollector.mkAnswer 0
              (Some "The movie was really enjoyable and entertaining.") 2
              (Some "The cinematic experience gave me great pleasure.") 4
              "2024-03-01 09:00:00"]
  /\ (1 <= length sample_questions)%nat
  /\ exists rows st',
       PreferenceCollector.export_results
         (PreferenceCollector.mkState sample_questions
            [PreferenceCollector.mkAnswer 0
               (Some "The movie was really enjoyable and entertaining.") 2
               (Some "The cinematic experience gave me great pleasure.") 4
               "2024-03-01 09:00:00"] 1 None None)
       = (PreferenceCollector.ExportSuccessful, st')
       /\ PreferenceCollector.results_file st'
          = Some (header_row PreferenceCollector.fieldnames :: rows)
       /\ length rows = 1%nat.
Proof.
  assert (H1 : numbered [PreferenceCollector.mkAnswer 0
                           (Some "The movie was really enjoyable and entertaining.") 2
                           (Some "The cinematic experience gave me great pleasure.") 4
                           "2024-03-01 09:00:00"]) by reflexivity.
  assert (H2 : (1 <= length sample_questions)%nat) by (simpl; lia).
  split; [exact H1|]. split; [exact H2|].
  destruct (desktop_export_succeeds
              (PreferenceCollector.mkState sample_questions
                 [PreferenceCollector.mkAnswer 0
                    (Some "The movie was really enjoyable and entertaining.") 2
                    (Some "The cinematic experience gave me great pleasure.") 4
                    "2024-03-01 09:00:00"] 1 None None) H1 H2)
    as (rows & st' & Hexp & Hfile & Hlen & _).
  exists rows, st'. split; [exact Hexp|]. split; [exact Hfile|exact Hlen].
Defined.
